(** * The command handlers of the MQTT broker

    A shallow embedding of the handlers module (the ten command handlers,
    the [publish_message] fan-out and the [handle_command] dispatcher) and
    of [util.c] (the helpers the handlers call, the string and number
    helpers, the allocation wrappers).

    The C code works on two globals, [sol] (clients, topics, packet pool)
    and [conf]; here they are one record that every handler receives and
    returns.  Pointers are keys into the stores of that record: a
    [struct client *] is an index of [sol.clients], a [struct topic *] is
    the name of the topic, a pooled [struct mqtt_packet *] is the address
    of a pool block, a [struct subscriber *] is an address of the
    subscriber heap.  A handler yields [None] where the C code leaves the
    defined behaviour of the language (a call through a NULL entry, a read
    outside an array, a write through a pointer to a dead local).
    Logging has no effect on the state and is left out. *)

From Stdlib Require Import ZArith List String Ascii Bool Lia DecimalString.
From Stdlib Require DecimalFacts DecimalPos DecimalN.
Import ListNotations.
Open Scope Z_scope.

(** ** Control packet types

    The numbering is the one of the [handlers] table: position = type. *)

Definition CONNECT : Z := 1.
Definition CONNACK : Z := 2.
Definition PUBLISH : Z := 3.
Definition PUBACK : Z := 4.
Definition PUBREC : Z := 5.
Definition PUBREL : Z := 6.
Definition PUBCOMP : Z := 7.
Definition SUBSCRIBE : Z := 8.
Definition SUBACK : Z := 9.
Definition UNSUBSCRIBE : Z := 10.
Definition UNSUBACK : Z := 11.
Definition PINGRESP : Z := 13.
Definition DISCONNECT : Z := 14.

(** QoS levels. *)
Definition AT_MOST_ONCE : Z := 0.
Definition AT_LEAST_ONCE : Z := 1.
Definition EXACTLY_ONCE : Z := 2.

(** CONNACK return codes. *)
Definition MQTT_CONNECTION_ACCEPTED : Z := 0.
Definition MQTT_BAD_USERNAME_OR_PASSWORD : Z := 4.
Definition MQTT_NOT_AUTHORIZED : Z := 5.

(** ** The fixed header byte, [union mqtt_header] *)

Module Header.

(** Modelled from the spec: the bit fields of [union mqtt_header]
    ([mqtt.h] is not among the sources).  The control type is the high
    nibble, the flags DUP, QoS (two bits) and RETAIN the low nibble. *)
Definition retain (b : Z) : Z := Z.land b 1.
Definition qos (b : Z) : Z := Z.land (Z.shiftr b 1) 3.
Definition dup (b : Z) : Z := Z.land (Z.shiftr b 3) 1.
Definition type (b : Z) : Z := Z.land (Z.shiftr b 4) 15.

(** [h.bits.qos = v]: the two QoS bits are replaced, [v] is cut to two
    bits as a bit-field assignment does. *)
Definition set_qos (b v : Z) : Z :=
  Z.lor (Z.land b 249) (Z.shiftl (Z.land v 3) 1).

(** [h.bits.type = v]. *)
Definition set_type (b v : Z) : Z :=
  Z.lor (Z.land b 15) (Z.shiftl (Z.land v 15) 4).

(** The header bytes [X_B]: the type in the high nibble, no flag. *)
Definition CONNACK_B : Z := Z.shiftl CONNACK 4.
Definition PUBLISH_B : Z := Z.shiftl PUBLISH 4.
Definition PUBACK_B : Z := Z.shiftl PUBACK 4.
Definition PUBREC_B : Z := Z.shiftl PUBREC 4.
Definition SUBACK_B : Z := Z.shiftl SUBACK 4.
Definition PINGRESP_B : Z := Z.shiftl PINGRESP 4.

End Header.

(** ** Decoded packets *)

Record mqtt_connect := {
  cb_username : bool;
  cb_password : bool;
  cb_will_retain : bool;
  cb_will_qos : Z;
  cb_will : bool;
  cb_clean_session : bool;
  cp_keepalive : Z;
  cp_client_id : string;
  cp_username : string;
  cp_password : string;
  cp_will_topic : string;
  cp_will_message : string
}.

Record mqtt_publish := {
  pkt_id : Z;
  topiclen : Z;
  topic : string;
  payloadlen : Z;
  payload : string
}.

(** One (topic filter, QoS) pair of a SUBSCRIBE.  The decoder stores the
    filter as a C string together with its length; [tp_topic_len] is that
    length. *)
Record sub_tuple := {
  tp_topic : string;
  tp_qos : Z
}.

Definition tp_topic_len (t : sub_tuple) : Z :=
  Z.of_nat (String.length (tp_topic t)).

Record mqtt_subscribe := {
  sub_pkt_id : Z;
  tuples : list sub_tuple
}.

Record mqtt_unsubscribe := {
  unsub_pkt_id : Z;
  unsub_tuples : list string
}.

(** The members of the packet union.  Which member is live is known from
    the control type; a handler that reads another member than the live
    one is outside the embedding. *)
Inductive mqtt_body :=
| BConnect (c : mqtt_connect)
| BConnack (byte rc : Z)
| BPublish (p : mqtt_publish)
| BAck (ack_pkt_id : Z)
| BSubscribe (s : mqtt_subscribe)
| BSuback (suback_pkt_id : Z) (rcs : list Z)
| BUnsubscribe (u : mqtt_unsubscribe)
| BNone.

Record mqtt_packet := {
  header : Z;
  body : mqtt_body
}.

(** A [struct mqtt_packet *]: null, a block of the packet pool, or the
    address of a handler's local variable (kept with the value the local
    had when its address was stored; the local is dead once the handler
    has returned). *)
Inductive pkt_ptr :=
| NullPkt
| PoolPkt (a : nat)
| LocalPkt (p : mqtt_packet).

(** ** Staged output

    The codec is a collaborator: what [mqtt_pack] and [mqtt_pack_mono]
    emit is kept symbolically, as the packet that was encoded. *)
Inductive wire :=
| Packed (p : mqtt_packet)
| Mono (type : Z) (mono_pkt_id : Z).

(** A write into a client's [wbuf]: the offset ([towrite] at that moment)
    and what was written there. *)
Record wbuf_write := {
  w_off : Z;
  w_data : wire
}.

(** A [bstring]: its length and its content. *)
Record bstring := {
  bs_len : Z;
  bs_bytes : wire
}.

(** ** Sessions, subscribers, topics *)

Record inflight_msg := {
  in_use : bool;
  im_client : Z;
  packet : pkt_ptr;
  size : Z;
  sent_timestamp : Z
}.

Record client := {
  conn_fd : Z;
  online : bool;
  clean_session : bool;
  client_id : string;
  subscriptions : list string;
  outgoing_msgs : list pkt_ptr;
  i_msgs : Z -> inflight_msg;
  i_acks : Z -> inflight_msg;
  in_i_acks : Z -> inflight_msg;
  has_inflight : bool;
  has_lwt : bool;
  lwt_msg : mqtt_packet;
  wbuf : list wbuf_write;
  towrite : Z;
  next_mid : Z
}.

Record subscriber := {
  sub_client : Z;
  sub_qos : Z;
  sub_refs : Z
}.

Record topic_t := {
  name : string;
  subscribers : list (string * nat);
  retained_msg : option bstring
}.

(** The globals [sol], [conf] and [info], and the reactor's queue of
    clients armed for writing. *)
Record sol_t := {
  clients : Z -> client;
  topics : list topic_t;
  authentications : list (string * string);
  pool : list nat;
  pkt_mem : nat -> mqtt_packet;
  sub_mem : nat -> subscriber;
  sub_brk : nat;
  write_queue : list Z;
  messages_sent : Z;
  messages_recv : Z;
  allow_anonymous : bool
}.

(** What a handler reads from outside the broker's state: the clock, and
    the indeterminate content of its uninitialised locals. *)
Record oracle := {
  time_now : Z;
  utime_ns : Z;
  stale_char : ascii;
  stale_header : Z
}.

Record io_event := {
  ev_client : Z;
  data : mqtt_packet
}.

(** The values a handler returns. *)
Inductive outcome :=
| REPLY
| NOREPLY
| NEG_ERRCLIENTDC
| RC (code : Z).

(** ** Collaborators

    The codec's size query, the lengths it fixes, the packet-id allocator
    and the libc functions are not part of the handlers module: they are
    an interface the handlers are written against. *)
Class External := {
  mqtt_size : mqtt_packet -> Z;
  MQTT_ACK_LEN : Z;
  MQTT_HEADER_LEN : Z;
  MQTT_CLIENT_ID_LEN : nat;
  SOL_PREFIX : string;
  next_free_mid : client -> Z * client;
  crypt : string -> string -> string;
  STREQ : string -> string -> nat -> bool
}.

(** ** Field updates *)

Definition set_pkt_id (v : Z) (p : mqtt_publish) : mqtt_publish :=
  {| pkt_id := v; topiclen := topiclen p; topic := topic p;
     payloadlen := payloadlen p; payload := payload p |}.

Definition set_header (h : Z) (p : mqtt_packet) : mqtt_packet :=
  {| header := h; body := body p |}.

Definition set_in_use (v : bool) (m : inflight_msg) : inflight_msg :=
  {| in_use := v; im_client := im_client m; packet := packet m;
     size := size m; sent_timestamp := sent_timestamp m |}.

Definition set_sent_timestamp (v : Z) (m : inflight_msg) : inflight_msg :=
  {| in_use := in_use m; im_client := im_client m; packet := packet m;
     size := size m; sent_timestamp := v |}.

Definition set_packet (v : pkt_ptr) (m : inflight_msg) : inflight_msg :=
  {| in_use := in_use m; im_client := im_client m; packet := v;
     size := size m; sent_timestamp := sent_timestamp m |}.

Definition set_clean_session (v : bool) (c : client) : client :=
  {| conn_fd := conn_fd c; online := online c; clean_session := v;
     client_id := client_id c; subscriptions := subscriptions c;
     outgoing_msgs := outgoing_msgs c; i_msgs := i_msgs c;
     i_acks := i_acks c; in_i_acks := in_i_acks c;
     has_inflight := has_inflight c; has_lwt := has_lwt c;
     lwt_msg := lwt_msg c; wbuf := wbuf c; towrite := towrite c;
     next_mid := next_mid c |}.

Definition set_client_id (v : string) (c : client) : client :=
  {| conn_fd := conn_fd c; online := online c;
     clean_session := clean_session c;
     client_id := v; subscriptions := subscriptions c;
     outgoing_msgs := outgoing_msgs c; i_msgs := i_msgs c;
     i_acks := i_acks c; in_i_acks := in_i_acks c;
     has_inflight := has_inflight c; has_lwt := has_lwt c;
     lwt_msg := lwt_msg c; wbuf := wbuf c; towrite := towrite c;
     next_mid := next_mid c |}.

Definition set_subscriptions (v : list string) (c : client) : client :=
  {| conn_fd := conn_fd c; online := online c;
     clean_session := clean_session c;
     client_id := client_id c; subscriptions := v;
     outgoing_msgs := outgoing_msgs c; i_msgs := i_msgs c;
     i_acks := i_acks c; in_i_acks := in_i_acks c;
     has_inflight := has_inflight c; has_lwt := has_lwt c;
     lwt_msg := lwt_msg c; wbuf := wbuf c; towrite := towrite c;
     next_mid := next_mid c |}.

Definition set_outgoing_msgs (v : list pkt_ptr) (c : client) : client :=
  {| conn_fd := conn_fd c; online := online c;
     clean_session := clean_session c;
     client_id := client_id c; subscriptions := subscriptions c;
     outgoing_msgs := v; i_msgs := i_msgs c;
     i_acks := i_acks c; in_i_acks := in_i_acks c;
     has_inflight := has_inflight c; has_lwt := has_lwt c;
     lwt_msg := lwt_msg c; wbuf := wbuf c; towrite := towrite c;
     next_mid := next_mid c |}.

Definition set_i_msgs (v : Z -> inflight_msg) (c : client) : client :=
  {| conn_fd := conn_fd c; online := online c;
     clean_session := clean_session c;
     client_id := client_id c; subscriptions := subscriptions c;
     outgoing_msgs := outgoing_msgs c; i_msgs := v;
     i_acks := i_acks c; in_i_acks := in_i_acks c;
     has_inflight := has_inflight c; has_lwt := has_lwt c;
     lwt_msg := lwt_msg c; wbuf := wbuf c; towrite := towrite c;
     next_mid := next_mid c |}.

Definition set_i_acks (v : Z -> inflight_msg) (c : client) : client :=
  {| conn_fd := conn_fd c; online := online c;
     clean_session := clean_session c;
     client_id := client_id c; subscriptions := subscriptions c;
     outgoing_msgs := outgoing_msgs c; i_msgs := i_msgs c;
     i_acks := v; in_i_acks := in_i_acks c;
     has_inflight := has_inflight c; has_lwt := has_lwt c;
     lwt_msg := lwt_msg c; wbuf := wbuf c; towrite := towrite c;
     next_mid := next_mid c |}.

Definition set_in_i_acks (v : Z -> inflight_msg) (c : client) : client :=
  {| conn_fd := conn_fd c; online := online c;
     clean_session := clean_session c;
     client_id := client_id c; subscriptions := subscriptions c;
     outgoing_msgs := outgoing_msgs c; i_msgs := i_msgs c;
     i_acks := i_acks c; in_i_acks := v;
     has_inflight := has_inflight c; has_lwt := has_lwt c;
     lwt_msg := lwt_msg c; wbuf := wbuf c; towrite := towrite c;
     next_mid := next_mid c |}.

Definition set_has_inflight (v : bool) (c : client) : client :=
  {| conn_fd := conn_fd c; online := online c;
     clean_session := clean_session c;
     client_id := client_id c; subscriptions := subscriptions c;
     outgoing_msgs := outgoing_msgs c; i_msgs := i_msgs c;
     i_acks := i_acks c; in_i_acks := in_i_acks c;
     has_inflight := v; has_lwt := has_lwt c;
     lwt_msg := lwt_msg c; wbuf := wbuf c; towrite := towrite c;
     next_mid := next_mid c |}.

Definition set_has_lwt (v : bool) (c : client) : client :=
  {| conn_fd := conn_fd c; online := online c;
     clean_session := clean_session c;
     client_id := client_id c; subscriptions := subscriptions c;
     outgoing_msgs := outgoing_msgs c; i_msgs := i_msgs c;
     i_acks := i_acks c; in_i_acks := in_i_acks c;
     has_inflight := has_inflight c; has_lwt := v;
     lwt_msg := lwt_msg c; wbuf := wbuf c; towrite := towrite c;
     next_mid := next_mid c |}.

Definition set_lwt_msg (v : mqtt_packet) (c : client) : client :=
  {| conn_fd := conn_fd c; online := online c;
     clean_session := clean_session c;
     client_id := client_id c; subscriptions := subscriptions c;
     outgoing_msgs := outgoing_msgs c; i_msgs := i_msgs c;
     i_acks := i_acks c; in_i_acks := in_i_acks c;
     has_inflight := has_inflight c; has_lwt := has_lwt c;
     lwt_msg := v; wbuf := wbuf c; towrite := towrite c;
     next_mid := next_mid c |}.

Definition set_wbuf (v : list wbuf_write) (c : client) : client :=
  {| conn_fd := conn_fd c; online := online c;
     clean_session := clean_session c;
     client_id := client_id c; subscriptions := subscriptions c;
     outgoing_msgs := outgoing_msgs c; i_msgs := i_msgs c;
     i_acks := i_acks c; in_i_acks := in_i_acks c;
     has_inflight := has_inflight c; has_lwt := has_lwt c;
     lwt_msg := lwt_msg c; wbuf := v; towrite := towrite c;
     next_mid := next_mid c |}.

Definition set_towrite (v : Z) (c : client) : client :=
  {| conn_fd := conn_fd c; online := online c;
     clean_session := clean_session c;
     client_id := client_id c; subscriptions := subscriptions c;
     outgoing_msgs := outgoing_msgs c; i_msgs := i_msgs c;
     i_acks := i_acks c; in_i_acks := in_i_acks c;
     has_inflight := has_inflight c; has_lwt := has_lwt c;
     lwt_msg := lwt_msg c; wbuf := wbuf c; towrite := v;
     next_mid := next_mid c |}.

Definition set_subscribers (v : list (string * nat)) (t : topic_t) : topic_t :=
  {| name := name t; subscribers := v; retained_msg := retained_msg t |}.

Definition set_retained_msg (v : option bstring) (t : topic_t) : topic_t :=
  {| name := name t; subscribers := subscribers t; retained_msg := v |}.

Definition set_clients (v : Z -> client) (s : sol_t) : sol_t :=
  {| clients := v; topics := topics s;
     authentications := authentications s; pool := pool s;
     pkt_mem := pkt_mem s; sub_mem := sub_mem s; sub_brk := sub_brk s;
     write_queue := write_queue s; messages_sent := messages_sent s;
     messages_recv := messages_recv s;
     allow_anonymous := allow_anonymous s |}.

Definition set_topics (v : list topic_t) (s : sol_t) : sol_t :=
  {| clients := clients s; topics := v;
     authentications := authentications s; pool := pool s;
     pkt_mem := pkt_mem s; sub_mem := sub_mem s; sub_brk := sub_brk s;
     write_queue := write_queue s; messages_sent := messages_sent s;
     messages_recv := messages_recv s;
     allow_anonymous := allow_anonymous s |}.

Definition set_pool (v : list nat) (s : sol_t) : sol_t :=
  {| clients := clients s; topics := topics s;
     authentications := authentications s; pool := v;
     pkt_mem := pkt_mem s; sub_mem := sub_mem s; sub_brk := sub_brk s;
     write_queue := write_queue s; messages_sent := messages_sent s;
     messages_recv := messages_recv s;
     allow_anonymous := allow_anonymous s |}.

Definition set_pkt_mem (v : nat -> mqtt_packet) (s : sol_t) : sol_t :=
  {| clients := clients s; topics := topics s;
     authentications := authentications s; pool := pool s;
     pkt_mem := v; sub_mem := sub_mem s; sub_brk := sub_brk s;
     write_queue := write_queue s; messages_sent := messages_sent s;
     messages_recv := messages_recv s;
     allow_anonymous := allow_anonymous s |}.

Definition set_sub_heap (m : nat -> subscriber) (b : nat) (s : sol_t) : sol_t :=
  {| clients := clients s; topics := topics s;
     authentications := authentications s; pool := pool s;
     pkt_mem := pkt_mem s; sub_mem := m; sub_brk := b;
     write_queue := write_queue s; messages_sent := messages_sent s;
     messages_recv := messages_recv s;
     allow_anonymous := allow_anonymous s |}.

Definition set_write_queue (v : list Z) (s : sol_t) : sol_t :=
  {| clients := clients s; topics := topics s;
     authentications := authentications s; pool := pool s;
     pkt_mem := pkt_mem s; sub_mem := sub_mem s; sub_brk := sub_brk s;
     write_queue := v; messages_sent := messages_sent s;
     messages_recv := messages_recv s;
     allow_anonymous := allow_anonymous s |}.

Definition set_messages_sent (v : Z) (s : sol_t) : sol_t :=
  {| clients := clients s; topics := topics s;
     authentications := authentications s; pool := pool s;
     pkt_mem := pkt_mem s; sub_mem := sub_mem s; sub_brk := sub_brk s;
     write_queue := write_queue s; messages_sent := v;
     messages_recv := messages_recv s;
     allow_anonymous := allow_anonymous s |}.

Definition set_messages_recv (v : Z) (s : sol_t) : sol_t :=
  {| clients := clients s; topics := topics s;
     authentications := authentications s; pool := pool s;
     pkt_mem := pkt_mem s; sub_mem := sub_mem s; sub_brk := sub_brk s;
     write_queue := write_queue s; messages_sent := messages_sent s;
     messages_recv := v;
     allow_anonymous := allow_anonymous s |}.

(** Arrays and memories are total functions; [a[k] = v] is a pointwise
    update. *)
Definition upd {A : Type} (f : Z -> A) (k : Z) (v : A) : Z -> A :=
  fun i => if i =? k then v else f i.

Definition updn {A : Type} (f : nat -> A) (k : nat) (v : A) : nat -> A :=
  fun i => if Nat.eqb i k then v else f i.

(** Store [v] in the client that the pointer [c] designates. *)
Definition set_client (c : Z) (v : client) (s : sol_t) : sol_t :=
  set_clients (upd (clients s) c v) s.

(** [unsigned short] and [size_t] arithmetic. *)
Definition u16 (z : Z) : Z := z mod 65536.
Definition size_add (a b : Z) : Z := (a + b) mod 2 ^ 64.

(** ** Strings as the C code uses them *)

(** The first [n] characters of [s] (all of [s] when it is shorter). *)
Fixpoint str_prefix (n : nat) (s : string) : string :=
  match n, s with
  | S n', String c s' => String c (str_prefix n' s')
  | _, _ => EmptyString
  end.

(** [s[i]] for an index inside the characters of [s]; an index below 0
    is outside the array. *)
Definition char_at (s : string) (i : Z) : option ascii :=
  if i <? 0 then None else String.get (Z.to_nat i) s.

Definition is_char (c : ascii) (o : option ascii) : bool :=
  match o with
  | Some d => Ascii.eqb d c
  | None => false
  end.

Definition code (c : ascii) : Z := Z.of_nat (nat_of_ascii c).

(** [strncmp(a, b, n)].  The C standard fixes the value 0 for equal
    strings and only the sign otherwise; for different strings this is the
    byte difference at the first mismatch. *)
Fixpoint strncmp (a b : string) (n : nat) : Z :=
  match n with
  | O => 0
  | S n' =>
      match a, b with
      | EmptyString, EmptyString => 0
      | EmptyString, String d _ => 0 - code d
      | String c _, EmptyString => code c
      | String c a', String d b' =>
          if Ascii.eqb c d then strncmp a' b' n' else code c - code d
      end
  end.

(** [strncpy(dst, src, n)], read back as a string. *)
Definition strncpy (src : string) (n : nat) : string := str_prefix n src.

(** [%lu] of an [unsigned long]. *)
Definition fmt_lu (z : Z) : string :=
  NilZero.string_of_uint (N.to_uint (Z.to_N (z mod 2 ^ 64))).

(** ** Containers

    [hashtable.c] and [list.c] are not among the sources. *)

(** Modelled from the spec: the hashtable, a mapping from a string key to
    a value ("mapping from client_id to Subscriber"); [hashtable_put] on a
    key that is present replaces its value.  Iteration follows the order
    of the entries. *)
Fixpoint hashtable_get {A : Type} (h : list (string * A)) (k : string)
  : option A :=
  match h with
  | [] => None
  | (k', v) :: r => if String.eqb k' k then Some v else hashtable_get r k
  end.

Fixpoint hashtable_put {A : Type} (h : list (string * A)) (k : string)
  (v : A) : list (string * A) :=
  match h with
  | [] => [(k, v)]
  | (k', v') :: r =>
      if String.eqb k' k then (k, v) :: r
      else (k', v') :: hashtable_put r k v
  end.

Fixpoint hashtable_del {A : Type} (h : list (string * A)) (k : string)
  : list (string * A) :=
  match h with
  | [] => []
  | (k', v') :: r =>
      if String.eqb k' k then r else (k', v') :: hashtable_del r k
  end.

Definition hashtable_size {A : Type} (h : list (string * A)) : Z :=
  Z.of_nat (List.length h).

(** Modelled from the spec: [list_push] enqueues at the tail of the list
    ("appended to outgoing_msgs", "flushed in FIFO order"). *)
Definition list_push {A : Type} (l : list A) (x : A) : list A := l ++ [x].

Definition list_size {A : Type} (l : list A) : Z := Z.of_nat (List.length l).

(** ** The topic store

    The trie and the [sol_topic_*] functions are not among the sources. *)

Fixpoint find_topic (ts : list topic_t) (n : string) : option topic_t :=
  match ts with
  | [] => None
  | t :: r => if String.eqb (name t) n then Some t else find_topic r n
  end.

Fixpoint update_topic (ts : list topic_t) (n : string)
  (f : topic_t -> topic_t) : list topic_t :=
  match ts with
  | [] => []
  | t :: r =>
      if String.eqb (name t) n then f t :: r
      else t :: update_topic r n f
  end.

(** Modelled from the spec: [sol_topic_get], exact lookup by name. *)
Definition sol_topic_get (s : sol_t) (n : string) : option topic_t :=
  find_topic (topics s) n.

Definition sol_topic_exists (s : sol_t) (n : string) : bool :=
  match sol_topic_get s n with
  | Some _ => true
  | None => false
  end.

Definition sol_topic_put (s : sol_t) (t : topic_t) : sol_t :=
  set_topics (topics s ++ [t]) s.

(** Modelled from the spec: [sol_topic_get_or_create]; a topic that does
    not exist yet is created without subscriber and without retained
    message, and stored.  The pointer it returns is the name. *)
Definition sol_topic_get_or_create (s : sol_t) (n : string) : sol_t :=
  if sol_topic_exists s n then s
  else sol_topic_put s
         {| name := n; subscribers := []; retained_msg := None |}.

(** In-place update of the topic that the pointer [n] designates. *)
Definition with_topic (n : string) (f : topic_t -> topic_t) (s : sol_t)
  : sol_t :=
  set_topics (update_topic (topics s) n f) s.

(** Modelled from the spec: [trie_prefix_map] calls [fn] on every topic
    stored at or below [prefix] ("invokes fn(node) for every descendant
    with non-null payload"). *)
Definition trie_prefix_map (prefix : string)
  (fn : string -> sol_t -> sol_t) (s : sol_t) : sol_t :=
  fold_left
    (fun acc t =>
       if String.prefix prefix (name t) then fn (name t) acc else acc)
    (topics s) s.

(** ** The packet pool and the inflight slots *)

(** Modelled from the spec: the packet pool ([memorypool.c] is not among
    the sources) as the list of its free blocks; [memorypool_alloc] takes
    a block from it, [memorypool_free] hands a block back to it (a null
    pointer is left alone, a pointer to a local is no block of the
    pool). *)
Definition memorypool_alloc (s : sol_t) : option (nat * sol_t) :=
  match pool s with
  | [] => None
  | a :: r => Some (a, set_pool r s)
  end.

Definition memorypool_free (p : pkt_ptr) (s : sol_t) : option sol_t :=
  match p with
  | NullPkt => Some s
  | PoolPkt a => Some (set_pool (a :: pool s) s)
  | LocalPkt _ => None
  end.

(** Modelled from the spec: [inflight_msg_init] fills a slot
    ("{ in_use, client_ref, packet, size, sent_timestamp }") and marks it
    in use. *)
Definition inflight_msg_init (o : oracle) (c : Z) (p : pkt_ptr) (len : Z)
  : inflight_msg :=
  {| in_use := true; im_client := c; packet := p; size := len;
     sent_timestamp := time_now o |}.

(** Modelled from the spec: [mqtt_ack] stores the packet id in the ack
    member of the packet; the header is left as it is. *)
Definition mqtt_ack (p : mqtt_packet) (id : Z) : mqtt_packet :=
  {| header := header p; body := BAck (u16 id) |}.

(** Modelled from the spec: [mqtt_suback] fills the SUBACK member ("a
    SUBACK carrying the granted-QoS list in tuple order"). *)
Definition mqtt_suback (p : mqtt_packet) (id : Z) (rcs : list Z)
  : mqtt_packet :=
  {| header := header p; body := BSuback id rcs |}.

(** ** Writing to a client

    [mqtt_pack(pkt, c->wbuf + c->towrite)], [mqtt_pack_mono] and [memcpy]
    write at the offset [towrite]; the handlers advance [towrite] in a
    statement of its own. *)
Definition wbuf_put (w : wire) (c : client) : client :=
  set_wbuf (wbuf c ++ [{| w_off := towrite c; w_data := w |}]) c.

Definition towrite_add (len : Z) (c : client) : client :=
  set_towrite (size_add (towrite c) len) c.

(** The reactor's [enqueue_event_write(ctx, c)]. *)
Definition enqueue_event_write (c : Z) (s : sol_t) : sol_t :=
  set_write_queue (write_queue s ++ [c]) s.

(** ** The handlers *)

Section Handlers.

Context {X : External}.

(** Chaining of steps that may leave defined behaviour. *)
Definition bind {A B : Type} (m : option A) (f : A -> option B)
  : option B :=
  match m with
  | Some a => f a
  | None => None
  end.

Notation "'do' x <- m ; f" := (bind m (fun x => f))
  (at level 10, x pattern, m at level 100, f at level 200).

(** *** [publish_message] *)

(** The QoS > 0 branch of the loop body, for the online subscriber
    [sub] (client [sc]): a packet id is taken, the free slots
    [i_msgs[mid]] and [i_acks[mid]] are initialised, [has_inflight] is
    set. *)
Definition track_inflight (o : oracle) (pkt : nat) (pb : mqtt_publish)
  (h len : Z) (sub : subscriber) (s : sol_t) : sol_t :=
  let sc := sub_client sub in
  let '(m, c1) := next_free_mid (clients s sc) in
  let mid := u16 m in
  (* pkt->publish.pkt_id = mid; *)
  let s1 :=
    set_pkt_mem
      (updn (pkt_mem s) pkt
         {| header := h; body := BPublish (set_pkt_id mid pb) |}) s in
  let c2 :=
    if negb (in_use (i_msgs c1 mid)) then
      set_i_msgs
        (upd (i_msgs c1) mid (inflight_msg_init o sc (PoolPkt pkt) len)) c1
    else c1 in
  let c3 :=
    if negb (in_use (i_acks c2 mid)) then
      let type :=
        if sub_qos sub =? AT_LEAST_ONCE then PUBACK else PUBREC in
      let ack := mqtt_ack {| header := type; body := BNone |} mid in
      set_i_acks
        (upd (i_acks c2) mid (inflight_msg_init o sc (LocalPkt ack) len)) c2
    else c2 in
  set_client sc (set_has_inflight true c3) s1.

(** The tail of the loop body: the packet is encoded into the
    subscriber's [wbuf], a write is scheduled, the counter advances. *)
Definition deliver (pkt : nat) (len : Z) (sc : Z) (s : sol_t) : sol_t :=
  let c := clients s sc in
  let c1 := wbuf_put (Packed (pkt_mem s pkt)) c in
  let c2 := towrite_add len c1 in
  let s1 := set_client sc c2 s in
  let s2 := enqueue_event_write sc s1 in
  set_messages_sent (messages_sent s2 + 1) s2.

(** One turn of the [FOREACH] loop, for the subscriber at address [a].
    [qos] is the QoS the packet had when [publish_message] was
    entered. *)
Definition publish_step (o : oracle) (qos : Z) (pkt : nat) (s : sol_t)
  (a : nat) : option sol_t :=
  let sub := sub_mem s a in
  let sc := sub_client sub in
  let p0 := pkt_mem s pkt in
  match body p0 with
  | BPublish pb =>
      (* pkt->header.bits.qos = qos >= sub->qos ? sub->qos : qos; *)
      let h :=
        Header.set_qos (header p0)
          (if qos >=? sub_qos sub then sub_qos sub else qos) in
      let len := mqtt_size {| header := h; body := BPublish pb |} in
      (* pkt->publish.pkt_id = 0; *)
      let pb0 := set_pkt_id 0 pb in
      let s1 :=
        set_pkt_mem
          (updn (pkt_mem s) pkt {| header := h; body := BPublish pb0 |})
          s in
      let c := clients s1 sc in
      if negb (online c) then
        if negb (clean_session c) then
          Some
            (set_client sc
               (set_outgoing_msgs
                  (list_push (outgoing_msgs c) (PoolPkt pkt)) c) s1)
        else Some s1
      else
        let s2 :=
          if Header.qos h >? AT_MOST_ONCE
          then track_inflight o pkt pb0 h len sub s1
          else s1 in
        Some (deliver pkt len sc s2)
  | _ => None
  end.

Fixpoint publish_loop (o : oracle) (qos : Z) (pkt : nat)
  (subs : list nat) (s : sol_t) : option sol_t :=
  match subs with
  | [] => Some s
  | a :: rest =>
      do s' <- publish_step o qos pkt s a;
      publish_loop o qos pkt rest s'
  end.

Definition publish_message (o : oracle) (pkt : nat) (t : string)
  (s : sol_t) : option sol_t :=
  let qos := Header.qos (header (pkt_mem s pkt)) in
  do tp <- sol_topic_get s t;
  if hashtable_size (subscribers tp) =? 0 then Some s
  else publish_loop o qos pkt (map snd (subscribers tp)) s.

(** *** The acknowledgement handlers *)

Definition ack_id (e : io_event) : option Z :=
  match body (data e) with
  | BAck id => Some id
  | _ => None
  end.

Definition release (slots : Z -> inflight_msg) (id : Z)
  : Z -> inflight_msg :=
  upd slots id (set_in_use false (slots id)).

Definition puback_handler (o : oracle) (e : io_event) (s : sol_t)
  : option (outcome * sol_t) :=
  do id <- ack_id e;
  let cp := ev_client e in
  let c := clients s cp in
  (* c->i_msgs[id].in_use = 0; *)
  let c1 := set_i_msgs (release (i_msgs c) id) c in
  (* memorypool_free(sol.pool, c->i_msgs[id].packet); *)
  do s1 <- memorypool_free (packet (i_msgs c1 id)) s;
  (* c->i_acks[id].in_use = 0; *)
  let c2 := set_i_acks (release (i_acks c1) id) c1 in
  (* c->has_inflight = false; *)
  let c3 := set_has_inflight false c2 in
  Some (NOREPLY, set_client cp c3 s1).

Definition pubrec_handler (o : oracle) (e : io_event) (s : sol_t)
  : option (outcome * sol_t) :=
  do id <- ack_id e;
  let cp := ev_client e in
  let c := clients s cp in
  let c1 := towrite_add MQTT_ACK_LEN (wbuf_put (Mono PUBREL id) c) in
  if in_use (i_acks c1 id) then
    (* c->i_acks[id].packet->header.bits.type = PUBREL; *)
    match packet (i_acks c1 id) with
    | PoolPkt a =>
        let p := pkt_mem s a in
        let s1 :=
          set_pkt_mem
            (updn (pkt_mem s) a
               (set_header (Header.set_type (header p) PUBREL) p)) s in
        let c2 :=
          set_i_acks
            (upd (i_acks c1) id
               (set_sent_timestamp (time_now o) (i_acks c1 id))) c1 in
        Some (REPLY, set_client cp c2 s1)
    | _ => None
    end
  else Some (REPLY, set_client cp c1 s).

Definition pubrel_handler (o : oracle) (e : io_event) (s : sol_t)
  : option (outcome * sol_t) :=
  do id <- ack_id e;
  let cp := ev_client e in
  let c := clients s cp in
  let c1 := towrite_add MQTT_ACK_LEN (wbuf_put (Mono PUBCOMP id) c) in
  (* c->in_i_acks[id].in_use = 0; *)
  let c2 := set_in_i_acks (release (in_i_acks c1) id) c1 in
  (* c->has_inflight = false; *)
  let c3 := set_has_inflight false c2 in
  Some (REPLY, set_client cp c3 s).

Definition pubcomp_handler (o : oracle) (e : io_event) (s : sol_t)
  : option (outcome * sol_t) :=
  do id <- ack_id e;
  let cp := ev_client e in
  let c := clients s cp in
  let c1 := set_i_acks (release (i_acks c) id) c in
  let c2 := set_i_msgs (release (i_msgs c1) id) c1 in
  do s1 <- memorypool_free (packet (i_msgs c2 id)) s;
  let c3 := set_has_inflight false c2 in
  Some (NOREPLY, set_client cp c3 s1).

Definition pingreq_handler (o : oracle) (e : io_event) (s : sol_t)
  : option (outcome * sol_t) :=
  let cp := ev_client e in
  let c := clients s cp in
  (* e->data.header.byte = PINGRESP_B; *)
  let d := set_header Header.PINGRESP_B (data e) in
  let c1 := towrite_add MQTT_HEADER_LEN (wbuf_put (Packed d) c) in
  Some (REPLY, set_client cp c1 s).

(** *** CONNECT *)

Definition set_payload_connack (rc : Z) (c : client) : client :=
  let session_present := 0 in
  let connect_flags := Z.lor 0 (Z.shiftl (Z.land session_present 1) 0) in
  let response :=
    {| header := Header.CONNACK_B; body := BConnack connect_flags rc |} in
  towrite_add MQTT_ACK_LEN (wbuf_put (Packed response) c).

(** [check_passwd] of [util.c]. *)
Definition check_passwd (passwd salt : string) : bool :=
  STREQ (crypt passwd salt) salt (String.length salt).

(** [generate_random_id] of [util.c]: [snprintf] writes at most
    [MQTT_CLIENT_ID_LEN - 2] characters of ["<prefix>-<time>"]. *)
Definition generate_random_id (o : oracle) : string :=
  str_prefix (MQTT_CLIENT_ID_LEN - 2)
    (SOL_PREFIX ++ "-" ++ fmt_lu (utime_ns o))%string.

(** The queued packets of a resuming session are encoded one after the
    other. *)
Fixpoint flush_outgoing (msgs : list pkt_ptr) (s : sol_t) (c : client)
  : option client :=
  match msgs with
  | [] => Some c
  | PoolPkt a :: rest =>
      let len := mqtt_size (pkt_mem s a) in
      flush_outgoing rest s
        (towrite_add len (wbuf_put (Packed (pkt_mem s a)) c))
  | _ :: _ => None
  end.

(** The authentication gate: [true] stands for [goto bad_auth]. *)
Definition bad_auth (s : sol_t) (c : mqtt_connect) : bool :=
  if negb (allow_anonymous s) then
    if negb (cb_username c) || negb (cb_password c) then true
    else
      match hashtable_get (authentications s) (cp_username c) with
      | None => true
      | Some salt => negb (check_passwd (cp_password c) salt)
      end
  else false.

(** The Will of a CONNECT is stored in the session, and in the topic
    when it is retained. *)
Definition store_will (c : mqtt_connect) (cp : Z) (s : sol_t) : sol_t :=
  let s1 := set_client cp (set_has_lwt true (clients s cp)) s in
  let will_topic := cp_will_topic c in
  let will_message := cp_will_message c in
  let s2 := sol_topic_get_or_create s1 will_topic in
  let s3 :=
    if negb (sol_topic_exists s2 will_topic) then
      sol_topic_put s2
        {| name := will_topic; subscribers := []; retained_msg := None |}
    else s2 in
  let msg_len := Z.of_nat (String.length will_message) in
  let tpc_len := Z.of_nat (String.length will_topic) in
  let lwt :=
    {| header := Header.set_qos Header.PUBLISH_B (cb_will_qos c);
       body :=
         BPublish
           {| pkt_id := 0; topiclen := tpc_len; topic := will_topic;
              payloadlen := msg_len; payload := will_message |} |} in
  let s4 := set_client cp (set_lwt_msg lwt (clients s3 cp)) s3 in
  if cb_will_retain c then
    let publen := mqtt_size lwt in
    with_topic will_topic
      (set_retained_msg
         (Some {| bs_len := publen; bs_bytes := Packed lwt |})) s4
  else s4.

Definition connect_handler (o : oracle) (e : io_event) (s : sol_t)
  : option (outcome * sol_t) :=
  match body (data e) with
  | BConnect c =>
      let cp := ev_client e in
      if bad_auth s c then
        Some (RC MQTT_BAD_USERNAME_OR_PASSWORD,
              set_client cp
                (set_payload_connack MQTT_BAD_USERNAME_OR_PASSWORD
                   (clients s cp)) s)
      else if (cp_client_id c =? EmptyString)%string
              && negb (cb_clean_session c)
      then
        Some (RC MQTT_NOT_AUTHORIZED,
              set_client cp
                (set_payload_connack MQTT_NOT_AUTHORIZED (clients s cp)) s)
      else
        let id :=
          if (cp_client_id c =? EmptyString)%string then generate_random_id o
          else cp_client_id c in
        do s1 <-
          (if negb (cp_client_id c =? EmptyString)%string
              && negb (cb_clean_session c)
              && (list_size (outgoing_msgs (clients s cp)) >? 0)
           then
             do cc <-
               flush_outgoing (outgoing_msgs (clients s cp)) s
                 (clients s cp);
             Some (enqueue_event_write cp (set_client cp cc s))
           else Some s);
        let cur := clients s1 (conn_fd (clients s1 cp)) in
        if online cur
           && (strncmp (client_id cur) id MQTT_CLIENT_ID_LEN =? 1)
        then Some (NEG_ERRCLIENTDC, s1)
        else
          let s2 :=
            set_client cp
              (set_client_id (strncpy id MQTT_CLIENT_ID_LEN)
                 (clients s1 cp)) s1 in
          let s3 := if cb_will c then store_will c cp s2 else s2 in
          let c4 :=
            set_clean_session (cb_clean_session c) (clients s3 cp) in
          let c5 :=
            if cb_clean_session c then
              set_outgoing_msgs [] (set_subscriptions [] c4)
            else c4 in
          Some (REPLY,
                set_client cp
                  (set_payload_connack MQTT_CONNECTION_ACCEPTED c5) s3)
  | _ => None
  end.

(** *** DISCONNECT and UNSUBSCRIBE *)

(** Modelled from the spec: [topic_del_subscriber] removes the client
    from the subscribers of the topic. *)
Definition topic_del_subscriber (t : string) (cp : Z) (s : sol_t)
  : sol_t :=
  with_topic t
    (fun tp =>
       set_subscribers
         (hashtable_del (subscribers tp) (client_id (clients s cp))) tp)
    s.

Definition disconnect_handler (o : oracle) (e : io_event) (s : sol_t)
  : option (outcome * sol_t) :=
  let cp := ev_client e in
  let c := clients s cp in
  let s1 :=
    if clean_session c && negb (list_size (subscriptions c) =? 0) then
      fold_left (fun acc t => topic_del_subscriber t cp acc)
        (subscriptions c) s
    else s in
  Some (NEG_ERRCLIENTDC, s1).

Definition unsubscribe_handler (o : oracle) (e : io_event) (s : sol_t)
  : option (outcome * sol_t) :=
  match body (data e) with
  | BUnsubscribe u =>
      let cp := ev_client e in
      let s1 :=
        fold_left
          (fun acc t =>
             match sol_topic_get acc t with
             | Some _ => topic_del_subscriber t cp acc
             | None => acc
             end)
          (unsub_tuples u) s in
      let c1 :=
        towrite_add MQTT_ACK_LEN
          (wbuf_put (Mono UNSUBACK (unsub_pkt_id u)) (clients s1 cp)) in
      Some (REPLY, set_client cp c1 s1)
  | _ => None
  end.

(** *** SUBSCRIBE *)

(** The filter of a tuple, as the loop body rewrites it in its local
    [topic], and whether the body sets [wildcard].  The tests read
    [topic[len - 1]] and [topic[len - 2]]; for a filter too short these
    are reads before the array. *)
Definition normalise_filter (tp : sub_tuple) : option (string * bool) :=
  let t := tp_topic tp in
  let len := tp_topic_len tp in
  do last <- char_at t (len - 1);
  if Ascii.eqb last "#" then
    do before <- char_at t (len - 2);
    if Ascii.eqb before "/" then
      (* topic[len - 1] = 0; wildcard = true; *)
      Some (str_prefix (Z.to_nat (len - 1)) t, true)
    else
      (* topic[len] = '/'; topic[len + 1] = 0; *)
      Some ((t ++ "/")%string, false)
  else if negb (Ascii.eqb last "/") then Some ((t ++ "/")%string, false)
  else Some (t, false).

Definition recursive_sub (a : nat) (t : string) (s : sol_t) : sol_t :=
  let sub := sub_mem s a in
  (* s->refs++; *)
  let sub1 :=
    {| sub_client := sub_client sub; sub_qos := sub_qos sub;
       sub_refs := sub_refs sub + 1 |} in
  let s1 := set_sub_heap (updn (sub_mem s) a sub1) (sub_brk s) s in
  let cp := sub_client sub1 in
  let s2 :=
    with_topic t
      (fun tp =>
         set_subscribers
           (hashtable_put (subscribers tp) (client_id (clients s1 cp)) a)
           tp) s1 in
  if negb (clean_session (clients s2 cp)) then
    set_client cp
      (set_subscriptions
         (list_push (subscriptions (clients s2 cp)) t) (clients s2 cp)) s2
  else s2.

(** [xmalloc] of a subscriber record: the next address of the heap. *)
Definition new_subscriber (sub : subscriber) (s : sol_t) : nat * sol_t :=
  (sub_brk s, set_sub_heap (updn (sub_mem s) (sub_brk s) sub)
                (S (sub_brk s)) s).

(** Modelled from the spec: [topic_add_subscriber] installs a fresh
    Subscriber of the client on the one topic. *)
Definition topic_add_subscriber (t : string) (cp : Z) (qos : Z)
  (s : sol_t) : sol_t :=
  let '(a, s1) :=
    new_subscriber {| sub_client := cp; sub_qos := qos; sub_refs := 1 |}
      s in
  with_topic t
    (fun tp =>
       set_subscribers
         (hashtable_put (subscribers tp) (client_id (clients s1 cp)) a)
         tp) s1.

(** The copy of a retained message into the client's [wbuf]. *)
Definition replay_retained (t : string) (cp : Z) (s : sol_t) : sol_t :=
  match sol_topic_get s t with
  | Some {| retained_msg := Some rm |} =>
      let len := bs_len rm in
      let c := clients s cp in
      set_client cp (towrite_add len (wbuf_put (bs_bytes rm) c)) s
  | _ => s
  end.

(** The body of the loop over the tuples.  [wildcard] is declared
    before the loop: the body receives its current value and returns
    the new one. *)
Definition subscribe_tuple (cp : Z) (wildcard : bool) (s : sol_t)
  (tp : sub_tuple) : option (bool * sol_t) :=
  do (topic, w) <- normalise_filter tp;
  let wildcard := if w then true else wildcard in
  let s1 := sol_topic_get_or_create s topic in
  let s2 :=
    if wildcard then
      let '(a, s') :=
        new_subscriber
          {| sub_client := cp; sub_qos := tp_qos tp; sub_refs := 0 |} s1 in
      trie_prefix_map topic (recursive_sub a) s'
    else s1 in
  let s3 := topic_add_subscriber topic cp (tp_qos tp) s2 in
  let s4 :=
    set_client cp
      (set_subscriptions
         (list_push (subscriptions (clients s3 cp)) topic)
         (clients s3 cp)) s3 in
  Some (wildcard, replay_retained topic cp s4).

Fixpoint subscribe_loop (cp : Z) (wildcard : bool) (s : sol_t)
  (tps : list sub_tuple) : option (bool * sol_t) :=
  match tps with
  | [] => Some (wildcard, s)
  | tp :: rest =>
      do (w, s') <- subscribe_tuple cp wildcard s tp;
      subscribe_loop cp w s' rest
  end.

Definition suback_packet (sb : mqtt_subscribe) : mqtt_packet :=
  mqtt_suback {| header := Header.SUBACK_B; body := BNone |}
    (sub_pkt_id sb) (map tp_qos (tuples sb)).

Definition subscribe_handler (o : oracle) (e : io_event) (s : sol_t)
  : option (outcome * sol_t) :=
  match body (data e) with
  | BSubscribe sb =>
      let cp := ev_client e in
      do (_, s1) <- subscribe_loop cp false s (tuples sb);
      let pkt := suback_packet sb in
      let len := mqtt_size pkt in
      let c1 := towrite_add len (wbuf_put (Packed pkt) (clients s1 cp)) in
      Some (REPLY, set_client cp c1 s1)
  | _ => None
  end.

(** *** PUBLISH *)

(** The local [topic] of [publish_handler]: [topiclen] characters are
    copied without terminator, then [topic[topiclen]], which nothing
    has written, is compared with '/'. *)
Definition publish_topic (o : oracle) (p : mqtt_publish) : option string :=
  let n := Z.to_nat (topiclen p) in
  if (String.length (topic p) <? n)%nat then Some (topic p)
  else if Ascii.eqb (stale_char o) "/" then None
  else Some (str_prefix n (topic p) ++ "/")%string.

(** The first part of [publish_handler], up to the call of
    [publish_message]: the topic is looked up or created, the packet is
    copied into a pool block, the retained message is replaced when
    the RETAIN flag is set, the fan-out runs. *)
Definition publish_ingest (o : oracle) (e : io_event) (p : mqtt_publish)
  (s : sol_t) : option sol_t :=
  let hdr := header (data e) in
  let s0 := set_messages_recv (messages_recv s + 1) s in
  do topic <- publish_topic o p;
  let s1 := sol_topic_get_or_create s0 topic in
  do (pkt, s2) <- memorypool_alloc s1;
  let s3 :=
    set_pkt_mem
      (updn (pkt_mem s2) pkt {| header := hdr; body := BPublish p |})
      s2 in
  let publen := mqtt_size (data e) in
  let s4 :=
    if Header.retain hdr =? 1 then
      with_topic topic
        (set_retained_msg
           (Some {| bs_len := publen; bs_bytes := Packed (data e) |}))
        s3
    else s3 in
  publish_message o pkt topic s4.

(** The second part, "we have to answer to the publisher". *)
Definition publish_reply (o : oracle) (cp : Z) (qos orig_mid publen : Z)
  (s : sol_t) : outcome * sol_t :=
  if qos =? AT_MOST_ONCE then (NOREPLY, s)
  else
    let ptype := if qos =? EXACTLY_ONCE then PUBREC else PUBACK in
    let c := clients s cp in
    let c1 :=
      if qos =? EXACTLY_ONCE then
        let ack :=
          mqtt_ack {| header := stale_header o; body := BNone |}
            orig_mid in
        set_has_inflight true
          (set_in_i_acks
             (upd (in_i_acks c) orig_mid
                (inflight_msg_init o cp (LocalPkt ack) publen)) c)
      else c in
    let c2 :=
      towrite_add MQTT_ACK_LEN (wbuf_put (Mono ptype orig_mid) c1) in
    (REPLY, set_client cp c2 s).

Definition publish_handler (o : oracle) (e : io_event) (s : sol_t)
  : option (outcome * sol_t) :=
  match body (data e) with
  | BPublish p =>
      let orig_mid := pkt_id p in
      let qos := Header.qos (header (data e)) in
      do s5 <- publish_ingest o e p s;
      Some (publish_reply o (ev_client e) qos orig_mid
              (mqtt_size (data e)) s5)
  | _ => None
  end.

(** *** The dispatcher *)

Definition handler : Type :=
  oracle -> io_event -> sol_t -> option (outcome * sol_t).

(** The table [handlers[15]]; [None] is a NULL entry. *)
Definition handlers_table : list (option handler) :=
  [ None;
    Some connect_handler;
    None;
    Some publish_handler;
    Some puback_handler;
    Some pubrec_handler;
    Some pubrel_handler;
    Some pubcomp_handler;
    Some subscribe_handler;
    None;
    Some unsubscribe_handler;
    None;
    Some pingreq_handler;
    None;
    Some disconnect_handler ].

(** [handlers[type]] for an [unsigned type]; an index past the table
    has no entry. *)
Definition handlers (type : Z) : option handler :=
  if type <? 0 then None
  else nth (Z.to_nat type) handlers_table None.

Definition handle_command (o : oracle) (type : Z) (event : io_event)
  (s : sol_t) : option (outcome * sol_t) :=
  do h <- handlers type;
  h o event s.

End Handlers.

(** ** A concrete broker

    An instance of the collaborators and a few states, on which the
    handlers can be run. *)

Definition sample_size (p : mqtt_packet) : Z :=
  match body p with
  | BPublish pb =>
      2 + 2 + topiclen pb + payloadlen pb
      + (if Header.qos (header p) >? 0 then 2 else 0)
  | BSuback _ rcs => 4 + Z.of_nat (List.length rcs)
  | BNone => 2
  | _ => 4
  end.

Definition counter_mid (c : client) : Z * client :=
  (next_mid c,
   {| conn_fd := conn_fd c; online := online c;
      clean_session := clean_session c;
      client_id := client_id c; subscriptions := subscriptions c;
      outgoing_msgs := outgoing_msgs c; i_msgs := i_msgs c;
      i_acks := i_acks c; in_i_acks := in_i_acks c;
      has_inflight := has_inflight c; has_lwt := has_lwt c;
      lwt_msg := lwt_msg c; wbuf := wbuf c; towrite := towrite c;
      next_mid := u16 (next_mid c + 1) |}).

#[local] Instance sample_external : External := {|
  mqtt_size := sample_size;
  MQTT_ACK_LEN := 4;
  MQTT_HEADER_LEN := 2;
  MQTT_CLIENT_ID_LEN := 24;
  SOL_PREFIX := "sol";
  next_free_mid := counter_mid;
  crypt := fun passwd salt => passwd;
  STREQ := fun a b n => String.eqb (str_prefix n a) (str_prefix n b)
|}.

Definition sample_oracle : oracle :=
  {| time_now := 1000; utime_ns := 123456; stale_char := "000";
     stale_header := 0 |}.

Definition free_slot : inflight_msg :=
  {| in_use := false; im_client := 0; packet := NullPkt; size := 0;
     sent_timestamp := 0 |}.

Definition busy_slot (c : Z) (p : pkt_ptr) : inflight_msg :=
  {| in_use := true; im_client := c; packet := p; size := 8;
     sent_timestamp := 0 |}.

Definition blank_packet : mqtt_packet := {| header := 0; body := BNone |}.

(** A session on descriptor [fd], without anything in flight. *)
Definition session (fd : Z) (id : string) (on clean : bool) : client :=
  {| conn_fd := fd; online := on; clean_session := clean;
     client_id := id; subscriptions := []; outgoing_msgs := [];
     i_msgs := fun _ => free_slot; i_acks := fun _ => free_slot;
     in_i_acks := fun _ => free_slot;
     has_inflight := false; has_lwt := false; lwt_msg := blank_packet;
     wbuf := []; towrite := 0; next_mid := 1 |}.

(** A broker whose clients are all fresh and offline. *)
Definition broker0 : sol_t :=
  {| clients := fun fd => session fd EmptyString false true;
     topics := []; authentications := [];
     pool := [0; 1; 2; 3]%nat;
     pkt_mem := fun _ => blank_packet;
     sub_mem := fun _ => {| sub_client := 0; sub_qos := 0; sub_refs := 0 |};
     sub_brk := 0%nat; write_queue := [];
     messages_sent := 0; messages_recv := 0; allow_anonymous := true |}.

Definition ack_event (c id : Z) : io_event :=
  {| ev_client := c; data := {| header := 0; body := BAck id |} |}.

(** What a run of a handler returned, and the state it left. *)
Definition returned (r : option (outcome * sol_t)) : option outcome :=
  option_map fst r.

Definition after (r : option (outcome * sol_t)) : sol_t :=
  match r with
  | Some (_, s) => s
  | None => broker0
  end.

(** Client 3 with two published messages in flight, ids 1 and 2, and an
    inbound QoS-2 exchange open on id 1. *)
Definition two_in_flight : sol_t :=
  set_client 3
    (set_has_inflight true
       (set_i_msgs
          (upd (upd (fun _ => free_slot) 1 (busy_slot 3 (PoolPkt 0%nat)))
             2 (busy_slot 3 (PoolPkt 1%nat)))
          (set_in_i_acks (upd (fun _ => free_slot) 1 (busy_slot 3 NullPkt))
             (session 3 "B" true true))))
    (set_pool [2; 3]%nat broker0).

(** Client 3 with one published message in flight, id 5, in pool block
    7. *)
Definition one_in_flight : sol_t :=
  set_client 3
    (set_has_inflight true
       (set_i_msgs (upd (fun _ => free_slot) 5 (busy_slot 3 (PoolPkt 7%nat)))
          (set_i_acks (upd (fun _ => free_slot) 5 (busy_slot 3 NullPkt))
             (session 3 "B" true true))))
    (set_pool [2; 3]%nat broker0).

Definition connect_packet (id : string) (clean : bool) : mqtt_packet :=
  {| header := Z.shiftl CONNECT 4;
     body :=
       BConnect
         {| cb_username := false; cb_password := false;
            cb_will_retain := false; cb_will_qos := 0; cb_will := false;
            cb_clean_session := clean; cp_keepalive := 60;
            cp_client_id := id; cp_username := EmptyString;
            cp_password := EmptyString;
            cp_will_topic := EmptyString; cp_will_message := EmptyString |} |}.

(** Descriptor 4 holds the online session of client "A". *)
Definition live_session : sol_t :=
  set_client 4 (session 4 "A" true true) broker0.

(** The QoS that a turn of the fan-out loop writes into the packet
    header, [qos >= sub->qos ? sub->qos : qos]. *)
Definition effective_qos (qos : Z) (sub : subscriber) : Z :=
  if qos >=? sub_qos sub then sub_qos sub else qos.

(** A PUBLISH of "hi" on "t/" with packet id 42. *)
Definition publish_packet (qos : Z) : mqtt_packet :=
  {| header := Header.set_qos Header.PUBLISH_B qos;
     body :=
       BPublish
         {| pkt_id := 42; topiclen := 2; topic := "t/"; payloadlen := 2;
            payload := "hi" |} |}.

(** Topic "t/" with three subscribers: "S" (client 5, online, QoS 2),
    "T" (client 6, offline, persistent session, QoS 1) and "U" (client 7,
    offline, clean session, QoS 0).  Pool block 0 holds a QoS-1
    PUBLISH. *)
Definition fanout_state : sol_t :=
  {| clients :=
       upd (upd (upd (clients broker0) 5 (session 5 "S" true true))
              6 (session 6 "T" false false))
         7 (session 7 "U" false true);
     topics :=
       [ {| name := "t/";
            subscribers :=
              [("S"%string, 0%nat); ("T"%string, 1%nat);
               ("U"%string, 2%nat)];
            retained_msg := None |} ];
     authentications := [];
     pool := [1; 2; 3]%nat;
     pkt_mem := updn (fun _ => blank_packet) 0%nat (publish_packet 1);
     sub_mem :=
       fun a =>
         match a with
         | 0%nat => {| sub_client := 5; sub_qos := 2; sub_refs := 1 |}
         | 1%nat => {| sub_client := 6; sub_qos := 1; sub_refs := 1 |}
         | _ => {| sub_client := 7; sub_qos := 0; sub_refs := 1 |}
         end;
     sub_brk := 3%nat; write_queue := [];
     messages_sent := 0; messages_recv := 0; allow_anonymous := true |}.

(** The state a run of [publish_message] left. *)
Definition state_of (r : option sol_t) : sol_t :=
  match r with
  | Some s => s
  | None => broker0
  end.

(** Client 8 publishes "hi" on "t" with packet id 42. *)
Definition publish_event (qos : Z) : io_event :=
  {| ev_client := 8;
     data :=
       {| header := Header.set_qos Header.PUBLISH_B qos;
          body :=
            BPublish
              {| pkt_id := 42; topiclen := 1; topic := "t"; payloadlen := 2;
                 payload := "hi" |} |} |}.

(** The retained message of the topic named [n], if the topic exists and
    has one. *)
Definition retained_of (s : sol_t) (n : string) : option bstring :=
  match sol_topic_get s n with
  | Some t => retained_msg t
  | None => None
  end.

(** Two states with the same staged output, the same retained messages
    and the same client ids and session kinds. *)
Definition same_output (s s' : sol_t) : Prop :=
  (forall k, wbuf (clients s' k) = wbuf (clients s k)
             /\ towrite (clients s' k) = towrite (clients s k)
             /\ client_id (clients s' k) = client_id (clients s k)
             /\ clean_session (clients s' k) = clean_session (clients s k))
  /\ (forall n, retained_of s' n = retained_of s n).

(** The types that have a handler. *)
Definition handled_types : list Z := [1; 3; 4; 5; 6; 7; 8; 10; 12; 14].

(** What the replay of the retained message of topic [n] appends to the
    [wbuf] of client [cp]. *)
Definition replayed (s : sol_t) (cp : Z) (n : string) : list wbuf_write :=
  match retained_of s n with
  | Some rm =>
      [ {| w_off := towrite (clients s cp); w_data := bs_bytes rm |} ]
  | None => []
  end.

(** The subscriber record at address [a] is installed in the topic named
    [n] under the client id [cid]. *)
Definition installed (s : sol_t) (n cid : string) (a : nat) : Prop :=
  exists u,
    sol_topic_get s n = Some u /\ hashtable_get (subscribers u) cid = Some a.

(** What a traversal with [recursive_sub] keeps of the state [s] it
    started from. *)
Definition sub_frame (a : nat) (s acc : sol_t) : Prop :=
  same_output s acc
  /\ sub_brk acc = sub_brk s
  /\ sub_client (sub_mem acc a) = sub_client (sub_mem s a)
  /\ sub_qos (sub_mem acc a) = sub_qos (sub_mem s a)
  /\ (forall n, sol_topic_get s n <> None -> sol_topic_get acc n <> None).

(** Client 9, online as "W"; the topics "b/", "b/c/" (with a retained
    message) and "a/x/" exist and have no subscriber. *)
Definition wild_state : sol_t :=
  set_topics
    [ {| name := "b/"; subscribers := []; retained_msg := None |};
      {| name := "b/c/"; subscribers := [];
         retained_msg :=
           Some {| bs_len := 8; bs_bytes := Packed (publish_packet 0) |} |};
      {| name := "a/x/"; subscribers := []; retained_msg := None |} ]
    (set_client 9 (session 9 "W" true true) broker0).

Definition subscribe_event (l : list sub_tuple) : io_event :=
  {| ev_client := 9;
     data :=
       {| header := Z.shiftl SUBSCRIBE 4;
          body := BSubscribe {| sub_pkt_id := 11; tuples := l |} |} |}.

(** The state a run of the SUBSCRIBE loop left. *)
Definition loop_state (r : option (bool * sol_t)) : sol_t :=
  match r with
  | Some (_, s) => s
  | None => broker0
  end.

Definition filter_a_wild : sub_tuple := {| tp_topic := "a/#"; tp_qos := 1 |}.
Definition filter_b : sub_tuple := {| tp_topic := "b"; tp_qos := 0 |}.
Definition filter_b_c : sub_tuple := {| tp_topic := "b/c"; tp_qos := 0 |}.

(** [wild_state] after the tuple "a/#" of a SUBSCRIBE of client 9. *)
Definition wild_state_1 : sol_t :=
  loop_state (subscribe_loop 9 false wild_state [filter_a_wild]).

(** ** Further definitions used by the statements below *)

(** The packet-id allocator works on the inflight bookkeeping of the
    session: it leaves the connection, the session flags, the queues and
    the staged output as they are. *)
Definition allocator_keeps_session {X : External} : Prop :=
  forall c,
    let c' := snd (next_free_mid c) in
    conn_fd c' = conn_fd c /\ online c' = online c
    /\ clean_session c' = clean_session c /\ client_id c' = client_id c
    /\ subscriptions c' = subscriptions c
    /\ outgoing_msgs c' = outgoing_msgs c
    /\ wbuf c' = wbuf c /\ towrite c' = towrite c.

(** The subscribers of a list whose client is online in [s]. *)
Definition online_subs (s : sol_t) (l : list nat) : list nat :=
  filter (fun a => online (clients s (sub_client (sub_mem s a)))) l.





(** The CONNACK that [set_payload_connack] encodes. *)
Definition connack_packet (rc : Z) : mqtt_packet :=
  {| header := Header.CONNACK_B; body := BConnack 0 rc |}.


(** The Will message that [connect_handler] builds from a CONNECT. *)
Definition will_packet (c : mqtt_connect) : mqtt_packet :=
  {| header := Header.set_qos Header.PUBLISH_B (cb_will_qos c);
     body :=
       BPublish
         {| pkt_id := 0;
            topiclen := Z.of_nat (String.length (cp_will_topic c));
            topic := cp_will_topic c;
            payloadlen := Z.of_nat (String.length (cp_will_message c));
            payload := cp_will_message c |} |}.


(** Two states with the same sessions online, the same packet pool and
    the same pooled packets. *)
Definition same_presence (s s' : sol_t) : Prop :=
  (forall k, online (clients s' k) = online (clients s k))
  /\ pool s' = pool s /\ pkt_mem s' = pkt_mem s.

(** No topic appears between [s] and [s'], except possibly [tn]. *)
Definition no_new_topic (tn : string) (s s' : sol_t) : Prop :=
  forall n, n <> tn -> sol_topic_get s n = None -> sol_topic_get s' n = None.

(** ** [util.c]

    A [string] stands for a character buffer followed by its
    terminator; a NUL inside it ends the C string earlier. *)

Definition is_nul (c : ascii) : bool := code c =? 0.

(** [isdigit] of the C locale; a byte above 127 is no digit. *)
Definition isdigit (c : ascii) : bool := (48 <=? code c) && (code c <=? 57).

Fixpoint c_str (s : string) : string :=
  match s with
  | EmptyString => EmptyString
  | String c r => if is_nul c then EmptyString else String c (c_str r)
  end.

Definition strlen (s : string) : Z := Z.of_nat (String.length (c_str s)).

Fixpoint is_integer (s : string) : bool :=
  match s with
  | EmptyString => true
  | String c r =>
      if is_nul c then true
      else if negb (isdigit c) then false
      else is_integer r
  end.

Definition INT_MAX : Z := 2147483647.
Definition INT_MIN : Z := -2147483648.

(** The loop of [parse_int] from the value [n]; [n] is an [int], and
    [(n * 10) + (c - '0')] past [INT_MAX] is an overflow, for which
    there is no result. *)
Fixpoint parse_int_loop (n : Z) (s : string) : option Z :=
  match s with
  | EmptyString => Some n
  | String c r =>
      if is_nul c || negb (isdigit c) then Some n
      else
        let n' := n * 10 + (code c - 48) in
        if INT_MAX <? n' then None else parse_int_loop n' r
  end.

Definition parse_int (s : string) : option Z := parse_int_loop 0 s.

(** The loop of [number_len]; a [size_t] has at most 20 digits. *)
Fixpoint number_len_loop (fuel : nat) (len number : Z) : Z :=
  match fuel with
  | O => len
  | S f =>
      if number =? 0 then len
      else number_len_loop f (len + 1) (number / 10)
  end.

(** The argument is converted to [size_t]. *)
Definition number_len (number : Z) : Z :=
  number_len_loop 20 1 (number mod 2 ^ 64).

(** [%d] of an [int]. *)
Definition fmt_d (z : Z) : string := NilZero.string_of_int (Z.to_int z).

(** [remove_occur] works in place on the buffer [str]; [p] and [pp] are
    indices into it.  A read or a write outside the buffer has no
    result. *)
Definition poke (buf : list ascii) (i : nat) (c : ascii)
  : option (list ascii) :=
  if (i <? List.length buf)%nat
  then Some (firstn i buf ++ c :: skipn (S i) buf)
  else None.

Fixpoint remove_occur_loop (fuel : nat) (c : ascii) (buf : list ascii)
  (p pp : nat) : option (list ascii) :=
  match fuel with
  | O => None
  | S f =>
      match nth_error buf p with
      | None => None
      | Some x =>
          if is_nul x then
            (* *pp = 0; *)
            poke buf pp zero
          else
            (* *pp = *p++; pp += ( *pp != c); *)
            match poke buf pp x with
            | None => None
            | Some buf1 =>
                remove_occur_loop f c buf1 (S p)
                  (if Ascii.eqb x c then pp else S pp)
            end
      end
  end.

(** Every turn of the loop advances [p]: one turn per character of
    the buffer and one for the terminator are enough. *)
Definition remove_occur (str : list ascii) (c : ascii)
  : option (list ascii) :=
  remove_occur_loop (S (List.length str)) c str 0 0.

(** *** The allocation wrappers

    The heap as the wrappers see it: the counter [memory] and the
    blocks obtained from [malloc], each with the [size_t] the wrapper
    stored in front of it.  A block is named by the address [malloc]
    returned; the pointers handed out are 8 bytes further.  What
    [malloc] and [realloc] return (0 for NULL) is an argument. *)
Record heap := {
  memory : Z;
  blocks : list (Z * Z)
}.

Definition SIZEOF_SIZE_T : Z := 8.

Fixpoint header_at (bs : list (Z * Z)) (a : Z) : option Z :=
  match bs with
  | [] => None
  | (a', n) :: r => if a' =? a then Some n else header_at r a
  end.

Fixpoint release_block (bs : list (Z * Z)) (a : Z) : list (Z * Z) :=
  match bs with
  | [] => []
  | (a', n) :: r =>
      if a' =? a then r else (a', n) :: release_block r a
  end.

(** [None]: the call does not return a result (the [assert] fails), or
    the header is written outside the block because
    [size + sizeof(size_t)] wrapped. *)
Definition xmalloc (ptr : Z) (size : Z) (h : heap) : option (Z * heap) :=
  if size =? 0 then None
  else if 2 ^ 64 <=? size + SIZEOF_SIZE_T then None
  else if ptr =? 0 then Some (0, h)
  else
    Some (ptr + SIZEOF_SIZE_T,
          {| memory := size_add (memory h) (size + SIZEOF_SIZE_T);
             blocks := (ptr, size) :: blocks h |}).

Definition xfree (ptr : Z) (h : heap) : option heap :=
  if ptr =? 0 then Some h
  else
    let realptr := ptr - SIZEOF_SIZE_T in
    if realptr =? 0 then Some h
    else
      match header_at (blocks h) realptr with
      | None => None
      | Some ptr_size =>
          Some {| memory :=
                    (memory h - (ptr_size + SIZEOF_SIZE_T)) mod 2 ^ 64;
                  blocks := release_block (blocks h) realptr |}
      end.

Definition xmalloc_size (ptr : Z) (h : heap) : option Z :=
  if ptr =? 0 then Some 0
  else
    let realptr := ptr - SIZEOF_SIZE_T in
    if realptr =? 0 then Some 0
    else header_at (blocks h) realptr.

Definition xrealloc (newptr : Z) (ptr : Z) (size : Z) (h : heap)
  : option (Z * heap) :=
  if size =? 0 then None
  else if ptr =? 0 then xmalloc newptr size h
  else
    let realptr := ptr - SIZEOF_SIZE_T in
    match header_at (blocks h) realptr with
    | None => None
    | Some curr_size =>
        if size =? curr_size then Some (ptr, h)
        else if 2 ^ 64 <=? size + SIZEOF_SIZE_T then None
        else if newptr =? 0 then Some (0, h)
        else
          Some (newptr + SIZEOF_SIZE_T,
                {| memory :=
                     (memory h + (- curr_size + size + SIZEOF_SIZE_T))
                       mod 2 ^ 64;
                   blocks :=
                     (newptr, size) :: release_block (blocks h) realptr |})
    end.

Definition memory_used (h : heap) : Z := memory h.

(** [update_integer_string]: [str] is the string at [ptr], [newptr]
    what [realloc] returns.  [None]: [ptr] is null, or [n += num]
    overflows, or [sprintf] writes past [tmp], or [memcpy] gets a null
    destination. *)
Definition update_integer_string (newptr ptr : Z) (str : string) (num : Z)
  (h : heap) : option (Z * string * heap) :=
  if ptr =? 0 then None else
  match parse_int str with
  | None => None
  | Some n0 =>
      let n := n0 + num in
      if (n <? INT_MIN) || (INT_MAX <? n) then None
      else
        let tmp_size := number_len n + 1 in
        let tmp := fmt_d n in
        if tmp_size <? strlen tmp + 1 then None
        else
          let len := strlen tmp in
          match xrealloc newptr ptr (len + 1) h with
          | None => None
          | Some (q, h') =>
              if q =? 0 then None else Some (q, tmp, h')
          end
  end.

(** The bytes of the live blocks, headers included. *)
Definition live_bytes (bs : list (Z * Z)) : Z :=
  fold_right (fun b acc => snd b + SIZEOF_SIZE_T + acc) 0 bs.

(** The counter agrees with the live blocks. *)
Definition accounted (h : heap) : Prop :=
  memory h = live_bytes (blocks h) mod 2 ^ 64.

(** The number a string of digits denotes, continuing from [acc]. *)
Fixpoint uint_val (acc : Z) (d : Decimal.uint) : Z :=
  match d with
  | Decimal.Nil => acc
  | Decimal.D0 r => uint_val (acc * 10 + 0) r
  | Decimal.D1 r => uint_val (acc * 10 + 1) r
  | Decimal.D2 r => uint_val (acc * 10 + 2) r
  | Decimal.D3 r => uint_val (acc * 10 + 3) r
  | Decimal.D4 r => uint_val (acc * 10 + 4) r
  | Decimal.D5 r => uint_val (acc * 10 + 5) r
  | Decimal.D6 r => uint_val (acc * 10 + 6) r
  | Decimal.D7 r => uint_val (acc * 10 + 7) r
  | Decimal.D8 r => uint_val (acc * 10 + 8) r
  | Decimal.D9 r => uint_val (acc * 10 + 9) r
  end.

(** Whether a string goes on with a digit. *)
Definition leading_digit (s : string) : bool :=
  match s with
  | EmptyString => false
  | String c _ => negb (is_nul c) && isdigit c
  end.

(** The number the leading digits of a string denote, continuing from
    [n], without a bound. *)
Fixpoint decimal_prefix (n : Z) (s : string) : Z :=
  match s with
  | EmptyString => n
  | String c r =>
      if is_nul c || negb (isdigit c) then n
      else decimal_prefix (n * 10 + (code c - 48)) r
  end.

(** A sequence of calls of the wrappers. *)
Inductive heap_call :=
| Malloc (ptr size : Z)
| Free (ptr : Z).

Definition call (c : heap_call) (h : heap) : option heap :=
  match c with
  | Malloc ptr size => option_map snd (xmalloc ptr size h)
  | Free ptr => xfree ptr h
  end.

Fixpoint calls (l : list heap_call) (h : heap) : option heap :=
  match l with
  | [] => Some h
  | c :: r =>
      match call c h with
      | Some h1 => calls r h1
      | None => None
      end
  end.


(** ** Further concrete inputs *)

(** The payload of [publish_packet] and of [publish_event]. *)
Definition publish_t_slash : mqtt_publish :=
  {| pkt_id := 42; topiclen := 2; topic := "t/"; payloadlen := 2;
     payload := "hi" |}.

Definition publish_t : mqtt_publish :=
  {| pkt_id := 42; topiclen := 1; topic := "t"; payloadlen := 2;
     payload := "hi" |}.

(** [fanout_state] with the subscriber "T" online as well. *)
Definition both_online : sol_t :=
  set_client 6 (session 6 "T" true false) fanout_state.

(** [fanout_state] with pool block 0 queued for the offline session
    "T". *)
Definition queued : sol_t :=
  set_client 6
    (set_outgoing_msgs [PoolPkt 0%nat] (session 6 "T" false false))
    fanout_state.

Definition connect_event (fd : Z) (id : string) (clean : bool) : io_event :=
  {| ev_client := fd; data := connect_packet id clean |}.

(** A broker that knows the user "u" and refuses anonymous clients. *)
Definition secured : sol_t :=
  {| clients := clients broker0; topics := [];
     authentications := [("u"%string, "pw"%string)];
     pool := pool broker0; pkt_mem := pkt_mem broker0;
     sub_mem := sub_mem broker0; sub_brk := 0%nat; write_queue := [];
     messages_sent := 0; messages_recv := 0; allow_anonymous := false |}.

(** The CONNECT of client "A" as user "u". *)
Definition login (pass : string) : mqtt_connect :=
  {| cb_username := true; cb_password := true;
     cb_will_retain := false; cb_will_qos := 0; cb_will := false;
     cb_clean_session := true; cp_keepalive := 60;
     cp_client_id := "A"; cp_username := "u"; cp_password := pass;
     cp_will_topic := EmptyString; cp_will_message := EmptyString |}.

Definition login_event (pass : string) : io_event :=
  {| ev_client := 4;
     data := {| header := Z.shiftl CONNECT 4; body := BConnect (login pass) |}
  |}.

(** The CONNECT of client "A" with a retained QoS-1 will "bye" on "w/". *)
Definition with_will : mqtt_connect :=
  {| cb_username := false; cb_password := false;
     cb_will_retain := true; cb_will_qos := 1; cb_will := true;
     cb_clean_session := true; cp_keepalive := 60;
     cp_client_id := "A"; cp_username := EmptyString;
     cp_password := EmptyString;
     cp_will_topic := "w/"; cp_will_message := "bye" |}.

Definition will_event : io_event :=
  {| ev_client := 4;
     data := {| header := Z.shiftl CONNECT 4; body := BConnect with_will |}
  |}.

Definition unsubscribe_event (l : list string) : io_event :=
  {| ev_client := 9;
     data :=
       {| header := Z.shiftl UNSUBSCRIBE 4;
          body := BUnsubscribe {| unsub_pkt_id := 12; unsub_tuples := l |} |}
  |}.

(** Client 8 publishes "hi" on "t" with QoS 0 and the RETAIN flag. *)
Definition retained_event : io_event :=
  {| ev_client := 8;
     data :=
       {| header := Z.lor Header.PUBLISH_B 1; body := BPublish publish_t |}
  |}.

Definition filter_t : sub_tuple := {| tp_topic := "t"; tp_qos := 2 |}.

(** One live block of 3 bytes at address 100, holding "41". *)
Definition one_block : heap := {| memory := 11; blocks := [(100, 3)] |}.

Definition empty_heap : heap := {| memory := 0; blocks := [] |}.

(** The heap a sequence of calls left. *)
Definition heap_of (r : option heap) : heap :=
  match r with
  | Some h => h
  | None => empty_heap
  end.

(** ** The staged output

    Staging is the write at [wbuf + towrite] together with the advance
    of [towrite]: the bytes a client will be sent are the ones below
    its cursor. *)

(** The items (bytes and their length) staged one after the other from
    the cursor [t]: the writes, each at the cursor the one before it
    left, and the cursor after the last. *)
Fixpoint stage (t : Z) (items : list (wire * Z))
  : list wbuf_write * Z :=
  match items with
  | [] => ([], t)
  | (w, len) :: r =>
      ({| w_off := t; w_data := w |} :: fst (stage (size_add t len) r),
       snd (stage (size_add t len) r))
  end.

(** Between the sessions [c] and [c'] exactly [items] were staged, in
    this order, after what [c] had staged. *)
Definition staged (c c' : client) (items : list (wire * Z)) : Prop :=
  wbuf c' = wbuf c ++ fst (stage (towrite c) items)
  /\ towrite c' = snd (stage (towrite c) items).

(** What the turn of a tuple of a SUBSCRIBE stages: the retained
    message of the normalised topic, if there is one. *)
Definition replay_items (s : sol_t) (tp : sub_tuple) : list (wire * Z) :=
  match normalise_filter tp with
  | Some (tn, _) =>
      match retained_of s tn with
      | Some rm => [(bs_bytes rm, bs_len rm)]
      | None => []
      end
  | None => []
  end.


(** * Verification *)

(** ** Header bit fields *)

Lemma land_3_small (v : Z) : 0 <= v <= 3 -> Z.land v 3 = v.
Proof.
  intros Hv. change 3 with (Z.ones 2) at 1.
  rewrite Z.land_ones by lia. apply Z.mod_small. change (2 ^ 2) with 4. lia.
Qed.

Lemma qos_set_qos (b v : Z) : Header.qos (Header.set_qos b v) = Z.land v 3.
Proof.
  unfold Header.qos, Header.set_qos.
  rewrite Z.shiftr_lor, Z.shiftr_land, Z.shiftr_shiftl_l by lia.
  change (Z.shiftr 249 1) with 124. change (1 - 1) with 0.
  rewrite Z.shiftl_0_r, Z.land_lor_distr_l.
  rewrite <- !Z.land_assoc. change (Z.land 124 3) with 0.
  change (Z.land 3 3) with 3.
  rewrite Z.land_0_r, Z.lor_0_l. reflexivity.
Qed.

Lemma qos_range (b : Z) : 0 <= Header.qos b <= 3.
Proof.
  unfold Header.qos. change 3 with (Z.ones 2).
  rewrite Z.land_ones by lia. change (Z.ones 2) with 3.
  pose proof (Z.mod_pos_bound (Z.shiftr b 1) (2 ^ 2) eq_refl) as H.
  change (2 ^ 2) with 4 in *. lia.
Qed.

(** ** Stores *)

Lemma clients_set_client c v s :
  clients (set_client c v s) c = v.
Proof. cbn. unfold upd. rewrite Z.eqb_refl. reflexivity. Qed.

Lemma clients_set_client_other c v s k :
  k <> c -> clients (set_client c v s) k = clients s k.
Proof.
  intros Hk. cbn. unfold upd.
  destruct (Z.eqb_spec k c); [contradiction | reflexivity].
Qed.

Lemma updn_same {A : Type} (f : nat -> A) k v : updn f k v k = v.
Proof. unfold updn. rewrite Nat.eqb_refl. reflexivity. Qed.

(** ** The acknowledgement handlers and [has_inflight] *)

Section AckHandlers.

Context {X : External}.

(** Whatever the tables hold, the three handlers that release a slot
    leave [has_inflight] false. *)
Lemma puback_resets_flag o e s r s' :
  puback_handler o e s = Some (r, s') ->
  has_inflight (clients s' (ev_client e)) = false.
Proof.
  unfold puback_handler, bind. destruct (ack_id e); [|discriminate].
  destruct (memorypool_free _ s); [|discriminate].
  intros [= _ <-]. cbn. unfold upd. rewrite Z.eqb_refl. reflexivity.
Qed.

Lemma pubrel_resets_flag o e s r s' :
  pubrel_handler o e s = Some (r, s') ->
  has_inflight (clients s' (ev_client e)) = false.
Proof.
  unfold pubrel_handler, bind. destruct (ack_id e); [|discriminate].
  intros [= _ <-]. cbn. unfold upd. rewrite Z.eqb_refl. reflexivity.
Qed.

Lemma pubcomp_resets_flag o e s r s' :
  pubcomp_handler o e s = Some (r, s') ->
  has_inflight (clients s' (ev_client e)) = false.
Proof.
  unfold pubcomp_handler, bind. destruct (ack_id e); [|discriminate].
  destruct (memorypool_free _ s); [|discriminate].
  intros [= _ <-]. cbn. unfold upd. rewrite Z.eqb_refl. reflexivity.
Qed.

(** A slot other than the acknowledged one is not touched. *)
Lemma release_other slots id k : k <> id -> release slots id k = slots k.
Proof.
  intros Hk. unfold release, upd.
  destruct (Z.eqb_spec k id); [contradiction | reflexivity].
Qed.

(** PUBACK clears the flag whatever else is in flight. *)
Lemma puback_breaks_summary o e s r s' id k :
  ack_id e = Some id ->
  k <> id ->
  in_use (i_msgs (clients s (ev_client e)) k) = true ->
  puback_handler o e s = Some (r, s') ->
  has_inflight (clients s' (ev_client e)) = false
  /\ in_use (i_msgs (clients s' (ev_client e)) k) = true.
Proof.
  intros Hid Hk Huse Hrun.
  split; [eapply puback_resets_flag; exact Hrun|].
  revert Hrun. unfold puback_handler, bind. rewrite Hid.
  destruct (memorypool_free _ s); [|discriminate].
  intros [= _ <-]. rewrite clients_set_client.
  cbn [i_msgs set_has_inflight set_i_acks set_i_msgs].
  rewrite release_other by exact Hk. exact Huse.
Qed.

(** PUBACK hands the block of the slot to the pool without looking at
    [in_use]. *)
Lemma puback_frees_unconditionally o e s id a :
  ack_id e = Some id ->
  packet (i_msgs (clients s (ev_client e)) id) = PoolPkt a ->
  exists s',
    puback_handler o e s = Some (NOREPLY, s') /\ pool s' = a :: pool s.
Proof.
  intros Hid Hp. unfold puback_handler, bind. rewrite Hid.
  cbn [i_msgs set_i_msgs]. unfold release at 1, upd at 1.
  rewrite Z.eqb_refl. cbn [packet set_in_use]. rewrite Hp.
  cbn [memorypool_free]. eexists. split; reflexivity.
Qed.

End AckHandlers.

(** C1.  The summary flag is not kept equivalent to "some slot is in
    use": with ids 1 and 2 in flight towards client 3, each of PUBACK,
    PUBREL and PUBCOMP for id 1 completes and leaves [has_inflight] false
    although [i_msgs[2]] is still in use. *)
Theorem ack_handlers_drop_inflight_flag :
  let run h := h sample_oracle (ack_event 3 1) two_in_flight in
  let c' h := clients (after (run h)) 3 in
  (returned (run puback_handler) = Some NOREPLY
   /\ has_inflight (c' puback_handler) = false
   /\ in_use (i_msgs (c' puback_handler) 2) = true)
  /\ (returned (run pubrel_handler) = Some REPLY
      /\ has_inflight (c' pubrel_handler) = false
      /\ in_use (i_msgs (c' pubrel_handler) 2) = true)
  /\ (returned (run pubcomp_handler) = Some NOREPLY
      /\ has_inflight (c' pubcomp_handler) = false
      /\ in_use (i_msgs (c' pubcomp_handler) 2) = true).
Proof. vm_compute. repeat split; reflexivity. Qed.

(** C2.  A second PUBACK for the same id is not a no-op: the slot
    [i_msgs[5]] is already free after the first PUBACK, and the second
    one hands its pool block 7 to [memorypool_free] again, so that the
    block is twice in the pool. *)
Theorem second_puback_frees_again :
  let e := ack_event 3 5 in
  let r1 := puback_handler sample_oracle e one_in_flight in
  let r2 := puback_handler sample_oracle e (after r1) in
  returned r1 = Some NOREPLY
  /\ in_use (i_msgs (clients (after r1) 3) 5) = false
  /\ in_use (i_acks (clients (after r1) 3) 5) = false
  /\ pool (after r1) = [7; 2; 3]%nat
  /\ returned r2 = Some NOREPLY
  /\ pool (after r2) = [7; 7; 2; 3]%nat.
Proof. vm_compute. repeat split; reflexivity. Qed.

(** ** CONNECT on a live session *)

Lemma strncmp_refl (a : string) (n : nat) : strncmp a a n = 0.
Proof.
  revert a. induction n as [|n IH]; intros [|c a]; cbn; try reflexivity.
  rewrite Ascii.eqb_refl. apply IH.
Qed.

Section Connect.

Context {X : External}.

Lemma flush_outgoing_keeps msgs s :
  forall c c',
    flush_outgoing msgs s c = Some c' ->
    client_id c' = client_id c /\ conn_fd c' = conn_fd c.
Proof.
  induction msgs as [|m msgs IH]; intros c c'; cbn.
  - intros [= <-]. split; reflexivity.
  - destruct m as [|a|p]; try discriminate.
    intros H. apply IH in H. exact H.
Qed.

(** Whatever the state: a CONNECT that names the client id stored for
    its descriptor is never answered with the client-disconnect
    outcome. *)
Lemma connect_same_id_never_disconnects o e s c :
  body (data e) = BConnect c ->
  cp_client_id c <> EmptyString ->
  client_id (clients s (conn_fd (clients s (ev_client e)))) = cp_client_id c ->
  returned (connect_handler o e s) <> Some NEG_ERRCLIENTDC.
Proof.
  intros Hb Hne Hid. unfold connect_handler. rewrite Hb.
  destruct (bad_auth s c); [discriminate|].
  assert (He : (cp_client_id c =? EmptyString)%string = false).
  { apply String.eqb_neq. exact Hne. }
  rewrite He. cbn [andb negb].
  set (cp := ev_client e) in *.
  assert (Hgo : forall s1,
            client_id (clients s1 (conn_fd (clients s1 cp))) = cp_client_id c ->
            returned
              (let cur := clients s1 (conn_fd (clients s1 cp)) in
               if online cur
                  && (strncmp (client_id cur) (cp_client_id c)
                        MQTT_CLIENT_ID_LEN =? 1)
               then Some (NEG_ERRCLIENTDC, s1)
               else
                 let s2 :=
                   set_client cp
                     (set_client_id
                        (strncpy (cp_client_id c) MQTT_CLIENT_ID_LEN)
                        (clients s1 cp)) s1 in
                 let s3 := if cb_will c then store_will c cp s2 else s2 in
                 let c4 :=
                   set_clean_session (cb_clean_session c) (clients s3 cp) in
                 let c5 :=
                   if cb_clean_session c then
                     set_outgoing_msgs [] (set_subscriptions [] c4)
                   else c4 in
                 Some (REPLY,
                       set_client cp
                         (set_payload_connack MQTT_CONNECTION_ACCEPTED c5) s3))
            <> Some NEG_ERRCLIENTDC).
  { intros s1 H1. cbn zeta. rewrite H1, strncmp_refl.
    rewrite andb_false_r. discriminate. }
  destruct (negb (cb_clean_session c)
            && (list_size (outgoing_msgs (clients s cp)) >? 0)).
  - destruct (flush_outgoing (outgoing_msgs (clients s cp)) s (clients s cp))
      as [cc|] eqn:Hfl; [|discriminate].
    cbn [bind]. apply Hgo.
    destruct (flush_outgoing_keeps _ _ _ _ Hfl) as [Hcid Hfd].
    cbn [enqueue_event_write set_write_queue clients].
    rewrite clients_set_client, Hfd.
    destruct (Z.eq_dec (conn_fd (clients s cp)) cp) as [Heq|Hneq].
    + rewrite Heq, clients_set_client, Hcid. rewrite <- Hid, Heq. reflexivity.
    + rewrite clients_set_client_other by exact Hneq. exact Hid.
  - cbn [bind]. apply Hgo. exact Hid.
Qed.

End Connect.

(** C3.  A CONNECT that names the client id of the online session is not
    disconnected: the handler compares the result of [strncmp] with 1,
    equal ids give 0, and the handler goes on to stage the CONNACK and
    returns REPLY. *)
Theorem connect_same_id_is_accepted :
  let e := {| ev_client := 4; data := connect_packet "A" true |} in
  let r := connect_handler sample_oracle e live_session in
  online (clients live_session 4) = true
  /\ client_id (clients live_session 4) = "A"%string
  /\ returned r = Some REPLY
  /\ wbuf (clients (after r) 4)
     = [ {| w_off := 0;
            w_data :=
              Packed {| header := Header.CONNACK_B;
                        body := BConnack 0 MQTT_CONNECTION_ACCEPTED |} |} ].
Proof. vm_compute. repeat split; reflexivity. Qed.

(** ** The fan-out *)

Section Fanout.

Context {X : External}.

(** What [deliver] appends to the subscriber's [wbuf]. *)
Lemma deliver_wbuf pkt len sc s :
  wbuf (clients (deliver pkt len sc s) sc)
  = wbuf (clients s sc)
    ++ [ {| w_off := towrite (clients s sc);
            w_data := Packed (pkt_mem s pkt) |} ].
Proof. unfold deliver. cbn. unfold upd. rewrite Z.eqb_refl. reflexivity. Qed.

Lemma deliver_sub_mem pkt len sc s :
  sub_mem (deliver pkt len sc s) = sub_mem s.
Proof. reflexivity. Qed.

Lemma deliver_pkt_mem pkt len sc s :
  pkt_mem (deliver pkt len sc s) = pkt_mem s.
Proof. reflexivity. Qed.

Lemma track_inflight_pkt o pkt pb h len sub s :
  exists mid,
    pkt_mem (track_inflight o pkt pb h len sub s) pkt
    = {| header := h; body := BPublish (set_pkt_id mid pb) |}.
Proof.
  unfold track_inflight.
  destruct (next_free_mid (clients s (sub_client sub))) as [m c1].
  exists (u16 m). cbn. apply updn_same.
Qed.

Lemma track_inflight_sub_mem o pkt pb h len sub s :
  sub_mem (track_inflight o pkt pb h len sub s) = sub_mem s.
Proof.
  unfold track_inflight.
  destruct (next_free_mid (clients s (sub_client sub))) as [m c1].
  reflexivity.
Qed.

Lemma effective_qos_min qos sub :
  effective_qos qos sub = Z.min qos (sub_qos sub).
Proof. unfold effective_qos. destruct (Z.geb_spec qos (sub_qos sub)); lia. Qed.

(** A turn of the loop on a PUBLISH packet is defined, keeps the
    subscriber heap, and leaves a PUBLISH packet with the downgraded
    header in the pool block. *)
Lemma publish_step_publish o q pkt s a pb :
  body (pkt_mem s pkt) = BPublish pb ->
  exists s' pb',
    publish_step o q pkt s a = Some s'
    /\ sub_mem s' = sub_mem s
    /\ pkt_mem s' pkt
       = {| header :=
              Header.set_qos (header (pkt_mem s pkt))
                (effective_qos q (sub_mem s a));
            body := BPublish pb' |}.
Proof.
  intros Hb. unfold publish_step. rewrite Hb.
  fold (effective_qos q (sub_mem s a)).
  set (h := Header.set_qos _ _).
  set (s1 := set_pkt_mem _ s).
  destruct (negb (online (clients s1 (sub_client (sub_mem s a))))).
  - destruct (negb (clean_session _)); eexists; eexists;
      (split; [reflexivity|]); (split; [reflexivity|]); cbn; apply updn_same.
  - destruct (Header.qos h >? AT_MOST_ONCE).
    + destruct (track_inflight_pkt o pkt (set_pkt_id 0 pb) h
                  (mqtt_size {| header := h; body := BPublish pb |})
                  (sub_mem s a) s1) as [mid Hm].
      eexists; eexists. split; [reflexivity|]. split.
      * rewrite deliver_sub_mem, track_inflight_sub_mem. reflexivity.
      * rewrite deliver_pkt_mem. exact Hm.
    + eexists; eexists. split; [reflexivity|]. split; [reflexivity|].
      cbn. apply updn_same.
Qed.

Lemma publish_loop_app o q pkt l1 l2 s :
  publish_loop o q pkt (l1 ++ l2) s
  = bind (publish_loop o q pkt l1 s) (publish_loop o q pkt l2).
Proof.
  revert s. induction l1 as [|a l1 IH]; intros s; cbn; [reflexivity|].
  destruct (publish_step o q pkt s a) as [s'|]; cbn; [apply IH | reflexivity].
Qed.

(** The loop keeps the subscriber heap and the kind of the packet. *)
Lemma publish_loop_publish o q pkt l :
  forall s s' pb,
    body (pkt_mem s pkt) = BPublish pb ->
    publish_loop o q pkt l s = Some s' ->
    sub_mem s' = sub_mem s
    /\ exists pb', body (pkt_mem s' pkt) = BPublish pb'.
Proof.
  induction l as [|a l IH]; intros s s' pb Hb; cbn.
  - intros [= <-]. split; [reflexivity | eauto].
  - destruct (publish_step_publish o q pkt s a pb Hb)
      as (s1 & pb1 & Hs & Hm & Hp).
    rewrite Hs. cbn. intros Hl.
    destruct (IH s1 s' pb1) as [Hm' Hp'];
      [rewrite Hp; reflexivity | exact Hl |].
    split; [congruence | exact Hp'].
Qed.

(** On a PUBLISH packet the loop is defined for every list of
    subscribers. *)
Lemma publish_loop_defined o q pkt l :
  forall s pb,
    body (pkt_mem s pkt) = BPublish pb ->
    exists s', publish_loop o q pkt l s = Some s'.
Proof.
  induction l as [|a l IH]; intros s pb Hb; cbn; [eauto|].
  destruct (publish_step_publish o q pkt s a pb Hb)
    as (s1 & pb1 & Hs & _ & Hp).
  rewrite Hs. cbn. apply (IH s1 pb1). rewrite Hp. reflexivity.
Qed.

(** The turn of an online subscriber ends in [deliver], on a packet
    whose header carries the downgraded QoS. *)
Lemma publish_step_online o q pkt s a pb :
  body (pkt_mem s pkt) = BPublish pb ->
  online (clients s (sub_client (sub_mem s a))) = true ->
  exists s0 len pb',
    publish_step o q pkt s a
    = Some (deliver pkt len (sub_client (sub_mem s a)) s0)
    /\ pkt_mem s0 pkt
       = {| header :=
              Header.set_qos (header (pkt_mem s pkt))
                (effective_qos q (sub_mem s a));
            body := BPublish pb' |}.
Proof.
  intros Hb Hon. unfold publish_step. rewrite Hb.
  fold (effective_qos q (sub_mem s a)).
  set (h := Header.set_qos _ _). set (s1 := set_pkt_mem _ s).
  change (clients s1) with (clients s). rewrite Hon. cbn [negb].
  destruct (Header.qos h >? AT_MOST_ONCE).
  - destruct (track_inflight_pkt o pkt (set_pkt_id 0 pb) h
                (mqtt_size {| header := h; body := BPublish pb |})
                (sub_mem s a) s1) as [mid Hm].
    eexists; eexists; eexists. split; [reflexivity | exact Hm].
  - eexists; eexists; eexists. split; [reflexivity|]. cbn. apply updn_same.
Qed.

Lemma publish_message_unfold o pkt t s tp a l1 l2 :
  sol_topic_get s t = Some tp ->
  map snd (subscribers tp) = l1 ++ a :: l2 ->
  publish_message o pkt t s
  = bind (publish_loop o (Header.qos (header (pkt_mem s pkt))) pkt l1 s)
      (fun s1 =>
         bind (publish_step o (Header.qos (header (pkt_mem s pkt))) pkt s1 a)
           (publish_loop o (Header.qos (header (pkt_mem s pkt))) pkt l2)).
Proof.
  intros Ht Hl. unfold publish_message. rewrite Ht. cbn [bind].
  assert (Hn : (hashtable_size (subscribers tp) =? 0) = false).
  { unfold hashtable_size. rewrite <- (length_map snd), Hl, length_app.
    cbn [List.length]. apply Z.eqb_neq. lia. }
  rewrite Hn, Hl, publish_loop_app. reflexivity.
Qed.

(** C4.  In the fan-out of a PUBLISH that entered [publish_message]
    with QoS [q], the turn of every online subscriber [a] of the topic
    is defined, the fan-out goes on from it, and the last thing it
    appends to the subscriber's [wbuf] is the packet encoded with the
    QoS min(q, sub->qos) in its header. *)
Theorem fanout_delivers_min_qos o pkt t s tp pb pre a post s1 :
  let q := Header.qos (header (pkt_mem s pkt)) in
  let sub := sub_mem s a in
  sol_topic_get s t = Some tp ->
  map snd (subscribers tp) = pre ++ a :: post ->
  body (pkt_mem s pkt) = BPublish pb ->
  publish_loop o q pkt pre s = Some s1 ->
  online (clients s1 (sub_client sub)) = true ->
  0 <= sub_qos sub ->
  exists s2 w0 off p,
    publish_step o q pkt s1 a = Some s2
    /\ publish_message o pkt t s = publish_loop o q pkt post s2
    /\ wbuf (clients s2 (sub_client sub))
       = w0 ++ [ {| w_off := off; w_data := Packed p |} ]
    /\ Header.qos (header p) = Z.min q (sub_qos sub).
Proof.
  intros q sub Ht Hl Hb Hpre Hon Hq.
  destruct (publish_loop_publish o q pkt pre s s1 pb Hb Hpre)
    as [Hm [pb1 Hb1]].
  assert (Hsub : sub_mem s1 a = sub) by (rewrite Hm; reflexivity).
  destruct (publish_step_online o q pkt s1 a pb1 Hb1)
    as (s0 & len & pb' & Hs & Hp).
  { rewrite Hsub. exact Hon. }
  rewrite Hsub in Hs, Hp.
  exists (deliver pkt len (sub_client sub) s0),
    (wbuf (clients s0 (sub_client sub))),
    (towrite (clients s0 (sub_client sub))), (pkt_mem s0 pkt).
  split; [exact Hs|]. split.
  - rewrite (publish_message_unfold o pkt t s tp a pre post Ht Hl).
    fold q. rewrite Hpre. cbn [bind]. rewrite Hs. reflexivity.
  - split; [apply deliver_wbuf|].
    rewrite Hp. cbn [header]. rewrite qos_set_qos, effective_qos_min.
    apply land_3_small. pose proof (qos_range (header (pkt_mem s pkt))).
    fold q in H. lia.
Qed.

(** The stub that [track_inflight] stores in a free [i_acks[mid]] is
    typed by the QoS of the subscriber alone. *)
Lemma stub_ack_type o pkt pb h len sub s :
  let mid := u16 (fst (next_free_mid (clients s (sub_client sub)))) in
  let c1 := snd (next_free_mid (clients s (sub_client sub))) in
  let c' := clients (track_inflight o pkt pb h len sub s) (sub_client sub) in
  in_use (i_acks c1 mid) = false ->
  packet (i_acks c' mid)
  = LocalPkt
      {| header := if sub_qos sub =? AT_LEAST_ONCE then PUBACK else PUBREC;
         body := BAck (u16 mid) |}.
Proof.
  cbn zeta. unfold track_inflight.
  destruct (next_free_mid (clients s (sub_client sub))) as [m c1].
  cbn [fst snd].
  intros Hfree. rewrite clients_set_client.
  assert (Hacks : forall c, i_acks
            (if negb (in_use (i_msgs c1 (u16 m)))
             then set_i_msgs c c1 else c1) = i_acks c1).
  { intros c. destruct (negb _); reflexivity. }
  cbn [set_has_inflight i_acks].
  rewrite !Hacks, Hfree. cbn. unfold upd. rewrite Z.eqb_refl. reflexivity.
Qed.

(** C8.  In the fan-out, the turn of a subscriber whose client is
    offline is defined and goes on with the next subscriber; it writes
    nothing to any [wbuf] and arms no write; with [clean_session =
    false] the packet is put at the end of the client's
    [outgoing_msgs], with [clean_session = true] no client changes. *)
Theorem fanout_offline_subscriber o q pkt s1 a post pb :
  let sc := sub_client (sub_mem s1 a) in
  body (pkt_mem s1 pkt) = BPublish pb ->
  online (clients s1 sc) = false ->
  exists s2,
    publish_step o q pkt s1 a = Some s2
    /\ publish_loop o q pkt (a :: post) s1 = publish_loop o q pkt post s2
    /\ (forall k, wbuf (clients s2 k) = wbuf (clients s1 k)
                  /\ towrite (clients s2 k) = towrite (clients s1 k))
    /\ write_queue s2 = write_queue s1
    /\ messages_sent s2 = messages_sent s1
    /\ (clean_session (clients s1 sc) = false ->
        outgoing_msgs (clients s2 sc)
        = outgoing_msgs (clients s1 sc) ++ [PoolPkt pkt]
        /\ forall k, k <> sc -> clients s2 k = clients s1 k)
    /\ (clean_session (clients s1 sc) = true ->
        clients s2 = clients s1).
Proof.
  intros sc Hb Hoff.
  assert (Hs : publish_step o q pkt s1 a
               = Some
                   (let h := Header.set_qos (header (pkt_mem s1 pkt))
                               (effective_qos q (sub_mem s1 a)) in
                    let s' :=
                      set_pkt_mem
                        (updn (pkt_mem s1) pkt
                           {| header := h;
                              body := BPublish (set_pkt_id 0 pb) |}) s1 in
                    if negb (clean_session (clients s1 sc)) then
                      set_client sc
                        (set_outgoing_msgs
                           (list_push (outgoing_msgs (clients s1 sc))
                              (PoolPkt pkt)) (clients s1 sc)) s'
                    else s')).
  { unfold publish_step. rewrite Hb. fold sc. cbn [clients set_pkt_mem].
    rewrite Hoff. cbn [negb].
    destruct (negb (clean_session (clients s1 sc))); reflexivity. }
  eexists. split; [exact Hs|]. split.
  { cbn [publish_loop]. rewrite Hs. reflexivity. }
  cbn zeta.
  destruct (clean_session (clients s1 sc)) eqn:Hcs; cbn [negb].
  - repeat split; try reflexivity. discriminate.
  - split.
    { intros k. cbn. unfold upd. destruct (k =? sc) eqn:Hk.
      - apply Z.eqb_eq in Hk. subst k. split; reflexivity.
      - split; reflexivity. }
    repeat split; try reflexivity.
    + rewrite clients_set_client. reflexivity.
    + intros k Hk. rewrite clients_set_client_other by exact Hk.
      reflexivity.
    + discriminate.
Qed.

End Fanout.

(** C5.  The stub ack is typed by the subscriber's QoS, not by the
    effective QoS: a QoS-1 PUBLISH fanned out to the online QoS-2
    subscriber "S", whose slot [i_acks[1]] is free, is delivered with
    QoS 1 = min(1, 2) in its header, and the stub installed in
    [i_acks[1]] is a PUBREC. *)
Theorem stub_ack_ignores_effective_qos :
  let r := publish_message sample_oracle 0%nat "t/" fanout_state in
  let c' := clients (state_of r) 5 in
  Header.qos (header (pkt_mem fanout_state 0%nat)) = 1
  /\ sub_qos (sub_mem fanout_state 0%nat) = 2
  /\ online (clients fanout_state 5) = true
  /\ in_use (i_acks (clients fanout_state 5) 1) = false
  /\ r <> None
  /\ map (fun w => match w_data w with
                   | Packed p => Header.qos (header p)
                   | Mono _ _ => -1
                   end) (wbuf c') = [1]
  /\ in_use (i_acks c' 1) = true
  /\ packet (i_acks c' 1)
     = LocalPkt {| header := PUBREC; body := BAck 1 |}.
Proof. vm_compute. repeat split; try reflexivity. discriminate. Qed.

(** ** The topic store *)

Lemma find_topic_update ts n f m :
  (forall t, name (f t) = name t) ->
  find_topic (update_topic ts n f) m
  = if String.eqb m n then option_map f (find_topic ts m)
    else find_topic ts m.
Proof.
  intros Hf. induction ts as [|t ts IH]; cbn.
  - destruct (String.eqb m n); reflexivity.
  - destruct (String.eqb_spec (name t) n) as [Hn|Hn]; cbn.
    + rewrite Hf. destruct (String.eqb_spec (name t) m) as [Hm|Hm].
      * subst. rewrite String.eqb_refl. reflexivity.
      * destruct (String.eqb_spec m n); [congruence | reflexivity].
    + destruct (String.eqb_spec (name t) m) as [Hm|Hm]; [|exact IH].
      destruct (String.eqb_spec m n); [congruence | reflexivity].
Qed.

Lemma find_topic_app ts us m :
  find_topic (ts ++ us) m
  = match find_topic ts m with
    | Some t => Some t
    | None => find_topic us m
    end.
Proof.
  induction ts as [|t ts IH]; cbn; [reflexivity|].
  destruct (String.eqb (name t) m); [reflexivity | exact IH].
Qed.

Lemma get_or_create_exists s n :
  exists t, sol_topic_get (sol_topic_get_or_create s n) n = Some t.
Proof.
  unfold sol_topic_get_or_create, sol_topic_exists.
  destruct (sol_topic_get s n) as [t|] eqn:Ht; [eauto|].
  unfold sol_topic_get in *. cbn. rewrite find_topic_app, Ht. cbn.
  rewrite String.eqb_refl. eauto.
Qed.

(** ** The PUBLISH handler *)

Section Publish.

Context {X : External}.

Lemma publish_message_defined o pkt t s pb :
  body (pkt_mem s pkt) = BPublish pb ->
  sol_topic_get s t <> None ->
  exists s', publish_message o pkt t s = Some s'.
Proof.
  intros Hb Ht. unfold publish_message.
  destruct (sol_topic_get s t) as [tp|]; [|contradiction]. cbn [bind].
  destruct (hashtable_size (subscribers tp) =? 0); [eauto|].
  eapply publish_loop_defined. exact Hb.
Qed.

(** The first part of the handler is defined as soon as the local
    topic is a string and the pool has a free block. *)
Lemma publish_ingest_defined o e p s :
  publish_topic o p <> None ->
  pool s <> [] ->
  exists s5, publish_ingest o e p s = Some s5.
Proof.
  intros Ht Hp. unfold publish_ingest.
  destruct (publish_topic o p) as [tn|]; [|contradiction]. cbn [bind].
  set (s0 := set_messages_recv _ s).
  unfold memorypool_alloc.
  assert (Hpool : pool (sol_topic_get_or_create s0 tn) = pool s).
  { unfold sol_topic_get_or_create.
    destruct (sol_topic_exists s0 tn); reflexivity. }
  rewrite Hpool. destruct (pool s) as [|a r]; [contradiction|]. cbn [bind].
  destruct (get_or_create_exists s0 tn) as [t Hget].
  eapply publish_message_defined.
  - destruct (Header.retain (header (data e)) =? 1); cbn;
      rewrite updn_same; reflexivity.
  - destruct (Header.retain (header (data e)) =? 1).
    + unfold sol_topic_get, with_topic.
      cbn [topics set_topics set_pkt_mem set_pool].
      rewrite find_topic_update by reflexivity.
      unfold sol_topic_get in Hget. rewrite String.eqb_refl, Hget.
      discriminate.
    + unfold sol_topic_get in *. cbn [topics set_pkt_mem set_pool].
      rewrite Hget. discriminate.
Qed.

(** C6.  The reply of [publish_handler] is decided by the QoS of the
    PUBLISH.  Once the first part (topic, pool block, retained message,
    fan-out) has run and left the state [s5]: at QoS 0 the handler
    returns NOREPLY and [s5] as it is; at QoS 1 it returns REPLY after
    staging a PUBACK with the publisher's packet id for the publisher
    (written at the cursor [towrite] of [s5], the cursor advanced by
    [MQTT_ACK_LEN]), the inbound table untouched; at QoS 2 it returns
    REPLY after marking [in_i_acks] at the publisher's packet id in use
    and staging a PUBREC with that id in the same way. *)
Theorem publish_handler_reply o e s p :
  let cp := ev_client e in
  let q := Header.qos (header (data e)) in
  body (data e) = BPublish p ->
  publish_topic o p <> None ->
  pool s <> [] ->
  exists s5,
    publish_ingest o e p s = Some s5
    /\ (q = AT_MOST_ONCE -> publish_handler o e s = Some (NOREPLY, s5))
    /\ (q = AT_LEAST_ONCE ->
        exists s',
          publish_handler o e s = Some (REPLY, s')
          /\ wbuf (clients s' cp)
             = wbuf (clients s5 cp)
               ++ [ {| w_off := towrite (clients s5 cp);
                       w_data := Mono PUBACK (pkt_id p) |} ]
          /\ in_i_acks (clients s' cp) = in_i_acks (clients s5 cp)
          /\ towrite (clients s' cp)
             = size_add (towrite (clients s5 cp)) MQTT_ACK_LEN)
    /\ (q = EXACTLY_ONCE ->
        exists s',
          publish_handler o e s = Some (REPLY, s')
          /\ in_use (in_i_acks (clients s' cp) (pkt_id p)) = true
          /\ wbuf (clients s' cp)
             = wbuf (clients s5 cp)
               ++ [ {| w_off := towrite (clients s5 cp);
                       w_data := Mono PUBREC (pkt_id p) |} ]
          /\ towrite (clients s' cp)
             = size_add (towrite (clients s5 cp)) MQTT_ACK_LEN).
Proof.
  intros cp q Hb Ht Hp.
  destruct (publish_ingest_defined o e p s Ht Hp) as [s5 H5].
  exists s5. split; [exact H5|].
  unfold publish_handler. rewrite Hb, H5. cbn [bind]. fold q cp.
  unfold publish_reply. repeat split.
  - intros ->. reflexivity.
  - intros ->. cbn [Z.eqb AT_LEAST_ONCE AT_MOST_ONCE EXACTLY_ONCE Pos.eqb].
    eexists. split; [reflexivity|]. rewrite clients_set_client.
    split; [reflexivity|]. split; reflexivity.
  - intros ->. cbn [Z.eqb AT_LEAST_ONCE AT_MOST_ONCE EXACTLY_ONCE Pos.eqb].
    eexists. split; [reflexivity|]. rewrite clients_set_client.
    split; [|split; reflexivity].
    cbn. unfold upd. rewrite Z.eqb_refl. reflexivity.
Qed.

End Publish.

(** ** The dispatcher *)

Section Dispatch.

Context {X : External}.

Lemma handlers_past_table type : 15 <= type -> handlers type = None.
Proof.
  intros Ht. unfold handlers.
  destruct (Z.ltb_spec type 0); [reflexivity|].
  apply nth_overflow. cbn [List.length handlers_table]. lia.
Qed.

Lemma handlers_in_table type :
  0 <= type < 15 ->
  handlers type = nth (Z.to_nat type) handlers_table None.
Proof.
  intros Ht. unfold handlers.
  destruct (Z.ltb_spec type 0); [lia | reflexivity].
Qed.

(** C9, as the code has it.  [handle_command] calls the entry of the
    table without any check: for the types 1, 3, 4, 5, 6, 7, 8, 10, 12
    and 14 the entry is a handler and [handle_command] is that
    handler; for every other type there is no entry to call, and
    [handle_command] yields no outcome. *)
Theorem handle_command_dispatch o type e s :
  (In type handled_types ->
   exists h, handlers type = Some h
             /\ handle_command o type e s = h o e s)
  /\ (~ In type handled_types ->
      handlers type = None /\ handle_command o type e s = None).
Proof.
  unfold handle_command.
  destruct (Z.ltb_spec type 0) as [Hneg|Hpos].
  { split.
    - unfold handled_types. cbn [In]. intros H.
      repeat (destruct H as [H|H]; [lia|]). contradiction.
    - intros _. assert (Hn : handlers type = None).
      { unfold handlers. destruct (Z.ltb_spec type 0); [reflexivity | lia]. }
      rewrite Hn. split; reflexivity. }
  destruct (Z.le_gt_cases 15 type) as [Hbig|Hsmall].
  { rewrite (handlers_past_table type Hbig). split.
    - unfold handled_types. cbn [In]. intros H.
      repeat (destruct H as [H|H]; [lia|]). contradiction.
    - intros _. split; reflexivity. }
  assert (Hcases : type = 0 \/ type = 1 \/ type = 2 \/ type = 3 \/ type = 4
                   \/ type = 5 \/ type = 6 \/ type = 7 \/ type = 8
                   \/ type = 9 \/ type = 10 \/ type = 11 \/ type = 12
                   \/ type = 13 \/ type = 14) by lia.
  unfold handled_types. cbn [In].
  repeat (destruct Hcases as [->|Hcases]);
    [ .. | subst type ];
    (split;
     [ intros H; try (exfalso; repeat (destruct H as [H|H]; [discriminate H|]);
                      exact H);
       eexists; split; reflexivity
     | intros H; try (split; reflexivity);
       exfalso; apply H; repeat (first [left; reflexivity | right]) ]).
Qed.

End Dispatch.

(** No protocol-violation outcome: a packet of type 2 (CONNACK, a server-only
    type) gets no outcome from [handle_command], and in particular no
    client-disconnect outcome; the same holds past the table. *)
Lemma handle_command_null_entry :
  handle_command sample_oracle 2 (ack_event 3 1) broker0 = None
  /\ handle_command sample_oracle 15 (ack_event 3 1) broker0 = None
  /\ ~ (exists s',
          handle_command sample_oracle 2 (ack_event 3 1) broker0
          = Some (NEG_ERRCLIENTDC, s')).
Proof.
  split; [reflexivity|]. split; [reflexivity|].
  intros [s' H]. discriminate H.
Qed.

(** ** The SUBSCRIBE handler *)

Section Staging.

Lemma stage_app t a b :
  stage t (a ++ b)
  = (fst (stage t a) ++ fst (stage (snd (stage t a)) b),
     snd (stage (snd (stage t a)) b)).
Proof.
  revert t. induction a as [|[w len] a IH]; intros t; cbn [app stage fst snd].
  - destruct (stage t b); reflexivity.
  - rewrite IH. reflexivity.
Qed.

Lemma staged_refl c : staged c c [].
Proof. split; cbn; [symmetry; apply app_nil_r | reflexivity]. Qed.

Lemma staged_same c c' :
  wbuf c' = wbuf c -> towrite c' = towrite c -> staged c c' [].
Proof.
  intros Hw Ht. split; cbn; [rewrite app_nil_r; exact Hw | exact Ht].
Qed.

Lemma staged_trans c1 c2 c3 a b :
  staged c1 c2 a -> staged c2 c3 b -> staged c1 c3 (a ++ b).
Proof.
  intros [Hw1 Ht1] [Hw2 Ht2]. unfold staged. rewrite stage_app.
  cbn [fst snd]. rewrite Hw2, Ht2, Hw1, Ht1, app_assoc. split; reflexivity.
Qed.

Lemma staged_put w len c :
  staged c (towrite_add len (wbuf_put w c)) [(w, len)].
Proof. split; reflexivity. Qed.

(** The offset of an item in the middle of what was staged is the
    cursor its predecessors left. *)
Lemma stage_middle t pre w len post :
  fst (stage t (pre ++ (w, len) :: post))
  = fst (stage t pre)
    ++ {| w_off := snd (stage t pre); w_data := w |}
    :: fst (stage (size_add (snd (stage t pre)) len) post)
  /\ snd (stage t (pre ++ (w, len) :: post))
     = snd (stage (size_add (snd (stage t pre)) len) post).
Proof. rewrite stage_app. cbn [fst snd stage]. split; reflexivity. Qed.

End Staging.

Section Subscribe.

Context {X : External}.

Lemma same_output_refl s : same_output s s.
Proof. split; intros; repeat split; reflexivity. Qed.

Lemma same_output_trans s1 s2 s3 :
  same_output s1 s2 -> same_output s2 s3 -> same_output s1 s3.
Proof.
  intros [Hc1 Hr1] [Hc2 Hr2]. split.
  - intros k. destruct (Hc1 k) as (A1 & B1 & C1 & D1).
    destruct (Hc2 k) as (A2 & B2 & C2 & D2).
    repeat split; congruence.
  - intros n. rewrite Hr2. apply Hr1.
Qed.

Lemma same_output_sub_heap s m b : same_output s (set_sub_heap m b s).
Proof. split; intros; repeat split; reflexivity. Qed.

Lemma same_output_with_topic s n f :
  (forall t, name (f t) = name t) ->
  (forall t, retained_msg (f t) = retained_msg t) ->
  same_output s (with_topic n f s).
Proof.
  intros Hn Hr. split; [intros; repeat split; reflexivity|].
  intros m. unfold retained_of, sol_topic_get, with_topic.
  cbn [topics set_topics]. rewrite find_topic_update by exact Hn.
  destruct (String.eqb m n); [|reflexivity].
  destruct (find_topic (topics s) m); cbn; [apply Hr | reflexivity].
Qed.

Lemma same_output_subscriptions s k v :
  same_output s (set_client k (set_subscriptions v (clients s k)) s).
Proof.
  split; [|intros; reflexivity].
  intros j. cbn. unfold upd.
  destruct (Z.eqb_spec j k) as [->|]; repeat split; reflexivity.
Qed.

Lemma same_output_get_or_create s n :
  same_output s (sol_topic_get_or_create s n).
Proof.
  unfold sol_topic_get_or_create, sol_topic_exists.
  destruct (sol_topic_get s n) as [t|] eqn:Ht; [apply same_output_refl|].
  split; [intros; repeat split; reflexivity|].
  intros m. unfold retained_of, sol_topic_get in *. cbn.
  rewrite find_topic_app.
  destruct (find_topic (topics s) m) as [t|] eqn:Hm; [reflexivity|].
  cbn. destruct (String.eqb n m); reflexivity.
Qed.

Lemma same_output_recursive_sub a t s :
  same_output s (recursive_sub a t s).
Proof.
  unfold recursive_sub.
  set (s1 := set_sub_heap _ _ s). set (s2 := with_topic t _ s1).
  assert (H2 : same_output s s2).
  { eapply same_output_trans; [apply same_output_sub_heap|].
    apply same_output_with_topic; reflexivity. }
  destruct (negb (clean_session (clients s2 _))); [|exact H2].
  eapply same_output_trans; [exact H2 | apply same_output_subscriptions].
Qed.

(** A prefix traversal whose callback keeps the output keeps it. *)
Lemma same_output_prefix_map prefix fn s :
  (forall t s0, same_output s0 (fn t s0)) ->
  same_output s (trie_prefix_map prefix fn s).
Proof.
  intros Hfn. unfold trie_prefix_map.
  generalize (topics s) at 1. intros ts.
  assert (Hgen : forall acc, same_output s acc ->
            same_output s
              (fold_left
                 (fun acc0 t =>
                    if String.prefix prefix (name t) then fn (name t) acc0
                    else acc0) ts acc)).
  { induction ts as [|t ts IH]; intros acc Hacc; cbn; [exact Hacc|].
    apply IH. destruct (String.prefix prefix (name t)); [|exact Hacc].
    eapply same_output_trans; [exact Hacc | apply Hfn]. }
  apply Hgen, same_output_refl.
Qed.

Lemma same_output_add_subscriber t cp qos s :
  same_output s (topic_add_subscriber t cp qos s).
Proof.
  unfold topic_add_subscriber, new_subscriber.
  eapply same_output_trans; [apply same_output_sub_heap|].
  apply same_output_with_topic; reflexivity.
Qed.

Lemma replay_retained_out t cp s :
  wbuf (clients (replay_retained t cp s) cp)
  = wbuf (clients s cp) ++ replayed s cp t
  /\ forall n, retained_of (replay_retained t cp s) n = retained_of s n.
Proof.
  unfold replay_retained, replayed, retained_of.
  destruct (sol_topic_get s t) as [[nm subs [rm|]]|]; cbn [retained_msg].
  - split; [|reflexivity]. rewrite clients_set_client. reflexivity.
  - split; [symmetry; apply app_nil_r | reflexivity].
  - split; [symmetry; apply app_nil_r | reflexivity].
Qed.

(** The state in which the body of the loop reaches the replay has the
    output of the state in which it started. *)
Lemma subscribe_tuple_out cp w s tp tn b :
  normalise_filter tp = Some (tn, b) ->
  exists s',
    subscribe_tuple cp w s tp = Some (if b then true else w, s')
    /\ wbuf (clients s' cp) = wbuf (clients s cp) ++ replayed s cp tn
    /\ forall n, retained_of s' n = retained_of s n.
Proof.
  intros Hn. unfold subscribe_tuple. rewrite Hn. cbn [bind].
  set (s1 := sol_topic_get_or_create s tn).
  set (s2 := if (if b then true else w) then _ else s1).
  set (s3 := topic_add_subscriber tn cp (tp_qos tp) s2).
  set (s4 := set_client cp _ s3).
  assert (H1 : same_output s s1) by apply same_output_get_or_create.
  assert (H2 : same_output s s2).
  { unfold s2. destruct (if b then true else w); [|exact H1].
    unfold new_subscriber.
    eapply same_output_trans; [exact H1|].
    eapply same_output_trans; [apply same_output_sub_heap|].
    apply same_output_prefix_map. intros t s0.
    apply same_output_recursive_sub. }
  assert (H4 : same_output s s4).
  { eapply same_output_trans; [exact H2|].
    eapply same_output_trans; [apply same_output_add_subscriber|].
    apply same_output_subscriptions. }
  destruct H4 as [Hc Hr]. destruct (Hc cp) as (Hw & Ht & _ & _).
  destruct (replay_retained_out tn cp s4) as [Hrw Hrr].
  eexists. split; [reflexivity|]. split.
  - rewrite Hrw, Hw. unfold replayed. rewrite Hr, Ht. reflexivity.
  - intros n. rewrite Hrr. apply Hr.
Qed.

Lemma subscribe_loop_out cp tps :
  forall w s,
    (forall tp, In tp tps -> normalise_filter tp <> None) ->
    exists w' s' ws,
      subscribe_loop cp w s tps = Some (w', s')
      /\ wbuf (clients s' cp) = wbuf (clients s cp) ++ ws
      /\ (forall n, retained_of s' n = retained_of s n)
      /\ forall tp tn b rm,
           In tp tps ->
           normalise_filter tp = Some (tn, b) ->
           retained_of s tn = Some rm ->
           exists off, In {| w_off := off; w_data := bs_bytes rm |} ws.
Proof.
  induction tps as [|tp tps IH]; intros w s Hdef.
  - exists w, s, []. cbn. split; [reflexivity|].
    split; [symmetry; apply app_nil_r|].
    split; [reflexivity|]. intros ? ? ? ? [].
  - destruct (normalise_filter tp) as [[tn b]|] eqn:Hn;
      [|exfalso; apply (Hdef tp); [left; reflexivity | exact Hn]].
    destruct (subscribe_tuple_out cp w s tp tn b Hn) as (s1 & Hs1 & Hw1 & Hr1).
    destruct (IH (if b then true else w) s1)
      as (w' & s' & ws & Hl & Hw & Hr & Hin).
    { intros tp' Hin'. apply Hdef. right. exact Hin'. }
    exists w', s', (replayed s cp tn ++ ws).
    split; [cbn [subscribe_loop]; rewrite Hs1; exact Hl|].
    split; [rewrite Hw, Hw1, app_assoc; reflexivity|].
    split; [intros n; rewrite Hr; apply Hr1|].
    intros tp' tn' b' rm [<-|Hin'] Hn' Hrm.
    + rewrite Hn in Hn'. injection Hn' as <- <-.
      exists (towrite (clients s cp)). apply in_or_app. left.
      unfold replayed. rewrite Hrm. left. reflexivity.
    + destruct (Hin tp' tn' b' rm Hin' Hn') as [off Hoff].
      { rewrite Hr1. exact Hrm. }
      exists off. apply in_or_app. right. exact Hoff.
Qed.

(** The replay stages the retained message at the cursor and advances
    the cursor by its length. *)
Lemma replay_retained_staged t cp s :
  staged (clients s cp) (clients (replay_retained t cp s) cp)
    (match retained_of s t with
     | Some rm => [(bs_bytes rm, bs_len rm)]
     | None => []
     end).
Proof.
  unfold replay_retained, retained_of.
  destruct (sol_topic_get s t) as [[nm subs [rm|]]|]; cbn [retained_msg];
    try apply staged_refl.
  rewrite clients_set_client. apply staged_put.
Qed.

Lemma replay_items_ext s s' tp :
  (forall n, retained_of s' n = retained_of s n) ->
  replay_items s' tp = replay_items s tp.
Proof.
  intros Hr. unfold replay_items.
  destruct (normalise_filter tp) as [[tn b]|]; [|reflexivity].
  rewrite Hr. reflexivity.
Qed.

Lemma subscribe_tuple_staged cp w s tp tn b :
  normalise_filter tp = Some (tn, b) ->
  exists s',
    subscribe_tuple cp w s tp = Some (if b then true else w, s')
    /\ staged (clients s cp) (clients s' cp) (replay_items s tp)
    /\ forall n, retained_of s' n = retained_of s n.
Proof.
  intros Hn. unfold subscribe_tuple, replay_items. rewrite Hn. cbn [bind].
  set (s1 := sol_topic_get_or_create s tn).
  set (s2 := if (if b then true else w) then _ else s1).
  set (s3 := topic_add_subscriber tn cp (tp_qos tp) s2).
  set (s4 := set_client cp _ s3).
  assert (H1 : same_output s s1) by apply same_output_get_or_create.
  assert (H2 : same_output s s2).
  { unfold s2. destruct (if b then true else w); [|exact H1].
    unfold new_subscriber.
    eapply same_output_trans; [exact H1|].
    eapply same_output_trans; [apply same_output_sub_heap|].
    apply same_output_prefix_map. intros t s0.
    apply same_output_recursive_sub. }
  assert (H4 : same_output s s4).
  { eapply same_output_trans; [exact H2|].
    eapply same_output_trans; [apply same_output_add_subscriber|].
    apply same_output_subscriptions. }
  destruct H4 as [Hc Hr]. destruct (Hc cp) as (Hw & Ht & _ & _).
  destruct (replay_retained_out tn cp s4) as [_ Hrr].
  eexists. split; [reflexivity|]. split.
  - rewrite <- (app_nil_l (match retained_of s tn with
                           | Some rm => [(bs_bytes rm, bs_len rm)]
                           | None => []
                           end)).
    apply (staged_trans _ (clients s4 cp)).
    + apply staged_same; assumption.
    + rewrite <- Hr. apply replay_retained_staged.
  - intros n. rewrite Hrr. apply Hr.
Qed.

(** The loop over the tuples stages the retained messages of the
    tuples, in tuple order, and nothing else. *)
Lemma subscribe_loop_staged cp tps :
  forall w s,
    (forall tp, In tp tps -> normalise_filter tp <> None) ->
    exists w' s',
      subscribe_loop cp w s tps = Some (w', s')
      /\ staged (clients s cp) (clients s' cp)
           (flat_map (replay_items s) tps)
      /\ forall n, retained_of s' n = retained_of s n.
Proof.
  induction tps as [|tp tps IH]; intros w s Hdef.
  - exists w, s. cbn. split; [reflexivity|].
    split; [apply staged_refl | reflexivity].
  - destruct (normalise_filter tp) as [[tn b]|] eqn:Hn;
      [|exfalso; apply (Hdef tp); [left; reflexivity | exact Hn]].
    destruct (subscribe_tuple_staged cp w s tp tn b Hn)
      as (s1 & Hs1 & Hst1 & Hr1).
    destruct (IH (if b then true else w) s1) as (w' & s' & Hl & Hst & Hr).
    { intros tp' Hin'. apply Hdef. right. exact Hin'. }
    exists w', s'.
    split; [cbn [subscribe_loop]; rewrite Hs1; exact Hl|].
    split.
    + cbn [flat_map]. apply (staged_trans _ (clients s1 cp)); [exact Hst1|].
      rewrite (flat_map_ext _ _ (fun tp' => replay_items_ext s s1 tp' Hr1))
        in Hst.
      exact Hst.
    + intros n. rewrite Hr. apply Hr1.
Qed.

(** C7.  A SUBSCRIBE whose filters all normalise is answered with
    REPLY.  What the handler stages for the subscriber, from the cursor
    [towrite] it found, is the retained message of each tuple whose
    normalised topic has one, in tuple order, each at the cursor the
    one before left and advancing the cursor by its length, and then,
    at the cursor the last of them left, the SUBACK (a packet of type
    SUBACK with the granted QoS in tuple order), by whose size the
    cursor advances last: the retained bytes lie before the SUBACK in
    the staged output. *)
Theorem subscribe_retained_before_suback o e s sb :
  let cp := ev_client e in
  body (data e) = BSubscribe sb ->
  (forall tp, In tp (tuples sb) -> normalise_filter tp <> None) ->
  exists s' ws off,
    subscribe_handler o e s = Some (REPLY, s')
    /\ wbuf (clients s' cp)
       = wbuf (clients s cp) ++ ws
         ++ [ {| w_off := off; w_data := Packed (suback_packet sb) |} ]
    /\ (forall tp tn b t rm,
          In tp (tuples sb) ->
          normalise_filter tp = Some (tn, b) ->
          sol_topic_get s tn = Some t ->
          retained_msg t = Some rm ->
          exists off', In {| w_off := off'; w_data := bs_bytes rm |} ws)
    /\ ws = fst (stage (towrite (clients s cp))
                   (flat_map (replay_items s) (tuples sb)))
    /\ off = snd (stage (towrite (clients s cp))
                    (flat_map (replay_items s) (tuples sb)))
    /\ towrite (clients s' cp) = size_add off (mqtt_size (suback_packet sb))
    /\ Header.type (header (suback_packet sb)) = SUBACK
    /\ body (suback_packet sb)
       = BSuback (sub_pkt_id sb) (map tp_qos (tuples sb)).
Proof.
  intros cp Hb Hdef.
  destruct (subscribe_loop_out cp (tuples sb) false s Hdef)
    as (w' & s1 & ws & Hl & Hw & _ & Hin).
  destruct (subscribe_loop_staged cp (tuples sb) false s Hdef)
    as (w2 & s2 & Hl2 & [Hsw Hst] & _).
  rewrite Hl in Hl2. injection Hl2 as <- <-.
  assert (Hws : ws = fst (stage (towrite (clients s cp))
                            (flat_map (replay_items s) (tuples sb)))).
  { rewrite Hw in Hsw. exact (app_inv_head _ _ _ Hsw). }
  unfold subscribe_handler. rewrite Hb. fold cp. rewrite Hl. cbn [bind].
  eexists. exists ws, (towrite (clients s1 cp)).
  split; [reflexivity|]. split.
  { rewrite clients_set_client. cbn. rewrite Hw, app_assoc. reflexivity. }
  split.
  { intros tp tn b t rm Hi Hn Ht Hrm. apply (Hin tp tn b rm Hi Hn).
    unfold retained_of. rewrite Ht. exact Hrm. }
  split; [exact Hws|]. split; [exact Hst|].
  split; [rewrite clients_set_client; reflexivity|].
  split; reflexivity.
Qed.

End Subscribe.

(** ** Wildcard subscriptions *)

Section Wildcard.

Context {X : External}.

Lemma hashtable_get_put_same {A : Type} (h : list (string * A)) k v :
  hashtable_get (hashtable_put h k v) k = Some v.
Proof.
  induction h as [|[k' v'] h IH]; cbn.
  - rewrite String.eqb_refl. reflexivity.
  - destruct (String.eqb k' k) eqn:Hk; cbn.
    + rewrite String.eqb_refl. reflexivity.
    + rewrite Hk. exact IH.
Qed.

Lemma find_topic_in ts u : In u ts -> find_topic ts (name u) <> None.
Proof.
  induction ts as [|t ts IH]; [intros []|]. intros [->|Hin]; cbn.
  - rewrite String.eqb_refl. discriminate.
  - destruct (String.eqb (name t) (name u)); [discriminate | auto].
Qed.

Lemma sub_frame_refl a s : sub_frame a s s.
Proof.
  split; [apply same_output_refl|]. repeat split; auto.
Qed.

Lemma sub_frame_trans a s1 s2 s3 :
  sub_frame a s1 s2 -> sub_frame a s2 s3 -> sub_frame a s1 s3.
Proof.
  intros (O1 & B1 & C1 & Q1 & T1) (O2 & B2 & C2 & Q2 & T2).
  split; [eapply same_output_trans; eassumption|].
  repeat split; try congruence. auto.
Qed.

Lemma sub_frame_recursive_sub a t s : sub_frame a s (recursive_sub a t s).
Proof.
  split; [apply same_output_recursive_sub|].
  unfold recursive_sub.
  set (s1 := set_sub_heap _ _ s). set (s2 := with_topic t _ s1).
  assert (Ht : forall n, sol_topic_get s n <> None ->
                         sol_topic_get s2 n <> None).
  { intros n Hn. unfold s2, sol_topic_get, with_topic.
    cbn [topics set_topics s1 set_sub_heap].
    rewrite find_topic_update by reflexivity.
    unfold sol_topic_get in Hn.
    destruct (String.eqb n t); [|exact Hn].
    destruct (find_topic (topics s) n); [discriminate | contradiction]. }
  destruct (negb (clean_session (clients s2 _)));
    (split; [reflexivity|]);
    (split; [cbn; rewrite updn_same; reflexivity|]);
    (split; [cbn; rewrite updn_same; reflexivity | exact Ht]).
Qed.

(** [recursive_sub] on the topic [t] installs the record there. *)
Lemma recursive_sub_installs a t s :
  sol_topic_get s t <> None ->
  installed (recursive_sub a t s) t
    (client_id (clients s (sub_client (sub_mem s a)))) a.
Proof.
  intros Ht. unfold recursive_sub.
  set (s1 := set_sub_heap _ _ s). set (s2 := with_topic t _ s1).
  assert (H2 : installed s2 t
                 (client_id (clients s (sub_client (sub_mem s a)))) a).
  { unfold installed, s2, sol_topic_get, with_topic.
    cbn [topics set_topics s1 set_sub_heap].
    rewrite find_topic_update by reflexivity. rewrite String.eqb_refl.
    unfold sol_topic_get in Ht.
    destruct (find_topic (topics s) t) as [u|]; [|contradiction].
    eexists. split; [reflexivity|]. cbn [subscribers set_subscribers].
    cbn [sub_client]. apply hashtable_get_put_same. }
  destruct (negb (clean_session (clients s2 _))); exact H2.
Qed.

(** It does not remove the record from a topic where it already is. *)
Lemma recursive_sub_keeps a t s n :
  let cid := client_id (clients s (sub_client (sub_mem s a))) in
  installed s n cid a -> installed (recursive_sub a t s) n cid a.
Proof.
  intros cid (u & Hu & Hg).
  destruct (String.eqb_spec n t) as [->|Hnt].
  - apply recursive_sub_installs. rewrite Hu. discriminate.
  - unfold recursive_sub.
    set (s1 := set_sub_heap _ _ s). set (s2 := with_topic t _ s1).
    assert (H2 : installed s2 n cid a).
    { exists u. split; [|exact Hg].
      unfold s2, sol_topic_get, with_topic.
      cbn [topics set_topics s1 set_sub_heap].
      rewrite find_topic_update by reflexivity.
      destruct (String.eqb_spec n t); [contradiction | exact Hu]. }
    destruct (negb (clean_session (clients s2 _))); exact H2.
Qed.

(** The client id under which a traversal that started in [s0]
    installs the record [a]. *)
Lemma sub_frame_cid a s0 acc :
  sub_frame a s0 acc ->
  client_id (clients acc (sub_client (sub_mem acc a)))
  = client_id (clients s0 (sub_client (sub_mem s0 a))).
Proof.
  intros ([Hc _] & _ & Hsc & _). rewrite Hsc.
  destruct (Hc (sub_client (sub_mem s0 a))) as (_ & _ & Hid & _). exact Hid.
Qed.

(** The traversal installs the record in every topic at or below the
    prefix. *)
Lemma prefix_fold_installs a s0 prefix ts :
  let cid := client_id (clients s0 (sub_client (sub_mem s0 a))) in
  forall acc,
    sub_frame a s0 acc ->
    (forall u, In u ts -> sol_topic_get s0 (name u) <> None) ->
    let final :=
      fold_left
        (fun acc0 t =>
           if String.prefix prefix (name t)
           then recursive_sub a (name t) acc0 else acc0) ts acc in
    sub_frame a s0 final
    /\ (forall n, installed acc n cid a -> installed final n cid a)
    /\ (forall u, In u ts -> String.prefix prefix (name u) = true ->
                  installed final (name u) cid a).
Proof.
  intros cid. induction ts as [|t ts IH]; intros acc Hf Hex; cbn [fold_left].
  - split; [exact Hf|]. split; [auto|]. intros u [].
  - set (acc' := if String.prefix prefix (name t)
                 then recursive_sub a (name t) acc else acc).
    assert (Hf' : sub_frame a s0 acc').
    { unfold acc'. destruct (String.prefix prefix (name t)); [|exact Hf].
      eapply sub_frame_trans; [exact Hf | apply sub_frame_recursive_sub]. }
    assert (Hkeep : forall n, installed acc n cid a -> installed acc' n cid a).
    { intros n Hn. unfold acc'.
      destruct (String.prefix prefix (name t)); [|exact Hn].
      pose proof (recursive_sub_keeps a (name t) acc n) as Hk. cbn zeta in Hk.
      rewrite (sub_frame_cid a s0 acc Hf) in Hk. apply Hk. exact Hn. }
    destruct (IH acc' Hf') as (Hfin & Hk & Hi).
    { intros u Hu. apply Hex. right. exact Hu. }
    split; [exact Hfin|]. split; [intros n Hn; apply Hk, Hkeep, Hn|].
    intros u [<-|Hu] Hp; [|apply Hi; assumption].
    apply Hk. unfold acc'. rewrite Hp.
    pose proof (recursive_sub_installs a (name t) acc) as Hins.
    rewrite (sub_frame_cid a s0 acc Hf) in Hins. apply Hins.
    destruct Hf as (_ & _ & _ & _ & Htop). apply Htop, Hex. left. reflexivity.
Qed.

Lemma installed_with_topic_other s t f n cid a :
  (forall u, name (f u) = name u) ->
  n <> t -> installed s n cid a -> installed (with_topic t f s) n cid a.
Proof.
  intros Hf Hnt (u & Hu & Hg). exists u. split; [|exact Hg].
  unfold sol_topic_get, with_topic. cbn [topics set_topics].
  rewrite find_topic_update by exact Hf.
  destruct (String.eqb_spec n t); [contradiction | exact Hu].
Qed.

Lemma replay_retained_frame t cp s :
  topics (replay_retained t cp s) = topics s
  /\ sub_mem (replay_retained t cp s) = sub_mem s.
Proof.
  unfold replay_retained.
  destruct (sol_topic_get s t) as [[nm subs [rm|]]|]; split; reflexivity.
Qed.

Lemma get_or_create_frame s n :
  sub_brk (sol_topic_get_or_create s n) = sub_brk s
  /\ sub_mem (sol_topic_get_or_create s n) = sub_mem s
  /\ clients (sol_topic_get_or_create s n) = clients s
  /\ forall u, In u (topics s) -> In u (topics (sol_topic_get_or_create s n)).
Proof.
  unfold sol_topic_get_or_create.
  destruct (sol_topic_exists s n); repeat split; auto.
  intros u Hu. cbn. apply in_or_app. left. exact Hu.
Qed.

(** The body of the loop entered with [wildcard] set: whatever the
    filter is, one record is allocated and installed in every topic
    below the normalised filter. *)
Lemma subscribe_tuple_wildcard cp s tp tn b :
  normalise_filter tp = Some (tn, b) ->
  exists s2,
    subscribe_tuple cp true s tp = Some (true, s2)
    /\ sub_client (sub_mem s2 (sub_brk s)) = cp
    /\ sub_qos (sub_mem s2 (sub_brk s)) = tp_qos tp
    /\ forall u,
         In u (topics s) -> String.prefix tn (name u) = true ->
         name u <> tn ->
         installed s2 (name u) (client_id (clients s cp)) (sub_brk s).
Proof.
  intros Hn. unfold subscribe_tuple. rewrite Hn. cbn [bind].
  replace (if b then true else true) with true by (destruct b; reflexivity).
  destruct (get_or_create_frame s tn) as (Hbrk & Hmem & Hcl & Hin).
  set (s1 := sol_topic_get_or_create s tn) in *.
  unfold new_subscriber, topic_add_subscriber. cbv beta iota zeta.
  unfold new_subscriber. cbv beta iota zeta.
  set (a := sub_brk s1).
  set (s0 := set_sub_heap _ (S a) s1).
  assert (Ha : sub_mem s0 a
               = {| sub_client := cp; sub_qos := tp_qos tp; sub_refs := 0 |}).
  { unfold s0. cbn. apply updn_same. }
  destruct (prefix_fold_installs a s0 tn (topics s0) s0 (sub_frame_refl a s0))
    as (Hf & _ & Hi).
  { intros u Hu. apply find_topic_in. exact Hu. }
  fold (trie_prefix_map tn (recursive_sub a) s0) in Hf, Hi.
  set (s2 := trie_prefix_map tn (recursive_sub a) s0) in *.
  rewrite Ha in Hi. cbn [sub_client] in Hi.
  change (clients s0) with (clients s1) in Hi. rewrite Hcl in Hi.
  destruct Hf as (_ & Hb2 & Hc2 & Hq2 & _).
  rewrite Ha in Hc2, Hq2. cbn [sub_client sub_qos] in Hc2, Hq2.
  change (sub_brk s0) with (S a) in Hb2.
  eexists. split; [reflexivity|].
  rewrite <- Hbrk. fold a.
  match goal with
  | |- context [replay_retained ?t ?c ?s4] =>
      destruct (replay_retained_frame t c s4) as [Ht4 Hm4]
  end.
  unfold installed, sol_topic_get. rewrite Hm4, Ht4. clear Hm4 Ht4.
  cbn [set_client set_clients sub_mem topics with_topic set_topics
       set_sub_heap].
  rewrite Hb2. unfold updn at 1 2.
  replace (Nat.eqb a (S a)) with false
    by (symmetry; apply Nat.eqb_neq; lia).
  split; [exact Hc2|]. split; [exact Hq2|].
  intros u Hu Hp Hne.
  rewrite find_topic_update by reflexivity.
  destruct (String.eqb_spec (name u) tn); [contradiction|].
  apply (Hi u); [|exact Hp]. apply Hin. exact Hu.
Qed.

(** *** Filters that end in "/#" *)

Lemma length_append (a b : string) :
  String.length (a ++ b) = (String.length a + String.length b)%nat.
Proof.
  induction a as [|c a IH]; cbn; [reflexivity | rewrite IH; reflexivity].
Qed.

Lemma str_prefix_append (a b : string) (k : nat) :
  str_prefix (String.length a + k) (a ++ b) = (a ++ str_prefix k b)%string.
Proof.
  induction a as [|c a IH]; cbn; [reflexivity|]. rewrite IH. reflexivity.
Qed.

(** A filter "<p>/#" is rewritten to "<p>/" and sets [wildcard]. *)
Lemma normalise_wildcard tp p :
  tp_topic tp = (p ++ "/#")%string ->
  normalise_filter tp = Some ((p ++ "/")%string, true).
Proof.
  intros Ht. unfold normalise_filter, tp_topic_len. rewrite Ht.
  rewrite length_append. cbn [String.length].
  unfold char_at.
  replace (Z.of_nat (String.length p + 2) - 1)
    with (Z.of_nat (1 + String.length p)) by lia.
  replace (Z.of_nat (String.length p + 2) - 2)
    with (Z.of_nat (0 + String.length p)) by lia.
  destruct (Z.ltb_spec (Z.of_nat (1 + String.length p)) 0); [lia|].
  destruct (Z.ltb_spec (Z.of_nat (0 + String.length p)) 0); [lia|].
  rewrite !Nat2Z.id, <- !append_correct2. cbn [String.get bind].
  cbn [Ascii.eqb Bool.eqb]. cbn match.
  replace (1 + String.length p)%nat with (String.length p + 1)%nat by lia.
  rewrite str_prefix_append. reflexivity.
Qed.

(** *** The flag through the loop *)

Lemma subscribe_loop_app cp l1 l2 w s :
  subscribe_loop cp w s (l1 ++ l2)
  = bind (subscribe_loop cp w s l1)
      (fun r => subscribe_loop cp (fst r) (snd r) l2).
Proof.
  revert w s. induction l1 as [|tp l1 IH]; intros w s; cbn; [reflexivity|].
  destruct (subscribe_tuple cp w s tp) as [[w1 s1]|]; cbn;
    [apply IH | reflexivity].
Qed.

Lemma subscribe_tuple_flag cp w s tp w' s' :
  subscribe_tuple cp w s tp = Some (w', s') ->
  exists tn b,
    normalise_filter tp = Some (tn, b) /\ w' = if b then true else w.
Proof.
  destruct (normalise_filter tp) as [[tn b]|] eqn:Hn.
  - destruct (subscribe_tuple_out cp w s tp tn b Hn) as (s1 & Hs & _).
    rewrite Hs. intros [= <- _]. eauto.
  - unfold subscribe_tuple. rewrite Hn. discriminate.
Qed.

(** Nothing in the loop resets the flag. *)
Lemma subscribe_loop_keeps_flag cp l :
  forall s w' s', subscribe_loop cp true s l = Some (w', s') -> w' = true.
Proof.
  induction l as [|tp l IH]; intros s w' s'; cbn.
  - intros [= <- _]. reflexivity.
  - destruct (subscribe_tuple cp true s tp) as [[w1 s1]|] eqn:Ht;
      [|discriminate]. cbn.
    destruct (subscribe_tuple_flag cp true s tp w1 s1 Ht) as (tn & b & _ & ->).
    replace (if b then true else true) with true by (destruct b; reflexivity).
    apply IH.
Qed.

(** C10.  In one SUBSCRIBE, once a filter "<p>/#" has been processed,
    the loop reaches every later tuple with [wildcard] still set:
    whatever that tuple's filter is (also when it does not end in
    "/#"), its turn allocates one subscriber record for the client,
    with the tuple's QoS, and installs that same record, under the
    client's id, in every topic below the normalised filter; the loop
    goes on with the flag set. *)
Theorem wildcard_flag_is_never_reset
  cp s pre w p mid tp tn b post f1 s1 :
  tp_topic w = (p ++ "/#")%string ->
  subscribe_loop cp false s (pre ++ w :: mid) = Some (f1, s1) ->
  normalise_filter tp = Some (tn, b) ->
  f1 = true
  /\ exists s2,
       subscribe_tuple cp f1 s1 tp = Some (true, s2)
       /\ subscribe_loop cp false s ((pre ++ w :: mid) ++ tp :: post)
          = subscribe_loop cp true s2 post
       /\ sub_client (sub_mem s2 (sub_brk s1)) = cp
       /\ sub_qos (sub_mem s2 (sub_brk s1)) = tp_qos tp
       /\ forall u,
            In u (topics s1) -> String.prefix tn (name u) = true ->
            name u <> tn ->
            installed s2 (name u) (client_id (clients s1 cp)) (sub_brk s1).
Proof.
  intros Hw Hl Hn.
  assert (Hf : f1 = true).
  { rewrite subscribe_loop_app in Hl.
    destruct (subscribe_loop cp false s pre) as [[w0 s0]|]; [|discriminate].
    cbn [bind fst snd subscribe_loop] in Hl.
    destruct (subscribe_tuple cp w0 s0 w) as [[w1 s0']|] eqn:Ht;
      [|discriminate].
    destruct (subscribe_tuple_flag cp w0 s0 w w1 s0' Ht)
      as (wn & bw & Hnw & ->).
    rewrite (normalise_wildcard w p Hw) in Hnw. injection Hnw as _ <-.
    cbn [bind] in Hl. eapply subscribe_loop_keeps_flag. exact Hl. }
  split; [exact Hf|]. subst f1.
  destruct (subscribe_tuple_wildcard cp s1 tp tn b Hn)
    as (s2 & Hs2 & Hc & Hq & Hi).
  exists s2. split; [exact Hs2|]. split.
  - rewrite subscribe_loop_app, Hl. cbn [bind fst snd subscribe_loop].
    rewrite Hs2. reflexivity.
  - split; [exact Hc|]. split; [exact Hq | exact Hi].
Qed.

End Wildcard.

(** ** The theorems at work on the concrete broker *)

(** The effective-QoS theorem on [fanout_state]: the QoS-1 PUBLISH
    reaches the online QoS-2 subscriber "S" with QoS 1. *)
Lemma fanout_delivers_min_qos_witness :
  let q := Header.qos (header (pkt_mem fanout_state 0%nat)) in
  let sub := sub_mem fanout_state 0%nat in
  exists s2 w0 off p,
    publish_step sample_oracle q 0%nat fanout_state 0%nat = Some s2
    /\ publish_message sample_oracle 0%nat "t/" fanout_state
       = publish_loop sample_oracle q 0%nat [1; 2]%nat s2
    /\ wbuf (clients s2 (sub_client sub))
       = w0 ++ [ {| w_off := off; w_data := Packed p |} ]
    /\ Header.qos (header p) = Z.min q (sub_qos sub).
Proof.
  eapply (fanout_delivers_min_qos sample_oracle 0%nat "t/" fanout_state _ _
            [] 0%nat [1; 2]%nat fanout_state).
  - reflexivity.
  - reflexivity.
  - reflexivity.
  - reflexivity.
  - reflexivity.
  - vm_compute. discriminate.
Defined.

(** The reply theorem on [fanout_state]: a QoS-2 PUBLISH of client 8
    with packet id 42 is answered with REPLY, [in_i_acks[42]] in use,
    the PUBREC staged at offset 0 and the cursor at 4. *)
Lemma publish_handler_reply_witness :
  exists s',
    publish_handler sample_oracle (publish_event 2) fanout_state
    = Some (REPLY, s')
    /\ in_use (in_i_acks (clients s' 8) 42) = true
    /\ wbuf (clients s' 8) = [ {| w_off := 0; w_data := Mono PUBREC 42 |} ]
    /\ towrite (clients s' 8) = 4.
Proof.
  destruct (publish_handler_reply sample_oracle (publish_event 2) fanout_state
              {| pkt_id := 42; topiclen := 1; topic := "t"; payloadlen := 2;
                 payload := "hi" |})
    as (s5 & H5 & _ & _ & H2).
  - reflexivity.
  - vm_compute. discriminate.
  - vm_compute. discriminate.
  - destruct (H2 eq_refl) as (s' & Hr & Hu & Hw & Ht).
    assert (E5 : publish_ingest sample_oracle (publish_event 2)
                   {| pkt_id := 42; topiclen := 1; topic := "t";
                      payloadlen := 2; payload := "hi" |} fanout_state
                 = Some
                     (state_of
                        (publish_ingest sample_oracle (publish_event 2)
                           {| pkt_id := 42; topiclen := 1; topic := "t";
                              payloadlen := 2; payload := "hi" |}
                           fanout_state)))
      by (vm_compute; reflexivity).
    rewrite E5 in H5.
    assert (Hsome : forall a b : sol_t, Some a = Some b -> a = b)
      by (intros a b [= ->]; reflexivity).
    apply Hsome in H5. subst s5.
    change (ev_client (publish_event 2)) with 8 in Hw, Ht.
    exists s'. split; [exact Hr|]. split; [exact Hu|].
    split; [rewrite Hw | rewrite Ht]; vm_compute; reflexivity.
Defined.

(** The replay theorem on [wild_state]: a SUBSCRIBE to "b/c", whose
    topic "b/c/" has a retained message, stages that message before its
    SUBACK. *)
Lemma subscribe_retained_before_suback_witness :
  exists s' ws off,
    subscribe_handler sample_oracle (subscribe_event [filter_b_c]) wild_state
    = Some (REPLY, s')
    /\ wbuf (clients s' 9)
       = ws ++ [ {| w_off := off;
                    w_data :=
                      Packed
                        (suback_packet
                           {| sub_pkt_id := 11; tuples := [filter_b_c] |}) |} ]
    /\ (exists off',
          In {| w_off := off'; w_data := Packed (publish_packet 0) |} ws)
    /\ ws = [ {| w_off := 0; w_data := Packed (publish_packet 0) |} ]
    /\ off = 8
    /\ towrite (clients s' 9) = 13.
Proof.
  destruct (subscribe_retained_before_suback sample_oracle
              (subscribe_event [filter_b_c]) wild_state
              {| sub_pkt_id := 11; tuples := [filter_b_c] |})
    as (s' & ws & off & Hr & Hw & Hin & Hws & Hoff & Htw & _).
  - reflexivity.
  - intros tp [<-|[]]. vm_compute. discriminate.
  - exists s', ws, off. split; [exact Hr|]. split; [exact Hw|].
    split.
    { apply (Hin filter_b_c "b/c/"%string false
               {| name := "b/c/"; subscribers := [];
                  retained_msg :=
                    Some {| bs_len := 8;
                            bs_bytes := Packed (publish_packet 0) |} |}
               {| bs_len := 8; bs_bytes := Packed (publish_packet 0) |}).
      + left. reflexivity.
      + reflexivity.
      + reflexivity.
      + reflexivity. }
    split; [rewrite Hws; vm_compute; reflexivity|].
    split; [rewrite Hoff; vm_compute; reflexivity|].
    change (towrite (clients s' 9)
            = size_add off
                (mqtt_size
                   (suback_packet
                      {| sub_pkt_id := 11; tuples := [filter_b_c] |})))
      in Htw.
    rewrite Htw, Hoff. vm_compute. reflexivity.
Defined.

(** The offline theorem on [fanout_state]: the turn of the offline
    subscriber "T", whose session is persistent, queues the packet and
    writes nothing. *)
Lemma fanout_offline_subscriber_witness :
  exists s2,
    publish_step sample_oracle 1 0%nat fanout_state 1%nat = Some s2
    /\ outgoing_msgs (clients s2 6) = [PoolPkt 0%nat]
    /\ wbuf (clients s2 6) = []
    /\ write_queue s2 = [].
Proof.
  destruct (fanout_offline_subscriber sample_oracle 1 0%nat fanout_state
              1%nat [2%nat]
              {| pkt_id := 42; topiclen := 2; topic := "t/"; payloadlen := 2;
                 payload := "hi" |})
    as (s2 & Hs & _ & Hw & Hq & _ & Hout & _).
  - reflexivity.
  - reflexivity.
  - exists s2. split; [exact Hs|]. split; [exact (proj1 (Hout eq_refl))|].
    split; [exact (proj1 (Hw 6)) | exact Hq].
Defined.

(** The dispatch theorem on the concrete broker: type 4 is dispatched
    to a handler, type 9 has nothing to call. *)
Lemma handle_command_dispatch_witness :
  (exists h,
     handlers 4 = Some h
     /\ handle_command sample_oracle 4 (ack_event 3 1) two_in_flight
        = h sample_oracle (ack_event 3 1) two_in_flight)
  /\ (handlers 9 = None
      /\ handle_command sample_oracle 9 (ack_event 3 1) two_in_flight = None).
Proof.
  split.
  - apply (proj1 (handle_command_dispatch sample_oracle 4 (ack_event 3 1)
                    two_in_flight)).
    vm_compute. tauto.
  - apply (proj2 (handle_command_dispatch sample_oracle 9 (ack_event 3 1)
                    two_in_flight)).
    vm_compute. intuition discriminate.
Defined.

(** The wildcard theorem on [wild_state]: in a SUBSCRIBE to "a/#" and
    then "b", the turn of "b" installs a shared record in "b/c/" as
    well. *)
Lemma wildcard_flag_is_never_reset_witness :
  exists s2,
    subscribe_tuple 9 true wild_state_1 filter_b = Some (true, s2)
    /\ installed s2 "b/c/" "W" 2%nat
    /\ sub_qos (sub_mem s2 2%nat) = 0.
Proof.
  destruct (wildcard_flag_is_never_reset 9 wild_state [] filter_a_wild "a" []
              filter_b "b/"%string false [] true wild_state_1)
    as (_ & s2 & Ht & _ & _ & Hq & Hi).
  - reflexivity.
  - vm_compute. reflexivity.
  - reflexivity.
  - exists s2. split; [exact Ht|].
    assert (Hb : sub_brk wild_state_1 = 2%nat) by (vm_compute; reflexivity).
    assert (Hc : client_id (clients wild_state_1 9) = "W"%string)
      by (vm_compute; reflexivity).
    rewrite Hb in Hq, Hi. rewrite Hc in Hi.
    split; [|exact Hq].
    apply (Hi {| name := "b/c/"; subscribers := [];
                 retained_msg :=
                   Some {| bs_len := 8;
                           bs_bytes := Packed (publish_packet 0) |} |}).
    + vm_compute. right. left. reflexivity.
    + reflexivity.
    + discriminate.
Defined.

(** * Further properties of the handlers module *)

(** ** The fan-out, turn by turn *)

Section FanoutTurns.

Context {X : External}.

(** What [track_inflight] leaves outside the subscriber's session. *)
Lemma track_inflight_frame o pkt pb h len sub s :
  let s' := track_inflight o pkt pb h len sub s in
  topics s' = topics s /\ pool s' = pool s /\ sub_mem s' = sub_mem s
  /\ write_queue s' = write_queue s /\ messages_sent s' = messages_sent s
  /\ forall k, k <> sub_client sub -> clients s' k = clients s k.
Proof.
  cbn zeta. unfold track_inflight.
  destruct (next_free_mid (clients s (sub_client sub))) as [m c1].
  repeat split. intros k Hk.
  rewrite clients_set_client_other by exact Hk. reflexivity.
Qed.

(** The session that [track_inflight] leaves, relative to the session
    [c1] that the allocator returned. *)
Lemma track_inflight_session o pkt pb h len sub s :
  let sc := sub_client sub in
  let mid := u16 (fst (next_free_mid (clients s sc))) in
  let c1 := snd (next_free_mid (clients s sc)) in
  let c' := clients (track_inflight o pkt pb h len sub s) sc in
  has_inflight c' = true
  /\ i_msgs c'
     = (if in_use (i_msgs c1 mid) then i_msgs c1
        else upd (i_msgs c1) mid (inflight_msg_init o sc (PoolPkt pkt) len))
  /\ in_use (i_acks c' mid) = true
  /\ (in_use (i_acks c1 mid) = true -> i_acks c' = i_acks c1)
  /\ (forall k, k <> mid -> i_acks c' k = i_acks c1 k)
  /\ in_i_acks c' = in_i_acks c1
  /\ wbuf c' = wbuf c1 /\ towrite c' = towrite c1
  /\ online c' = online c1 /\ outgoing_msgs c' = outgoing_msgs c1.
Proof.
  cbn zeta. unfold track_inflight.
  destruct (next_free_mid (clients s (sub_client sub))) as [m c1].
  cbn [fst snd]. rewrite clients_set_client.
  destruct (in_use (i_msgs c1 (u16 m))) eqn:Hm;
    destruct (in_use (i_acks c1 (u16 m))) eqn:Ha; cbn [negb];
    cbn [set_i_msgs set_i_acks set_has_inflight has_inflight i_msgs i_acks
         in_i_acks wbuf towrite online outgoing_msgs];
    rewrite ?Ha; cbn [negb set_i_acks i_acks];
    repeat split; try reflexivity; try assumption; try discriminate;
    try (unfold upd; rewrite Z.eqb_refl; reflexivity);
    try (intros k Hk; unfold upd;
         destruct (Z.eqb_spec k (u16 m)); [contradiction | reflexivity]).
Qed.


(** X1.  A delivery at effective QoS 0 is not tracked: the packet is
    encoded with packet id 0, and the inflight tables, [has_inflight]
    and the id counter of the subscriber stay as they are. *)
Theorem fanout_qos0_is_untracked o q pkt s a pb :
  let sub := sub_mem s a in
  let sc := sub_client sub in
  let c := clients s sc in
  body (pkt_mem s pkt) = BPublish pb ->
  online c = true ->
  effective_qos q sub = 0 ->
  exists s',
    publish_step o q pkt s a = Some s'
    /\ wbuf (clients s' sc)
       = wbuf c
         ++ [ {| w_off := towrite c;
                 w_data :=
                   Packed
                     {| header := Header.set_qos (header (pkt_mem s pkt)) 0;
                        body := BPublish (set_pkt_id 0 pb) |} |} ]
    /\ i_msgs (clients s' sc) = i_msgs c
    /\ i_acks (clients s' sc) = i_acks c
    /\ in_i_acks (clients s' sc) = in_i_acks c
    /\ has_inflight (clients s' sc) = has_inflight c
    /\ next_mid (clients s' sc) = next_mid c.
Proof.
  intros sub sc c Hb Hon Heff. unfold publish_step. rewrite Hb.
  fold sub. fold (effective_qos q sub). rewrite Heff. fold sc.
  cbn [clients set_pkt_mem]. fold c. rewrite Hon. cbn [negb].
  rewrite qos_set_qos. change (Z.land 0 3 >? AT_MOST_ONCE) with false.
  cbn iota. eexists. split; [reflexivity|].
  rewrite deliver_wbuf. cbn [pkt_mem set_pkt_mem clients]. rewrite updn_same.
  fold c. split; [reflexivity|].
  unfold deliver. cbn. unfold upd. rewrite Z.eqb_refl. cbn.
  repeat split; reflexivity.
Qed.

(** X2.  A delivery at effective QoS 1 or 2 takes the id [mid] from the
    allocator and is tracked under it: the packet is encoded with that
    id, both slots of [mid] are in use afterwards and [has_inflight] is
    set; a slot of [mid] that was already in use is not overwritten, a
    free [i_msgs[mid]] now points to the pooled packet, and no other
    slot changes. *)
Theorem fanout_tracks_delivery o q pkt s a pb :
  let sub := sub_mem s a in
  let sc := sub_client sub in
  let mid := u16 (fst (next_free_mid (clients s sc))) in
  let c1 := snd (next_free_mid (clients s sc)) in
  body (pkt_mem s pkt) = BPublish pb ->
  online (clients s sc) = true ->
  1 <= effective_qos q sub <= 3 ->
  exists s',
    publish_step o q pkt s a = Some s'
    /\ wbuf (clients s' sc)
       = wbuf c1
         ++ [ {| w_off := towrite c1;
                 w_data :=
                   Packed
                     {| header :=
                          Header.set_qos (header (pkt_mem s pkt))
                            (effective_qos q sub);
                        body :=
                          BPublish (set_pkt_id mid (set_pkt_id 0 pb)) |} |} ]
    /\ has_inflight (clients s' sc) = true
    /\ in_use (i_msgs (clients s' sc) mid) = true
    /\ in_use (i_acks (clients s' sc) mid) = true
    /\ (in_use (i_msgs c1 mid) = true ->
        i_msgs (clients s' sc) = i_msgs c1)
    /\ (in_use (i_msgs c1 mid) = false ->
        packet (i_msgs (clients s' sc) mid) = PoolPkt pkt)
    /\ (in_use (i_acks c1 mid) = true ->
        i_acks (clients s' sc) = i_acks c1)
    /\ (forall k, k <> mid ->
        i_msgs (clients s' sc) k = i_msgs c1 k
        /\ i_acks (clients s' sc) k = i_acks c1 k).
Proof.
  intros sub sc mid c1 Hb Hon Heff. unfold publish_step. rewrite Hb.
  fold sub. fold (effective_qos q sub). fold sc.
  cbn [clients set_pkt_mem]. rewrite Hon. cbn [negb].
  rewrite qos_set_qos, (land_3_small (effective_qos q sub)) by lia.
  replace (effective_qos q sub >? AT_MOST_ONCE) with true
    by (symmetry; apply Z.gtb_lt; unfold AT_MOST_ONCE; lia).
  set (h := Header.set_qos _ _). set (len := mqtt_size _).
  set (s1 := set_pkt_mem _ s).
  pose proof (track_inflight_session o pkt (set_pkt_id 0 pb) h len sub s1)
    as Ht.
  cbn zeta in Ht. change (clients s1) with (clients s) in Ht.
  fold sc mid c1 in Ht.
  destruct Ht as (Hf & Hm & Ha & Hak & Hao & _ & Hw & Htw & _ & _).
  set (s2 := track_inflight o pkt (set_pkt_id 0 pb) h len sub s1) in *.
  assert (Hp : pkt_mem s2 pkt
               = {| header := h;
                    body := BPublish (set_pkt_id mid (set_pkt_id 0 pb)) |}).
  { unfold s2, track_inflight. change (clients s1) with (clients s).
    fold sc. unfold mid.
    destruct (next_free_mid (clients s sc)) as [m c]. cbn. apply updn_same. }
  eexists. split; [reflexivity|].
  rewrite deliver_wbuf, Hp, Hw, Htw. split; [reflexivity|].
  assert (Hsame :
    has_inflight (clients (deliver pkt len sc s2) sc)
      = has_inflight (clients s2 sc)
    /\ i_msgs (clients (deliver pkt len sc s2) sc) = i_msgs (clients s2 sc)
    /\ i_acks (clients (deliver pkt len sc s2) sc) = i_acks (clients s2 sc)).
  { unfold deliver. cbn. unfold upd. rewrite Z.eqb_refl. cbn.
    repeat split; reflexivity. }
  destruct Hsame as (-> & -> & ->).
  split; [exact Hf|]. split.
  { rewrite Hm. destruct (in_use (i_msgs c1 mid)) eqn:E; [exact E|].
    unfold upd. rewrite Z.eqb_refl. reflexivity. }
  split; [exact Ha|]. split.
  { intros E. rewrite Hm, E. reflexivity. }
  split.
  { intros E. rewrite Hm, E. unfold upd. rewrite Z.eqb_refl. reflexivity. }
  split; [exact Hak|].
  intros k Hk. split; [|apply Hao; exact Hk].
  rewrite Hm. destruct (in_use (i_msgs c1 mid)); [reflexivity|].
  unfold upd. destruct (Z.eqb_spec k mid); [contradiction | reflexivity].
Qed.


Lemma deliver_frame pkt len sc s :
  let s' := deliver pkt len sc s in
  topics s' = topics s /\ pool s' = pool s /\ sub_mem s' = sub_mem s
  /\ pkt_mem s' = pkt_mem s
  /\ write_queue s' = write_queue s ++ [sc]
  /\ messages_sent s' = messages_sent s + 1
  /\ (forall k, k <> sc -> clients s' k = clients s k)
  /\ online (clients s' sc) = online (clients s sc)
  /\ outgoing_msgs (clients s' sc) = outgoing_msgs (clients s sc)
  /\ i_msgs (clients s' sc) = i_msgs (clients s sc)
  /\ i_acks (clients s' sc) = i_acks (clients s sc).
Proof.
  cbn zeta. unfold deliver. cbn. unfold upd. rewrite Z.eqb_refl. cbn.
  repeat split; try reflexivity.
  intros k Hk. destruct (Z.eqb_spec k sc); [contradiction | reflexivity].
Qed.

(** What one turn adds to the write queue and to the counter, and what
    it keeps. *)
Lemma publish_step_counts o q pkt s a pb :
  allocator_keeps_session ->
  body (pkt_mem s pkt) = BPublish pb ->
  let sc := sub_client (sub_mem s a) in
  exists s',
    publish_step o q pkt s a = Some s'
    /\ (forall k, online (clients s' k) = online (clients s k))
    /\ write_queue s'
       = write_queue s ++ (if online (clients s sc) then [sc] else [])
    /\ messages_sent s'
       = messages_sent s + (if online (clients s sc) then 1 else 0)
    /\ topics s' = topics s /\ pool s' = pool s.
Proof.
  intros Hal Hb sc. unfold publish_step. rewrite Hb. fold sc.
  set (h := Header.set_qos _ _). set (len := mqtt_size _).
  set (s1 := set_pkt_mem _ s). change (clients s1) with (clients s).
  destruct (online (clients s sc)) eqn:Hon; cbn [negb].
  - set (s2 := if Header.qos h >? AT_MOST_ONCE
               then track_inflight o pkt (set_pkt_id 0 pb) h len
                      (sub_mem s a) s1
               else s1).
    assert (H2 : (forall k, online (clients s2 k) = online (clients s k))
                 /\ write_queue s2 = write_queue s
                 /\ messages_sent s2 = messages_sent s
                 /\ topics s2 = topics s /\ pool s2 = pool s).
    { unfold s2. destruct (Header.qos h >? AT_MOST_ONCE);
        [|repeat split; reflexivity].
      destruct (track_inflight_frame o pkt (set_pkt_id 0 pb) h len
                  (sub_mem s a) s1) as (Ht & Hp & _ & Hw & Hm & Hk).
      pose proof (track_inflight_session o pkt (set_pkt_id 0 pb) h len
                    (sub_mem s a) s1) as Hs.
      cbn zeta in Hs. destruct Hs as (_ & _ & _ & _ & _ & _ & _ & _ & Ho & _).
      split; [|repeat split; assumption].
      intros k. destruct (Z.eq_dec k sc) as [->|Hne].
      - fold sc in Ho. rewrite Ho. change (clients s1) with (clients s).
        apply (Hal (clients s sc)).
      - rewrite Hk by exact Hne. reflexivity. }
    destruct H2 as (Ho & Hw & Hm & Ht & Hp).
    destruct (deliver_frame pkt len sc s2)
      as (Ht' & Hp' & _ & _ & Hw' & Hm' & Hk' & Ho' & _).
    eexists. split; [reflexivity|]. split.
    { intros k. destruct (Z.eq_dec k sc) as [->|Hne].
      - rewrite Ho'. apply Ho.
      - rewrite Hk' by exact Hne. apply Ho. }
    rewrite Hw', Hm', Ht', Hp', Hw, Hm, Ht, Hp. repeat split; reflexivity.
  - destruct (clean_session (clients s sc)); cbn [negb].
    + eexists. split; [reflexivity|]. rewrite app_nil_r, Z.add_0_r.
      repeat split; reflexivity.
    + eexists. split; [reflexivity|]. rewrite app_nil_r, Z.add_0_r.
      split; [|repeat split; reflexivity].
      intros k. cbn. unfold upd.
      destruct (Z.eqb_spec k sc) as [->|]; reflexivity.
Qed.

Lemma online_subs_ext s s' l :
  (forall k, online (clients s' k) = online (clients s k)) ->
  sub_mem s' = sub_mem s ->
  online_subs s' l = online_subs s l.
Proof.
  intros Ho Hm. unfold online_subs. apply filter_ext. intros a.
  rewrite Hm. apply Ho.
Qed.

(** X3.  The fan-out arms exactly the online subscribers, in the order
    of the iteration, and counts one message sent for each of them; the
    subscribers that are offline are neither armed nor counted. *)
Theorem fanout_arms_online_subscribers o q pkt l :
  allocator_keeps_session ->
  forall s pb,
    body (pkt_mem s pkt) = BPublish pb ->
    exists s',
      publish_loop o q pkt l s = Some s'
      /\ write_queue s'
         = write_queue s
           ++ map (fun a => sub_client (sub_mem s a)) (online_subs s l)
      /\ messages_sent s'
         = messages_sent s + Z.of_nat (List.length (online_subs s l)).
Proof.
  intros Hal. induction l as [|a l IH]; intros s pb Hb.
  - exists s. cbn. rewrite app_nil_r, Z.add_0_r. repeat split; reflexivity.
  - destruct (publish_step_counts o q pkt s a pb Hal Hb)
      as (s1 & Hs & Ho & Hw & Hm & _).
    destruct (publish_step_publish o q pkt s a pb Hb)
      as (s1' & pb1 & Hs' & Hsm & Hp).
    rewrite Hs in Hs'. injection Hs' as <-.
    destruct (IH s1 pb1) as (s' & Hl & Hw' & Hm').
    { rewrite Hp. reflexivity. }
    exists s'. split; [cbn [publish_loop]; rewrite Hs; exact Hl|].
    rewrite Hw', Hm', Hw, Hm, (online_subs_ext s s1 l Ho Hsm), Hsm.
    assert (Hcons : online_subs s (a :: l)
                    = if online (clients s (sub_client (sub_mem s a)))
                      then a :: online_subs s l else online_subs s l)
      by reflexivity.
    rewrite Hcons.
    destruct (online (clients s (sub_client (sub_mem s a))));
      cbn [map List.length].
    + rewrite <- app_assoc. cbn [app]. split; [reflexivity|]. lia.
    + rewrite app_nil_r. split; [reflexivity|]. lia.
Qed.

(** X4.  When the fan-out is over, the pooled packet carries the QoS
    that the turn of the last subscriber wrote: every pointer to the
    block that earlier turns stored (in [outgoing_msgs], in [i_msgs])
    now designates a packet with that QoS. *)
Theorem fanout_leaves_last_qos o q pkt l a s s' pb :
  body (pkt_mem s pkt) = BPublish pb ->
  0 <= q <= 3 ->
  0 <= sub_qos (sub_mem s a) ->
  publish_loop o q pkt (l ++ [a]) s = Some s' ->
  Header.qos (header (pkt_mem s' pkt)) = Z.min q (sub_qos (sub_mem s a)).
Proof.
  intros Hb Hq Hs Hl. rewrite publish_loop_app in Hl.
  destruct (publish_loop o q pkt l s) as [s1|] eqn:H1; [|discriminate].
  cbn [bind publish_loop] in Hl.
  destruct (publish_loop_publish o q pkt l s s1 pb Hb H1) as [Hm [pb1 Hb1]].
  destruct (publish_step_publish o q pkt s1 a pb1 Hb1)
    as (s2 & pb2 & Hs2 & _ & Hp).
  rewrite Hs2 in Hl. cbn [bind] in Hl. injection Hl as <-.
  rewrite Hp. cbn [header]. rewrite qos_set_qos, Hm, effective_qos_min.
  apply land_3_small. lia.
Qed.


Lemma memorypool_free_clients p s s' :
  memorypool_free p s = Some s' -> clients s' = clients s.
Proof. destruct p; cbn; intros [= <-]; reflexivity. Qed.

(** PUBACK works on the session of its sender only. *)
Lemma puback_other_sessions o e s r s' :
  puback_handler o e s = Some (r, s') ->
  forall k, k <> ev_client e -> clients s' k = clients s k.
Proof.
  unfold puback_handler, bind. destruct (ack_id e) as [id|]; [|discriminate].
  destruct (memorypool_free _ s) as [s1|] eqn:Hf; [|discriminate].
  intros [= _ <-] k Hk. rewrite clients_set_client_other by exact Hk.
  rewrite (memorypool_free_clients _ _ _ Hf). reflexivity.
Qed.

(** The turn of an online subscriber at QoS 1 or 2 whose slot is free:
    the slot points to the pool block, the other sessions and the pool
    are not touched. *)
Lemma publish_step_shares_block o q pkt s a pb :
  let sub := sub_mem s a in
  let sc := sub_client sub in
  let mid := u16 (fst (next_free_mid (clients s sc))) in
  body (pkt_mem s pkt) = BPublish pb ->
  online (clients s sc) = true ->
  1 <= effective_qos q sub <= 3 ->
  in_use (i_msgs (snd (next_free_mid (clients s sc))) mid) = false ->
  exists s',
    publish_step o q pkt s a = Some s'
    /\ packet (i_msgs (clients s' sc) mid) = PoolPkt pkt
    /\ (forall k, k <> sc -> clients s' k = clients s k)
    /\ pool s' = pool s.
Proof.
  intros sub sc mid Hb Hon Heff Hfree. unfold publish_step. rewrite Hb.
  fold sub. fold (effective_qos q sub). fold sc.
  cbn [clients set_pkt_mem]. rewrite Hon. cbn [negb].
  rewrite qos_set_qos, (land_3_small (effective_qos q sub)) by lia.
  replace (effective_qos q sub >? AT_MOST_ONCE) with true
    by (symmetry; apply Z.gtb_lt; unfold AT_MOST_ONCE; lia).
  set (h := Header.set_qos _ _). set (len := mqtt_size _).
  set (s1 := set_pkt_mem _ s).
  pose proof (track_inflight_session o pkt (set_pkt_id 0 pb) h len sub s1)
    as Ht.
  cbn zeta in Ht. change (clients s1) with (clients s) in Ht.
  fold sc mid in Ht. destruct Ht as (_ & Hm & _).
  destruct (track_inflight_frame o pkt (set_pkt_id 0 pb) h len sub s1)
    as (_ & Hp & _ & _ & _ & Hk).
  set (s2 := track_inflight o pkt (set_pkt_id 0 pb) h len sub s1) in *.
  destruct (deliver_frame pkt len sc s2)
    as (_ & Hp' & _ & _ & _ & _ & Hk' & _ & _ & Hi & _).
  eexists. split; [reflexivity|]. split.
  - rewrite Hi, Hm, Hfree. unfold upd. rewrite Z.eqb_refl. reflexivity.
  - split; [|rewrite Hp', Hp; reflexivity].
    intros k Hne. rewrite Hk' by exact Hne. fold sc in Hk.
    rewrite Hk by exact Hne. reflexivity.
Qed.

(** X5.  One PUBLISH delivered at QoS 1 or 2 to two online subscribers
    is tracked by both sessions through the same pool block; PUBACK
    frees the block of its slot, so after the PUBACK of each subscriber
    the block is in the pool twice. *)
Theorem shared_block_is_freed_by_each_puback
  o q pkt s a1 a2 pb e1 e2 :
  let k1 := sub_client (sub_mem s a1) in
  let k2 := sub_client (sub_mem s a2) in
  let mid1 := u16 (fst (next_free_mid (clients s k1))) in
  let mid2 := u16 (fst (next_free_mid (clients s k2))) in
  body (pkt_mem s pkt) = BPublish pb ->
  k1 <> k2 ->
  online (clients s k1) = true ->
  online (clients s k2) = true ->
  1 <= effective_qos q (sub_mem s a1) <= 3 ->
  1 <= effective_qos q (sub_mem s a2) <= 3 ->
  in_use (i_msgs (snd (next_free_mid (clients s k1))) mid1) = false ->
  in_use (i_msgs (snd (next_free_mid (clients s k2))) mid2) = false ->
  ev_client e1 = k1 -> ack_id e1 = Some mid1 ->
  ev_client e2 = k2 -> ack_id e2 = Some mid2 ->
  exists s1 s2 s3,
    publish_loop o q pkt [a1; a2] s = Some s1
    /\ puback_handler o e1 s1 = Some (NOREPLY, s2)
    /\ puback_handler o e2 s2 = Some (NOREPLY, s3)
    /\ pool s3 = pkt :: pkt :: pool s.
Proof.
  intros k1 k2 mid1 mid2 Hb Hne Hon1 Hon2 Hq1 Hq2 Hf1 Hf2 He1 Hi1 He2 Hi2.
  destruct (publish_step_shares_block o q pkt s a1 pb Hb Hon1 Hq1 Hf1)
    as (t1 & Hs1 & Hp1 & Hk1 & Hpool1).
  destruct (publish_step_publish o q pkt s a1 pb Hb)
    as (t1' & pb1 & Hs1' & Hsm1 & Hpk1).
  rewrite Hs1 in Hs1'. injection Hs1' as <-.
  assert (Hb1 : body (pkt_mem t1 pkt) = BPublish pb1)
    by (rewrite Hpk1; reflexivity).
  fold k1 in Hk1, Hp1. fold mid1 in Hp1.
  assert (Hc2 : clients t1 k2 = clients s k2)
    by (apply Hk1; intros E; apply Hne; symmetry; exact E).
  destruct (publish_step_shares_block o q pkt t1 a2 pb1 Hb1)
    as (t2 & Hs2 & Hp2 & Hk2 & Hpool2).
  { rewrite Hsm1. fold k2. rewrite Hc2. exact Hon2. }
  { rewrite Hsm1. exact Hq2. }
  { rewrite Hsm1. fold k2. rewrite Hc2. exact Hf2. }
  rewrite Hsm1 in Hp2, Hk2. fold k2 in Hp2, Hk2. rewrite Hc2 in Hp2.
  fold mid2 in Hp2.
  assert (Hp1' : packet (i_msgs (clients t2 k1) mid1) = PoolPkt pkt).
  { rewrite (Hk2 k1 Hne). exact Hp1. }
  destruct (puback_frees_unconditionally o e1 t2 mid1 pkt Hi1)
    as (u1 & Hu1 & Hpu1).
  { rewrite He1. exact Hp1'. }
  assert (Hu1c : clients u1 k2 = clients t2 k2).
  { apply (puback_other_sessions o e1 t2 NOREPLY u1 Hu1).
    rewrite He1. intros E. apply Hne. symmetry. exact E. }
  destruct (puback_frees_unconditionally o e2 u1 mid2 pkt Hi2)
    as (u2 & Hu2 & Hpu2).
  { rewrite He2, Hu1c. exact Hp2. }
  exists t2, u1, u2. split.
  { cbn [publish_loop]. rewrite Hs1. cbn [bind]. rewrite Hs2. reflexivity. }
  split; [exact Hu1|]. split; [exact Hu2|].
  rewrite Hpu2, Hpu1, Hpool2, Hpool1. reflexivity.
Qed.

End FanoutTurns.


(** ** Writes at the cursor *)

Section Responses.

Context {X : External}.

Lemma wbuf_staged w len c :
  wbuf (towrite_add len (wbuf_put w c))
  = wbuf c ++ [ {| w_off := towrite c; w_data := w |} ].
Proof. reflexivity. Qed.

Lemma set_payload_connack_wbuf rc c :
  wbuf (set_payload_connack rc c)
  = wbuf c
    ++ [ {| w_off := towrite c; w_data := Packed (connack_packet rc) |} ].
Proof. reflexivity. Qed.

End Responses.


(** ** CONNECT *)

Section ConnectMore.

Context {X : External}.

(** X7.  Whoever gets past the authentication gate of a broker that does
    not allow anonymous clients has sent both credentials, and the
    password matches the salt stored for the user name: every outcome
    other than the return code BAD_USERNAME_OR_PASSWORD implies it. *)
Theorem connect_passes_the_gate o e s c r s' :
  body (data e) = BConnect c ->
  allow_anonymous s = false ->
  connect_handler o e s = Some (r, s') ->
  r <> RC MQTT_BAD_USERNAME_OR_PASSWORD ->
  cb_username c = true /\ cb_password c = true
  /\ exists salt,
       hashtable_get (authentications s) (cp_username c) = Some salt
       /\ check_passwd (cp_password c) salt = true.
Proof.
  intros Hb Han. unfold connect_handler. rewrite Hb.
  unfold bad_auth. rewrite Han. cbn [negb].
  destruct (cb_username c), (cb_password c); cbn [negb orb];
    try (intros [= <- _] Hr; contradiction Hr; reflexivity).
  destruct (hashtable_get (authentications s) (cp_username c)) as [salt|];
    [|intros [= <- _] Hr; contradiction Hr; reflexivity].
  destruct (check_passwd (cp_password c) salt) eqn:Hc; cbn [negb];
    [|intros [= <- _] Hr; contradiction Hr; reflexivity].
  intros _ _. repeat split. exists salt. split; [reflexivity | exact Hc].
Qed.

(** X8.  A rejected CONNECT changes nothing but the sender's staged
    output, to which it appends the CONNACK with the return code it
    returns; the code is BAD_USERNAME_OR_PASSWORD or NOT_AUTHORIZED. *)
Theorem connect_rejection_only_stages_connack o e s code s' :
  connect_handler o e s = Some (RC code, s') ->
  (code = MQTT_BAD_USERNAME_OR_PASSWORD \/ code = MQTT_NOT_AUTHORIZED)
  /\ s' = set_client (ev_client e)
            (set_payload_connack code (clients s (ev_client e))) s.
Proof.
  unfold connect_handler. destruct (body (data e)) as [c| | | | | | |];
    try discriminate.
  destruct (bad_auth s c).
  { intros [= <- <-]. split; [left|]; reflexivity. }
  destruct ((cp_client_id c =? EmptyString)%string
            && negb (cb_clean_session c)).
  { intros [= <- <-]. split; [right|]; reflexivity. }
  match goal with
  | |- bind ?m _ = _ -> _ => destruct m as [s1|]; [|discriminate]
  end.
  cbn [bind]. destruct (online _ && _); discriminate.
Qed.

Lemma flush_outgoing_pool addrs s :
  forall c,
    exists c',
      flush_outgoing (map PoolPkt addrs) s c = Some c'
      /\ map w_data (wbuf c')
         = map w_data (wbuf c) ++ map (fun a => Packed (pkt_mem s a)) addrs
      /\ outgoing_msgs c' = outgoing_msgs c
      /\ subscriptions c' = subscriptions c
      /\ online c' = online c.
Proof.
  induction addrs as [|a addrs IH]; intros c; cbn [map flush_outgoing].
  - exists c. rewrite app_nil_r. repeat split; reflexivity.
  - destruct (IH (towrite_add (mqtt_size (pkt_mem s a))
                    (wbuf_put (Packed (pkt_mem s a)) c)))
      as (c' & Hf & Hw & Ho & Hs & Hn).
    exists c'. split; [exact Hf|]. rewrite Hw, Ho, Hs, Hn.
    cbn [wbuf towrite_add wbuf_put set_towrite set_wbuf].
    rewrite map_app, <- app_assoc. repeat split; reflexivity.
Qed.

Lemma get_or_create_is_there s n :
  sol_topic_exists (sol_topic_get_or_create s n) n = true.
Proof.
  unfold sol_topic_exists at 1.
  destruct (get_or_create_exists s n) as [t ->]. reflexivity.
Qed.

(** The session that [store_will] leaves. *)
Lemma store_will_client c cp s :
  clients (store_will c cp s) cp
  = set_lwt_msg (will_packet c) (set_has_lwt true (clients s cp))
  /\ forall k, k <> cp -> clients (store_will c cp s) k = clients s k.
Proof.
  unfold store_will.
  set (s1 := set_client cp _ s).
  rewrite (get_or_create_is_there s1 (cp_will_topic c)). cbn [negb].
  destruct (get_or_create_frame s1 (cp_will_topic c)) as (_ & _ & Hcl & _).
  fold (will_packet c).
  assert (Hfin : forall s4 : sol_t,
            clients
              (if cb_will_retain c then
                 with_topic (cp_will_topic c)
                   (set_retained_msg
                      (Some {| bs_len := mqtt_size (will_packet c);
                               bs_bytes := Packed (will_packet c) |})) s4
               else s4) = clients s4)
    by (intros s4; destruct (cb_will_retain c); reflexivity).
  rewrite Hfin. split.
  - rewrite clients_set_client, Hcl. unfold s1.
    rewrite clients_set_client. reflexivity.
  - intros k Hk. rewrite clients_set_client_other by exact Hk.
    rewrite Hcl. unfold s1. apply clients_set_client_other. exact Hk.
Qed.

(** The retained message that [store_will] leaves under the Will topic,
    taken as it is in the CONNECT. *)
Lemma store_will_retained c cp s :
  cb_will_retain c = true ->
  retained_of (store_will c cp s) (cp_will_topic c)
  = Some {| bs_len := mqtt_size (will_packet c);
            bs_bytes := Packed (will_packet c) |}.
Proof.
  intros Hr. unfold store_will.
  set (s1 := set_client cp _ s).
  rewrite (get_or_create_is_there s1 (cp_will_topic c)). cbn [negb].
  rewrite Hr. fold (will_packet c).
  destruct (get_or_create_exists s1 (cp_will_topic c)) as [t Ht].
  unfold retained_of, sol_topic_get, with_topic in *.
  cbn [topics set_topics set_client set_clients].
  rewrite find_topic_update by reflexivity.
  rewrite String.eqb_refl, Ht. reflexivity.
Qed.

(** An accepted CONNECT, taken apart. *)
Lemma connect_reply_inv o e s c s' :
  body (data e) = BConnect c ->
  connect_handler o e s = Some (REPLY, s') ->
  let cp := ev_client e in
  let id :=
    if (cp_client_id c =? EmptyString)%string then generate_random_id o
    else cp_client_id c in
  exists s1,
    (if negb (cp_client_id c =? EmptyString)%string
        && negb (cb_clean_session c)
        && (list_size (outgoing_msgs (clients s cp)) >? 0)
     then
       bind (flush_outgoing (outgoing_msgs (clients s cp)) s (clients s cp))
         (fun cc => Some (enqueue_event_write cp (set_client cp cc s)))
     else Some s) = Some s1
    /\ ((cp_client_id c =? EmptyString)%string = true ->
        cb_clean_session c = true)
    /\ s' =
       (let s2 :=
          set_client cp
            (set_client_id (strncpy id MQTT_CLIENT_ID_LEN) (clients s1 cp))
            s1 in
        let s3 := if cb_will c then store_will c cp s2 else s2 in
        let c4 := set_clean_session (cb_clean_session c) (clients s3 cp) in
        let c5 :=
          if cb_clean_session c then
            set_outgoing_msgs [] (set_subscriptions [] c4)
          else c4 in
        set_client cp (set_payload_connack MQTT_CONNECTION_ACCEPTED c5) s3).
Proof.
  intros Hb. unfold connect_handler. rewrite Hb.
  destruct (bad_auth s c); [discriminate|].
  destruct ((cp_client_id c =? EmptyString)%string
            && negb (cb_clean_session c)) eqn:Hna; [discriminate|].
  match goal with
  | |- bind ?m _ = _ -> _ => destruct m as [s1|] eqn:Hfl; [|discriminate]
  end.
  cbn [bind]. destruct (online _ && _); [discriminate|].
  intros [= <-]. cbn zeta. exists s1. split; [reflexivity|].
  split; [|reflexivity].
  intros He. rewrite He in Hna. cbn [andb] in Hna.
  destruct (cb_clean_session c); [reflexivity | discriminate].
Qed.


Lemma flush_outgoing_session msgs s :
  forall c c',
    flush_outgoing msgs s c = Some c' ->
    online c' = online c /\ subscriptions c' = subscriptions c.
Proof.
  induction msgs as [|m msgs IH]; intros c c'; cbn.
  - intros [= <-]. split; reflexivity.
  - destruct m as [|a|p]; try discriminate.
    intros H. apply IH in H. exact H.
Qed.

(** The session of the sender after the accepting tail of
    [connect_handler], which starts in [s1]. *)
Lemma connect_tail_session (c : mqtt_connect) (cp : Z) (id : string)
  (s1 : sol_t) :
  let s2 :=
    set_client cp
      (set_client_id (strncpy id MQTT_CLIENT_ID_LEN) (clients s1 cp)) s1 in
  let s3 := if cb_will c then store_will c cp s2 else s2 in
  let c4 := set_clean_session (cb_clean_session c) (clients s3 cp) in
  let c5 :=
    if cb_clean_session c then
      set_outgoing_msgs [] (set_subscriptions [] c4)
    else c4 in
  let c' :=
    clients
      (set_client cp (set_payload_connack MQTT_CONNECTION_ACCEPTED c5) s3)
      cp in
  let c1 := clients s1 cp in
  client_id c' = strncpy id MQTT_CLIENT_ID_LEN
  /\ clean_session c' = cb_clean_session c
  /\ online c' = online c1
  /\ conn_fd c' = conn_fd c1
  /\ subscriptions c'
     = (if cb_clean_session c then [] else subscriptions c1)
  /\ outgoing_msgs c'
     = (if cb_clean_session c then [] else outgoing_msgs c1)
  /\ wbuf c'
     = wbuf c1
       ++ [ {| w_off := towrite c1;
               w_data := Packed (connack_packet MQTT_CONNECTION_ACCEPTED) |} ]
  /\ (cb_will c = true ->
      has_lwt c' = true /\ lwt_msg c' = will_packet c)
  /\ (cb_will c = false ->
      has_lwt c' = has_lwt c1 /\ lwt_msg c' = lwt_msg c1).
Proof.
  cbn zeta. rewrite clients_set_client.
  set (s2 := set_client cp _ s1).
  assert (H3 : clients (if cb_will c then store_will c cp s2 else s2) cp
               = if cb_will c
                 then set_lwt_msg (will_packet c)
                        (set_has_lwt true (clients s2 cp))
                 else clients s2 cp).
  { destruct (cb_will c); [apply store_will_client | reflexivity]. }
  rewrite H3. unfold s2. rewrite clients_set_client.
  destruct (cb_will c), (cb_clean_session c); cbn;
    repeat split; try reflexivity; intros; discriminate.
Qed.

(** X9.  What an accepted CONNECT stores in the session of its sender:
    the client id (cut to [MQTT_CLIENT_ID_LEN] characters) and the
    clean-session flag; a clean session starts with an empty
    subscription list and an empty queue, a persistent one keeps both;
    [online] is left as it was. *)
Theorem accepted_connect_session o e s c s' :
  body (data e) = BConnect c ->
  connect_handler o e s = Some (REPLY, s') ->
  let cp := ev_client e in
  let id :=
    if (cp_client_id c =? EmptyString)%string then generate_random_id o
    else cp_client_id c in
  client_id (clients s' cp) = strncpy id MQTT_CLIENT_ID_LEN
  /\ clean_session (clients s' cp) = cb_clean_session c
  /\ online (clients s' cp) = online (clients s cp)
  /\ (cb_clean_session c = true ->
      subscriptions (clients s' cp) = []
      /\ outgoing_msgs (clients s' cp) = [])
  /\ (cb_clean_session c = false ->
      subscriptions (clients s' cp) = subscriptions (clients s cp)).
Proof.
  intros Hb Hrun cp id.
  destruct (connect_reply_inv o e s c s' Hb Hrun) as (s1 & Hfl & _ & ->).
  fold cp id in Hfl |- *. cbn zeta.
  destruct (connect_tail_session c cp id s1)
    as (Hid & Hcs & Hon & _ & Hsub & Hout & _).
  cbn zeta in Hid, Hcs, Hon, Hsub, Hout.
  rewrite Hid, Hcs, Hon, Hsub, Hout.
  assert (H1 : online (clients s1 cp) = online (clients s cp)
               /\ subscriptions (clients s1 cp) = subscriptions (clients s cp)).
  { destruct (_ && _ && _) in Hfl; [|injection Hfl as <-; split; reflexivity].
    destruct (flush_outgoing _ s (clients s cp)) as [cc|] eqn:Hcc;
      [|discriminate].
    cbn [bind] in Hfl. injection Hfl as <-.
    cbn [enqueue_event_write set_write_queue clients].
    rewrite clients_set_client.
    exact (flush_outgoing_session _ _ _ _ Hcc). }
  destruct H1 as [-> ->].
  split; [reflexivity|]. split; [reflexivity|]. split; [reflexivity|].
  split.
  - intros ->. split; reflexivity.
  - intros ->. reflexivity.
Qed.

(** X10.  A CONNECT without client id that is accepted gets the
    generated id ["<prefix>-<time>"], stored in full: [snprintf] cut it
    to at most [MQTT_CLIENT_ID_LEN - 2] characters, which [strncpy]
    copies whole. *)
Theorem anonymous_connect_gets_generated_id o e s c s' :
  body (data e) = BConnect c ->
  cp_client_id c = EmptyString ->
  connect_handler o e s = Some (REPLY, s') ->
  client_id (clients s' (ev_client e)) = generate_random_id o
  /\ (String.length (client_id (clients s' (ev_client e)))
      <= MQTT_CLIENT_ID_LEN - 2)%nat
  /\ cb_clean_session c = true.
Proof.
  intros Hb He Hrun.
  destruct (connect_reply_inv o e s c s' Hb Hrun) as (s1 & _ & Hcl & ->).
  rewrite He in *. cbn [String.eqb] in *. cbn zeta.
  destruct (connect_tail_session c (ev_client e) (generate_random_id o) s1)
    as (Hid & _).
  cbn zeta in Hid. rewrite Hid.
  assert (Hlen : forall n t, (String.length (str_prefix n t) <= n)%nat).
  { induction n as [|n IH]; intros [|a t]; cbn; try lia.
    specialize (IH t). lia. }
  assert (Hsame : forall n t, (String.length t <= n)%nat -> str_prefix n t = t).
  { induction n as [|n IH]; intros [|a t]; cbn; intros Hl;
      try reflexivity; try lia.
    rewrite IH by lia. reflexivity. }
  assert (Hg : (String.length (generate_random_id o)
                <= MQTT_CLIENT_ID_LEN - 2)%nat)
    by apply Hlen.
  unfold strncpy. rewrite Hsame by lia.
  split; [reflexivity|]. split; [exact Hg | apply Hcl; reflexivity].
Qed.

Lemma flush_outgoing_staged addrs s :
  forall c,
    exists c',
      flush_outgoing (map PoolPkt addrs) s c = Some c'
      /\ staged c c'
           (map (fun a => (Packed (pkt_mem s a), mqtt_size (pkt_mem s a)))
              addrs).
Proof.
  induction addrs as [|a addrs IH]; intros c; cbn [map flush_outgoing].
  - exists c. split; [reflexivity | apply staged_refl].
  - destruct (IH (towrite_add (mqtt_size (pkt_mem s a))
                    (wbuf_put (Packed (pkt_mem s a)) c)))
      as (c' & Hf & Hst).
    exists c'. split; [exact Hf|].
    apply (staged_trans c _ c' [_] _ (staged_put _ _ c) Hst).
Qed.


(** The accepting tail of [connect_handler] stages the CONNACK and
    nothing else. *)
Lemma connect_tail_staged (c : mqtt_connect) (cp : Z) (id : string)
  (s1 : sol_t) :
  let s2 :=
    set_client cp
      (set_client_id (strncpy id MQTT_CLIENT_ID_LEN) (clients s1 cp)) s1 in
  let s3 := if cb_will c then store_will c cp s2 else s2 in
  let c4 := set_clean_session (cb_clean_session c) (clients s3 cp) in
  let c5 :=
    if cb_clean_session c then
      set_outgoing_msgs [] (set_subscriptions [] c4)
    else c4 in
  staged (clients s1 cp)
    (clients
       (set_client cp (set_payload_connack MQTT_CONNECTION_ACCEPTED c5) s3)
       cp)
    [(Packed (connack_packet MQTT_CONNECTION_ACCEPTED), MQTT_ACK_LEN)].
Proof.
  cbn zeta. rewrite clients_set_client.
  set (s2 := set_client cp _ s1).
  assert (H3 : clients (if cb_will c then store_will c cp s2 else s2) cp
               = if cb_will c
                 then set_lwt_msg (will_packet c)
                        (set_has_lwt true (clients s2 cp))
                 else clients s2 cp).
  { destruct (cb_will c); [apply store_will_client | reflexivity]. }
  rewrite H3. unfold s2. rewrite clients_set_client.
  destruct (cb_will c), (cb_clean_session c); split; reflexivity.
Qed.


(** X11.  A resuming CONNECT (clean_session = 0) that is accepted has
    staged, from the cursor [towrite] it found, the queued packets in
    the order of the queue, each as the pool block holds it now, at the
    cursor the one before left and advancing the cursor by its
    [mqtt_size], and then the CONNACK, by whose [MQTT_ACK_LEN] the
    cursor advances last; the queue itself is left as it was. *)
Theorem connect_flushes_queue_in_order o e s c s' addrs :
  body (data e) = BConnect c ->
  cb_clean_session c = false ->
  outgoing_msgs (clients s (ev_client e)) = map PoolPkt addrs ->
  connect_handler o e s = Some (REPLY, s') ->
  map w_data (wbuf (clients s' (ev_client e)))
  = map w_data (wbuf (clients s (ev_client e)))
    ++ map (fun a => Packed (pkt_mem s a)) addrs
    ++ [Packed (connack_packet MQTT_CONNECTION_ACCEPTED)]
  /\ outgoing_msgs (clients s' (ev_client e)) = map PoolPkt addrs
  /\ staged (clients s (ev_client e)) (clients s' (ev_client e))
       (map (fun a => (Packed (pkt_mem s a), mqtt_size (pkt_mem s a))) addrs
        ++ [(Packed (connack_packet MQTT_CONNECTION_ACCEPTED),
             MQTT_ACK_LEN)]).
Proof.
  intros Hb Hcs Hq Hrun.
  assert (Hstaged :
            staged (clients s (ev_client e)) (clients s' (ev_client e))
              (map (fun a => (Packed (pkt_mem s a), mqtt_size (pkt_mem s a)))
                 addrs
               ++ [(Packed (connack_packet MQTT_CONNECTION_ACCEPTED),
                    MQTT_ACK_LEN)])).
  { destruct (connect_reply_inv o e s c s' Hb Hrun) as (s1 & Hfl & Hcl & ->).
    cbn zeta.
    assert (Hne : (cp_client_id c =? EmptyString)%string = false).
    { destruct (cp_client_id c =? EmptyString)%string; [|reflexivity].
      rewrite Hcl in Hcs by reflexivity. discriminate. }
    rewrite Hne, Hcs in Hfl. cbn [negb andb] in Hfl.
    apply (staged_trans _ (clients s1 (ev_client e)));
      [|apply connect_tail_staged].
    destruct (list_size (outgoing_msgs (clients s (ev_client e))) >? 0)
      eqn:Hsz.
    - rewrite Hq in Hfl.
      destruct (flush_outgoing_staged addrs s (clients s (ev_client e)))
        as (c' & Hf & Hst).
      rewrite Hf in Hfl. cbn [bind] in Hfl. injection Hfl as <-.
      cbn [enqueue_event_write set_write_queue clients].
      rewrite clients_set_client. exact Hst.
    - injection Hfl as <-.
      rewrite Hq in Hsz. unfold list_size in Hsz.
      rewrite length_map in Hsz.
      destruct addrs as [|a addrs]; [apply staged_refl|].
      cbn [List.length] in Hsz. rewrite Z.gtb_ltb in Hsz.
      apply Z.ltb_ge in Hsz. lia. }
  apply and_assoc. split; [|exact Hstaged]. clear Hstaged.
  destruct (connect_reply_inv o e s c s' Hb Hrun) as (s1 & Hfl & Hcl & ->).
  cbn zeta.
  assert (Hne : (cp_client_id c =? EmptyString)%string = false).
  { destruct (cp_client_id c =? EmptyString)%string; [|reflexivity].
    rewrite Hcl in Hcs by reflexivity. discriminate. }
  rewrite Hne, Hcs in Hfl. cbn [negb andb] in Hfl.
  match goal with
  | |- context [set_client_id (strncpy ?i _) _] =>
      destruct (connect_tail_session c (ev_client e) i s1)
        as (_ & _ & _ & _ & _ & Hout & Hw & _)
  end.
  cbn zeta in Hout, Hw. rewrite Hout, Hw, Hcs, map_app. cbn [map w_data].
  assert (H1 : map w_data (wbuf (clients s1 (ev_client e)))
               = map w_data (wbuf (clients s (ev_client e)))
                 ++ map (fun a => Packed (pkt_mem s a)) addrs
               /\ outgoing_msgs (clients s1 (ev_client e)) = map PoolPkt addrs).
  { destruct (list_size (outgoing_msgs (clients s (ev_client e))) >? 0) eqn:Hsz.
    - rewrite Hq in Hfl.
      destruct (flush_outgoing_pool addrs s (clients s (ev_client e)))
        as (c' & Hf & Hw' & Ho & _).
      rewrite Hf in Hfl. cbn [bind] in Hfl. injection Hfl as <-.
      cbn [enqueue_event_write set_write_queue clients].
      rewrite clients_set_client, Hw', Ho. split; [reflexivity | exact Hq].
    - injection Hfl as <-. split; [|exact Hq].
      rewrite Hq in Hsz. unfold list_size in Hsz.
      rewrite length_map in Hsz.
      destruct addrs as [|a addrs]; [cbn; rewrite app_nil_r; reflexivity|].
      cbn [List.length] in Hsz. rewrite Z.gtb_ltb in Hsz.
      apply Z.ltb_ge in Hsz. lia. }
  destruct H1 as [-> ->]. rewrite <- app_assoc. split; reflexivity.
Qed.

(** X12.  An accepted CONNECT with a Will stores the Will message, with
    the Will QoS in its header, in the session; with the Will-retain
    flag it also becomes the retained message of the topic named exactly
    as the Will topic of the CONNECT. *)
Theorem connect_stores_will o e s c s' :
  body (data e) = BConnect c ->
  cb_will c = true ->
  connect_handler o e s = Some (REPLY, s') ->
  has_lwt (clients s' (ev_client e)) = true
  /\ lwt_msg (clients s' (ev_client e)) = will_packet c
  /\ Header.qos (header (will_packet c)) = Z.land (cb_will_qos c) 3
  /\ (cb_will_retain c = true ->
      retained_of s' (cp_will_topic c)
      = Some {| bs_len := mqtt_size (will_packet c);
                bs_bytes := Packed (will_packet c) |}).
Proof.
  intros Hb Hwill Hrun.
  destruct (connect_reply_inv o e s c s' Hb Hrun) as (s1 & _ & _ & ->).
  cbn zeta.
  match goal with
  | |- context [set_client_id (strncpy ?i _) _] =>
      destruct (connect_tail_session c (ev_client e) i s1)
        as (_ & _ & _ & _ & _ & _ & _ & Hl & _)
  end.
  cbn zeta in Hl. destruct (Hl Hwill) as [-> ->].
  split; [reflexivity|]. split; [reflexivity|].
  split; [apply qos_set_qos|].
  intros Hret. rewrite Hwill.
  unfold retained_of, sol_topic_get. cbn [topics set_client set_clients].
  apply (store_will_retained c (ev_client e) _ Hret).
Qed.

End ConnectMore.


(** ** DISCONNECT, UNSUBSCRIBE and the inbound QoS-2 exchange *)

Section Sessions.

Context {X : External}.

Lemma topic_del_subscriber_frame t cp s :
  let s' := topic_del_subscriber t cp s in
  clients s' = clients s /\ pool s' = pool s /\ pkt_mem s' = pkt_mem s
  /\ sub_mem s' = sub_mem s /\ write_queue s' = write_queue s.
Proof. repeat split. Qed.

Lemma fold_del_subscriber_clients cp l :
  forall s,
    clients (fold_left (fun acc t => topic_del_subscriber t cp acc) l s)
    = clients s.
Proof.
  induction l as [|t l IH]; intros s; cbn [fold_left]; [reflexivity|].
  rewrite IH. reflexivity.
Qed.

(** X13.  DISCONNECT always returns the client-disconnect outcome and
    changes no session at all: nothing is staged, [online] and the
    client's own subscription list stay as they are (for a clean session
    only the subscriber tables of the topics change); for a persistent
    session the whole state is unchanged. *)
Theorem disconnect_keeps_sessions o e s :
  exists s',
    disconnect_handler o e s = Some (NEG_ERRCLIENTDC, s')
    /\ clients s' = clients s
    /\ (clean_session (clients s (ev_client e)) = false -> s' = s).
Proof.
  unfold disconnect_handler. eexists. split; [reflexivity|]. split.
  - destruct (_ && _); [apply fold_del_subscriber_clients | reflexivity].
  - intros ->. reflexivity.
Qed.

Lemma fold_unsubscribe_unknown cp l :
  forall s,
    (forall t, In t l -> sol_topic_get s t = None) ->
    fold_left
      (fun acc t =>
         match sol_topic_get acc t with
         | Some _ => topic_del_subscriber t cp acc
         | None => acc
         end) l s = s.
Proof.
  induction l as [|t l IH]; intros s Hn; cbn [fold_left]; [reflexivity|].
  rewrite (Hn t) by (left; reflexivity). apply IH.
  intros t' Ht'. apply Hn. right. exact Ht'.
Qed.

Lemma fold_unsubscribe_clients cp l :
  forall s,
    clients
      (fold_left
         (fun acc t =>
            match sol_topic_get acc t with
            | Some _ => topic_del_subscriber t cp acc
            | None => acc
            end) l s) = clients s.
Proof.
  induction l as [|t l IH]; intros s; cbn [fold_left]; [reflexivity|].
  rewrite IH. destruct (sol_topic_get s t); reflexivity.
Qed.

(** X14.  UNSUBSCRIBE is always answered: whatever the filters are, the
    handler returns REPLY after staging the UNSUBACK with the packet id
    of the request for the sender (written at the cursor [towrite], the
    cursor advanced by [MQTT_ACK_LEN]), and touches no other session.
    Filters are looked up as they are written; when none of them names
    an existing topic, the topics are left as they are. *)
Theorem unsubscribe_always_acks o e s u :
  body (data e) = BUnsubscribe u ->
  let cp := ev_client e in
  exists s',
    unsubscribe_handler o e s = Some (REPLY, s')
    /\ wbuf (clients s' cp)
       = wbuf (clients s cp)
         ++ [ {| w_off := towrite (clients s cp);
                 w_data := Mono UNSUBACK (unsub_pkt_id u) |} ]
    /\ (forall k, k <> cp -> clients s' k = clients s k)
    /\ ((forall t, In t (unsub_tuples u) -> sol_topic_get s t = None) ->
        topics s' = topics s)
    /\ towrite (clients s' cp)
       = size_add (towrite (clients s cp)) MQTT_ACK_LEN.
Proof.
  intros Hb cp. unfold unsubscribe_handler. rewrite Hb. fold cp.
  eexists. split; [reflexivity|].
  rewrite !clients_set_client, wbuf_staged, fold_unsubscribe_clients.
  split; [reflexivity|]. split; [|split].
  - intros k Hk. rewrite clients_set_client_other by exact Hk.
    apply (f_equal (fun f => f k)), fold_unsubscribe_clients.
  - intros Hn. cbn [topics set_client set_clients].
    rewrite fold_unsubscribe_unknown by exact Hn. reflexivity.
  - reflexivity.
Qed.

(** X15.  The inbound QoS-2 exchange: a PUBLISH with QoS 2 and packet id
    [k] is answered with PUBREC [k], the last thing staged for the
    publisher (at some cursor [off], the cursor advanced by
    [MQTT_ACK_LEN]), and leaves [in_i_acks[k]] in use; the PUBREL [k]
    of the same client is answered with PUBCOMP [k], staged right
    behind the PUBREC (at [off + MQTT_ACK_LEN], the cursor advanced by
    [MQTT_ACK_LEN] again), and releases the slot. *)
Theorem inbound_qos2_exchange o o' e e' s r s1 p :
  body (data e) = BPublish p ->
  Header.qos (header (data e)) = EXACTLY_ONCE ->
  publish_handler o e s = Some (r, s1) ->
  ev_client e' = ev_client e ->
  ack_id e' = Some (pkt_id p) ->
  let cp := ev_client e in
  let k := pkt_id p in
  r = REPLY
  /\ in_use (in_i_acks (clients s1 cp) k) = true
  /\ exists s2 w0 off,
       wbuf (clients s1 cp)
       = w0 ++ [ {| w_off := off; w_data := Mono PUBREC k |} ]
       /\ towrite (clients s1 cp) = size_add off MQTT_ACK_LEN
       /\ pubrel_handler o' e' s1 = Some (REPLY, s2)
       /\ in_use (in_i_acks (clients s2 cp) k) = false
       /\ wbuf (clients s2 cp)
          = w0
            ++ [ {| w_off := off; w_data := Mono PUBREC k |};
                 {| w_off := size_add off MQTT_ACK_LEN;
                    w_data := Mono PUBCOMP k |} ]
       /\ towrite (clients s2 cp)
          = size_add (size_add off MQTT_ACK_LEN) MQTT_ACK_LEN.
Proof.
  intros Hb Hq Hrun Hc Hid cp k. revert Hrun.
  unfold publish_handler. rewrite Hb.
  destruct (publish_ingest o e p s) as [s5|]; [|discriminate]. cbn [bind].
  unfold publish_reply. rewrite Hq.
  cbn [Z.eqb EXACTLY_ONCE AT_MOST_ONCE Pos.eqb].
  intros [= <- <-]. fold cp k.
  split; [reflexivity|]. rewrite clients_set_client. split.
  { cbn [in_i_acks towrite_add wbuf_put set_towrite set_wbuf
         set_has_inflight set_in_i_acks].
    unfold upd. rewrite Z.eqb_refl. reflexivity. }
  unfold pubrel_handler, bind. rewrite Hid, Hc. fold cp k.
  rewrite clients_set_client.
  eexists. exists (wbuf (clients s5 cp)), (towrite (clients s5 cp)).
  split; [reflexivity|]. split; [reflexivity|].
  split; [reflexivity|]. rewrite clients_set_client. split.
  { cbn [in_i_acks towrite_add wbuf_put set_towrite set_wbuf
         set_has_inflight set_in_i_acks].
    unfold release, upd. rewrite Z.eqb_refl. reflexivity. }
  split; [|reflexivity].
  cbn [set_has_inflight set_in_i_acks wbuf]. rewrite !wbuf_staged.
  cbn [set_has_inflight set_in_i_acks wbuf].
  rewrite <- app_assoc. reflexivity.
Qed.

End Sessions.


(** ** Retained messages *)

Section Retained.

Context {X : External}.

Lemma publish_step_topics o q pkt s a s' :
  publish_step o q pkt s a = Some s' -> topics s' = topics s.
Proof.
  unfold publish_step. destruct (body (pkt_mem s pkt)); try discriminate.
  set (h := Header.set_qos _ _). set (len := mqtt_size _).
  set (s1 := set_pkt_mem _ s).
  destruct (negb (online (clients s1 _))).
  - destruct (negb (clean_session _)); intros [= <-]; reflexivity.
  - intros [= <-].
    destruct (deliver_frame pkt len (sub_client (sub_mem s a))
                (if Header.qos h >? AT_MOST_ONCE
                 then track_inflight o pkt (set_pkt_id 0 p) h len
                        (sub_mem s a) s1
                 else s1)) as (-> & _).
    destruct (Header.qos h >? AT_MOST_ONCE); [|reflexivity].
    exact (proj1 (track_inflight_frame o pkt (set_pkt_id 0 p) h len
                    (sub_mem s a) s1)).
Qed.

Lemma publish_loop_topics o q pkt l :
  forall s s', publish_loop o q pkt l s = Some s' -> topics s' = topics s.
Proof.
  induction l as [|a l IH]; intros s s'; cbn.
  - intros [= <-]. reflexivity.
  - destruct (publish_step o q pkt s a) as [s1|] eqn:Hs; [|discriminate].
    cbn. intros Hl. rewrite (IH _ _ Hl). eapply publish_step_topics, Hs.
Qed.

Lemma publish_message_topics o pkt t s s' :
  publish_message o pkt t s = Some s' -> topics s' = topics s.
Proof.
  unfold publish_message. destruct (sol_topic_get s t) as [tp|];
    [|discriminate].
  cbn [bind]. destruct (_ =? 0); [intros [= <-]; reflexivity|].
  apply publish_loop_topics.
Qed.

Lemma retained_of_get_or_create s n m :
  retained_of (sol_topic_get_or_create s n) m = retained_of s m.
Proof. apply (proj2 (same_output_get_or_create s n)). Qed.

(** The retained messages after the first part of [publish_handler]. *)
Lemma publish_ingest_retained o e p s s5 tn :
  publish_topic o p = Some tn ->
  publish_ingest o e p s = Some s5 ->
  forall n,
    retained_of s5 n
    = if (Header.retain (header (data e)) =? 1) && String.eqb n tn
      then Some {| bs_len := mqtt_size (data e);
                   bs_bytes := Packed (data e) |}
      else retained_of s n.
Proof.
  intros Ht. unfold publish_ingest. rewrite Ht. cbn [bind].
  set (s0 := set_messages_recv _ s).
  destruct (memorypool_alloc (sol_topic_get_or_create s0 tn))
    as [[pkt s2]|] eqn:Ha; [|discriminate].
  cbn [bind]. intros Hm n.
  unfold retained_of, sol_topic_get at 1.
  rewrite (publish_message_topics _ _ _ _ _ Hm).
  assert (Ht2 : topics s2 = topics (sol_topic_get_or_create s0 tn)).
  { revert Ha. unfold memorypool_alloc.
    destruct (pool _); [discriminate|]. intros [= _ <-]. reflexivity. }
  pose proof (retained_of_get_or_create s0 tn n) as Hr.
  unfold retained_of, sol_topic_get in Hr.
  destruct (Header.retain (header (data e)) =? 1); cbn [andb].
  - unfold with_topic. cbn [topics set_topics set_pkt_mem].
    rewrite find_topic_update by reflexivity. rewrite Ht2.
    destruct (String.eqb n tn) eqn:Hn.
    + apply String.eqb_eq in Hn. subst n.
      destruct (get_or_create_exists s0 tn) as [t Hget].
      unfold sol_topic_get in Hget. rewrite Hget. reflexivity.
    + exact Hr.
  - cbn [topics set_pkt_mem]. rewrite Ht2. exact Hr.
Qed.

(** X16.  A PUBLISH with the RETAIN flag replaces the retained message
    of its (normalised) topic by the packet exactly as it was received,
    with the publisher's QoS and packet id, whatever its payload is;
    without the flag, and for every other topic, the retained messages
    stay as they are. *)
Theorem publish_replaces_retained o e s p r s1 tn :
  body (data e) = BPublish p ->
  publish_topic o p = Some tn ->
  publish_handler o e s = Some (r, s1) ->
  forall n,
    retained_of s1 n
    = if (Header.retain (header (data e)) =? 1) && String.eqb n tn
      then Some {| bs_len := mqtt_size (data e);
                   bs_bytes := Packed (data e) |}
      else retained_of s n.
Proof.
  intros Hb Ht. unfold publish_handler. rewrite Hb.
  destruct (publish_ingest o e p s) as [s5|] eqn:H5; [|discriminate].
  cbn [bind]. intros [= Hr] n.
  rewrite <- (publish_ingest_retained o e p s s5 tn Ht H5 n).
  revert Hr. unfold publish_reply.
  destruct (Header.qos (header (data e)) =? AT_MOST_ONCE);
    intros [= _ <-]; reflexivity.
Qed.

(** X17.  A retained PUBLISH is replayed to later subscribers: after it,
    any SUBSCRIBE with a tuple [tp] whose filter normalises to the topic
    of the PUBLISH stages the packet as the publisher sent it, before
    its SUBACK.  What the SUBSCRIBE stages, from the cursor [towrite] it
    found, is what the tuples before [tp] replay, then the packet (at
    the cursor those left, the cursor advanced by the packet's
    [mqtt_size]), then what the tuples after [tp] replay, and then, at
    the cursor all of them left, the SUBACK, a packet of type SUBACK,
    by whose size the cursor advances last. *)
Theorem retained_publish_is_replayed
  o e s p r s1 tn o2 e2 sb l1 tp l2 b :
  body (data e) = BPublish p ->
  publish_topic o p = Some tn ->
  Header.retain (header (data e)) = 1 ->
  publish_handler o e s = Some (r, s1) ->
  body (data e2) = BSubscribe sb ->
  (forall tp', In tp' (tuples sb) -> normalise_filter tp' <> None) ->
  tuples sb = l1 ++ tp :: l2 ->
  normalise_filter tp = Some (tn, b) ->
  let cp := ev_client e2 in
  let t1 := towrite (clients s1 cp) in
  let pre := flat_map (replay_items s1) l1 in
  let post := flat_map (replay_items s1) l2 in
  let items := pre ++ (Packed (data e), mqtt_size (data e)) :: post in
  exists s2,
    subscribe_handler o2 e2 s1 = Some (REPLY, s2)
    /\ wbuf (clients s2 cp)
       = wbuf (clients s1 cp) ++ fst (stage t1 items)
         ++ [ {| w_off := snd (stage t1 items);
                 w_data := Packed (suback_packet sb) |} ]
    /\ fst (stage t1 items)
       = fst (stage t1 pre)
         ++ {| w_off := snd (stage t1 pre); w_data := Packed (data e) |}
         :: fst (stage (size_add (snd (stage t1 pre)) (mqtt_size (data e)))
                   post)
    /\ towrite (clients s2 cp)
       = size_add (snd (stage t1 items)) (mqtt_size (suback_packet sb))
    /\ Header.type (header (suback_packet sb)) = SUBACK.
Proof.
  intros Hb Ht Hret Hrun Hb2 Hdef Hsplit Hn cp t1 pre post items.
  assert (Hr : retained_of s1 tn
               = Some {| bs_len := mqtt_size (data e);
                         bs_bytes := Packed (data e) |}).
  { revert Hrun. unfold publish_handler. rewrite Hb.
    destruct (publish_ingest o e p s) as [s5|] eqn:H5; [|discriminate].
    cbn [bind]. intros [= Hrep].
    pose proof (publish_ingest_retained o e p s s5 tn Ht H5 tn) as H.
    rewrite Hret, String.eqb_refl in H. cbn [Z.eqb Pos.eqb andb] in H.
    rewrite <- H. revert Hrep. unfold publish_reply.
    destruct (Header.qos (header (data e)) =? AT_MOST_ONCE);
      intros [= _ <-]; reflexivity. }
  destruct (subscribe_loop_staged cp (tuples sb) false s1 Hdef)
    as (w' & s2 & Hl & [Hw Htw] & _).
  assert (Hitems : flat_map (replay_items s1) (tuples sb) = items).
  { rewrite Hsplit, flat_map_app. cbn [flat_map].
    unfold replay_items at 2. rewrite Hn, Hr. reflexivity. }
  rewrite Hitems in Hw, Htw. fold t1 in Hw, Htw.
  unfold subscribe_handler. rewrite Hb2. fold cp. rewrite Hl. cbn [bind].
  eexists. split; [reflexivity|]. rewrite !clients_set_client.
  split.
  { rewrite wbuf_staged, Hw, Htw, app_assoc. reflexivity. }
  split.
  { apply (stage_middle t1 pre (Packed (data e)) (mqtt_size (data e)) post). }
  split; [|reflexivity].
  cbn [towrite towrite_add wbuf_put set_towrite set_wbuf]. rewrite Htw.
  reflexivity.
Qed.

End Retained.


(** ** From SUBSCRIBE to PUBLISH *)

Section EndToEnd.

Context {X : External}.

(** A traversal keeps every relation between states that is reflexive
    and transitive and that its callback keeps. *)
Lemma prefix_map_keeps (R : sol_t -> sol_t -> Prop) prefix fn s :
  (forall s0, R s0 s0) ->
  (forall s0 s1 s2, R s0 s1 -> R s1 s2 -> R s0 s2) ->
  (forall t s0, R s0 (fn t s0)) ->
  R s (trie_prefix_map prefix fn s).
Proof.
  intros Hrefl Htrans Hfn. unfold trie_prefix_map.
  generalize (topics s) at 1. intros ts.
  assert (Hgen : forall acc, R s acc ->
            R s (fold_left
                   (fun acc0 t =>
                      if String.prefix prefix (name t) then fn (name t) acc0
                      else acc0) ts acc)).
  { induction ts as [|t ts IH]; intros acc Hacc; cbn; [exact Hacc|].
    apply IH. destruct (String.prefix prefix (name t)); [|exact Hacc].
    eapply Htrans; [exact Hacc | apply Hfn]. }
  apply Hgen, Hrefl.
Qed.

Lemma same_presence_refl s : same_presence s s.
Proof. repeat split. Qed.

Lemma same_presence_trans s1 s2 s3 :
  same_presence s1 s2 -> same_presence s2 s3 -> same_presence s1 s3.
Proof.
  intros (O1 & P1 & M1) (O2 & P2 & M2).
  split; [intros k; rewrite O2; apply O1|]. split; congruence.
Qed.

Lemma same_presence_recursive_sub a t s :
  same_presence s (recursive_sub a t s).
Proof.
  unfold recursive_sub.
  set (s1 := set_sub_heap _ _ s). set (s2 := with_topic t _ s1).
  destruct (negb (clean_session (clients s2 _))).
  - split; [|split; reflexivity].
    intros k. cbn. unfold upd.
    destruct (k =? sub_client (sub_mem s a)) eqn:Hk; [|reflexivity].
    apply Z.eqb_eq in Hk. subst k. reflexivity.
  - split; [intros k; reflexivity | split; reflexivity].
Qed.

Lemma no_new_topic_refl tn s : no_new_topic tn s s.
Proof. intros n _ H. exact H. Qed.

Lemma no_new_topic_trans tn s1 s2 s3 :
  no_new_topic tn s1 s2 -> no_new_topic tn s2 s3 -> no_new_topic tn s1 s3.
Proof. intros H1 H2 n Hn H. apply H2, H1; assumption. Qed.

Lemma no_new_topic_with_topic tn t f s :
  (forall u, name (f u) = name u) ->
  no_new_topic tn s (with_topic t f s).
Proof.
  intros Hf n _ Hn. unfold sol_topic_get, with_topic in *.
  cbn [topics set_topics]. rewrite find_topic_update by exact Hf.
  rewrite Hn. destruct (String.eqb n t); reflexivity.
Qed.

Lemma no_new_topic_recursive_sub tn a t s :
  no_new_topic tn s (recursive_sub a t s).
Proof.
  unfold recursive_sub.
  set (s1 := set_sub_heap _ _ s). set (s2 := with_topic t _ s1).
  assert (H2 : no_new_topic tn s s2).
  { unfold s2. intros n Hn H.
    apply (no_new_topic_with_topic tn t _ s1); [reflexivity | exact Hn|].
    exact H. }
  destruct (negb (clean_session (clients s2 _))); exact H2.
Qed.

Lemma no_new_topic_get_or_create tn s :
  no_new_topic tn s (sol_topic_get_or_create s tn).
Proof.
  intros n Hn H. unfold sol_topic_get_or_create, sol_topic_exists.
  destruct (sol_topic_get s tn); [exact H|].
  unfold sol_topic_get in *. cbn. rewrite find_topic_app, H. cbn.
  destruct (String.eqb_spec tn n); [|reflexivity].
  contradiction Hn. symmetry. assumption.
Qed.

(** What the turn of one tuple leaves: the client is installed in the
    normalised topic with a record of its own that carries the QoS of
    the tuple; no other topic appears; nobody goes on or off line and
    the pool is not touched. *)
Lemma subscribe_tuple_installs cp w s tp tn b :
  normalise_filter tp = Some (tn, b) ->
  exists s' a,
    subscribe_tuple cp w s tp = Some (if b then true else w, s')
    /\ installed s' tn (client_id (clients s cp)) a
    /\ sub_mem s' a
       = {| sub_client := cp; sub_qos := tp_qos tp; sub_refs := 1 |}
    /\ same_presence s s'
    /\ no_new_topic tn s s'
    /\ client_id (clients s' cp) = client_id (clients s cp).
Proof.
  intros Hn. unfold subscribe_tuple. rewrite Hn. cbn [bind].
  set (fl := if b then true else w).
  set (s1 := sol_topic_get_or_create s tn).
  set (s2 := if fl then _ else s1).
  assert (H2 : same_output s s2 /\ same_presence s s2
               /\ no_new_topic tn s s2
               /\ sol_topic_get s2 tn <> None).
  { assert (H1 : same_output s s1 /\ same_presence s s1
                 /\ no_new_topic tn s s1 /\ sol_topic_get s1 tn <> None).
    { split; [apply same_output_get_or_create|]. split.
      - destruct (get_or_create_frame s tn) as (_ & _ & Hc & _).
        unfold s1. split; [intros k; rewrite Hc; reflexivity|].
        unfold sol_topic_get_or_create.
        destruct (sol_topic_exists s tn); split; reflexivity.
      - split; [apply no_new_topic_get_or_create|].
        destruct (get_or_create_exists s tn) as [t Ht]. unfold s1.
        rewrite Ht. discriminate. }
    unfold s2. destruct fl; [|exact H1].
    destruct H1 as (Ho & Hp & Ht & He). unfold new_subscriber.
    set (s0 := set_sub_heap _ _ s1).
    split.
    { eapply same_output_trans; [exact Ho|].
      eapply same_output_trans; [apply same_output_sub_heap|].
      apply same_output_prefix_map. intros t s3.
      apply same_output_recursive_sub. }
    split.
    { eapply same_presence_trans; [exact Hp|].
      apply (prefix_map_keeps same_presence tn (recursive_sub (sub_brk s1)) s0
               same_presence_refl same_presence_trans).
      intros t s3. apply same_presence_recursive_sub. }
    split.
    { eapply no_new_topic_trans; [exact Ht|].
      apply (prefix_map_keeps (no_new_topic tn) tn
               (recursive_sub (sub_brk s1)) s0
               (no_new_topic_refl tn) (no_new_topic_trans tn)).
      intros t s3. apply no_new_topic_recursive_sub. }
    apply (prefix_map_keeps
             (fun x y => sol_topic_get x tn <> None ->
                         sol_topic_get y tn <> None)
             tn (recursive_sub (sub_brk s1)) s0); auto.
    intros t s3. apply (sub_frame_recursive_sub (sub_brk s1) t s3). }
  destruct H2 as (Ho2 & Hp2 & Ht2 & He2).
  unfold topic_add_subscriber, new_subscriber. cbv beta iota zeta.
  set (a := sub_brk s2).
  set (rec := {| sub_client := cp; sub_qos := tp_qos tp; sub_refs := 1 |}).
  set (s2' := set_sub_heap (updn (sub_mem s2) a rec) (S a) s2).
  set (s3 := with_topic tn _ s2').
  set (s4 := set_client cp _ s3).
  destruct (replay_retained_frame tn cp s4) as [Ht4 Hm4].
  assert (Hcid : client_id (clients s2 cp) = client_id (clients s cp)).
  { destruct Ho2 as [Hc _]. apply (Hc cp). }
  eexists. exists a. split; [reflexivity|]. split.
  { unfold installed, sol_topic_get. rewrite Ht4.
    unfold s4, s3, with_topic. cbn [topics set_client set_clients set_topics].
    rewrite find_topic_update by reflexivity. rewrite String.eqb_refl.
    unfold sol_topic_get in He2.
    change (topics s2') with (topics s2).
    destruct (find_topic (topics s2) tn) as [u|]; [|contradiction].
    eexists. split; [reflexivity|]. cbn [subscribers set_subscribers].
    change (clients s2') with (clients s2). rewrite Hcid.
    apply hashtable_get_put_same. }
  split.
  { rewrite Hm4. unfold s4, s3, s2'. cbn. apply updn_same. }
  assert (Hrep : forall k,
            online (clients (replay_retained tn cp s4) k)
              = online (clients s4 k)
            /\ client_id (clients (replay_retained tn cp s4) k)
               = client_id (clients s4 k)).
  { intros k. unfold replay_retained.
    destruct (sol_topic_get s4 tn) as [[nm subs [rm|]]|];
      try (split; reflexivity).
    destruct (Z.eq_dec k cp) as [->|Hk].
    - rewrite clients_set_client. split; reflexivity.
    - rewrite clients_set_client_other by exact Hk. split; reflexivity. }
  assert (Hs4 : forall k,
            online (clients s4 k) = online (clients s2 k)
            /\ client_id (clients s4 k) = client_id (clients s2 k)).
  { intros k. unfold s4. destruct (Z.eq_dec k cp) as [->|Hk].
    - rewrite clients_set_client. split; reflexivity.
    - rewrite clients_set_client_other by exact Hk. split; reflexivity. }
  split.
  { destruct Hp2 as (Hon & Hpl & Hpm). split.
    - intros k. rewrite (proj1 (Hrep k)), (proj1 (Hs4 k)). apply Hon.
    - unfold replay_retained.
      destruct (sol_topic_get s4 tn) as [[nm subs [rm|]]|];
        split; assumption. }
  split.
  { intros n Hne Hnone. unfold sol_topic_get. rewrite Ht4.
    unfold s4, s3, with_topic. cbn [topics set_client set_clients set_topics].
    rewrite find_topic_update by reflexivity.
    change (topics s2') with (topics s2).
    pose proof (Ht2 n Hne Hnone) as H. unfold sol_topic_get in H.
    rewrite H. destruct (String.eqb n tn); reflexivity. }
  rewrite (proj2 (Hrep cp)), (proj2 (Hs4 cp)). exact Hcid.
Qed.


(** A turn changes nothing of the pooled packet but its header and its
    packet id. *)
Lemma publish_step_keeps_payload o q pkt s a pb :
  body (pkt_mem s pkt) = BPublish pb ->
  exists s' mid,
    publish_step o q pkt s a = Some s'
    /\ body (pkt_mem s' pkt) = BPublish (set_pkt_id mid pb).
Proof.
  intros Hb. unfold publish_step. rewrite Hb.
  set (h := Header.set_qos _ _). set (len := mqtt_size _).
  set (s1 := set_pkt_mem _ s).
  destruct (negb (online (clients s1 _))).
  - destruct (negb (clean_session _)); eexists; exists 0;
      (split; [reflexivity|]); cbn; rewrite updn_same; reflexivity.
  - destruct (Header.qos h >? AT_MOST_ONCE).
    + destruct (track_inflight_pkt o pkt (set_pkt_id 0 pb) h len
                  (sub_mem s a) s1) as [mid Hm].
      eexists. exists mid. split; [reflexivity|].
      rewrite deliver_pkt_mem, Hm. reflexivity.
    + eexists. exists 0. split; [reflexivity|].
      rewrite deliver_pkt_mem. cbn. rewrite updn_same. reflexivity.
Qed.

Lemma publish_loop_keeps_payload o q pkt l :
  forall s s' pb,
    body (pkt_mem s pkt) = BPublish pb ->
    publish_loop o q pkt l s = Some s' ->
    exists mid, body (pkt_mem s' pkt) = BPublish (set_pkt_id mid pb).
Proof.
  induction l as [|a l IH]; intros s s' pb Hb; cbn.
  - intros [= <-]. exists (pkt_id pb). rewrite Hb. destruct pb; reflexivity.
  - destruct (publish_step_keeps_payload o q pkt s a pb Hb)
      as (s1 & mid & Hs & Hb1).
    rewrite Hs. cbn. intros Hl.
    destruct (IH s1 s' _ Hb1 Hl) as [mid' Hb']. exists mid'. exact Hb'.
Qed.

(** With an allocator that keeps the session, a turn only appends to
    the staged output of the sessions and keeps who is online. *)
Lemma publish_step_appends o q pkt s a s' :
  allocator_keeps_session ->
  publish_step o q pkt s a = Some s' ->
  forall k,
    online (clients s' k) = online (clients s k)
    /\ exists ws, wbuf (clients s' k) = wbuf (clients s k) ++ ws.
Proof.
  intros Hal. unfold publish_step.
  destruct (body (pkt_mem s pkt)) as [| |pb| | | | |]; try discriminate.
  set (sc := sub_client (sub_mem s a)).
  set (h := Header.set_qos _ _). set (len := mqtt_size _).
  set (s1 := set_pkt_mem _ s). change (clients s1) with (clients s).
  destruct (negb (online (clients s sc))).
  - destruct (negb (clean_session (clients s sc))); intros [= <-] k.
    + destruct (Z.eq_dec k sc) as [->|Hk].
      * rewrite clients_set_client. split; [reflexivity|].
        exists []. rewrite app_nil_r. reflexivity.
      * rewrite clients_set_client_other by exact Hk.
        split; [reflexivity|]. exists []. rewrite app_nil_r. reflexivity.
    + split; [reflexivity|]. exists []. rewrite app_nil_r. reflexivity.
  - intros [= <-] k.
    set (s2 := if Header.qos h >? AT_MOST_ONCE
               then track_inflight o pkt (set_pkt_id 0 pb) h len
                      (sub_mem s a) s1
               else s1).
    assert (H2 : online (clients s2 k) = online (clients s k)
                 /\ wbuf (clients s2 k) = wbuf (clients s k)).
    { unfold s2. destruct (Header.qos h >? AT_MOST_ONCE);
        [|split; reflexivity].
      destruct (track_inflight_frame o pkt (set_pkt_id 0 pb) h len
                  (sub_mem s a) s1) as (_ & _ & _ & _ & _ & Hk).
      pose proof (track_inflight_session o pkt (set_pkt_id 0 pb) h len
                    (sub_mem s a) s1) as Hs.
      cbn zeta in Hs.
      destruct Hs as (_ & _ & _ & _ & _ & _ & Hw & _ & Ho & _).
      fold sc in Hk, Hw, Ho. change (clients s1) with (clients s) in *.
      destruct (Z.eq_dec k sc) as [->|Hne].
      - rewrite Ho, Hw. destruct (Hal (clients s sc))
          as (_ & Ho' & _ & _ & _ & _ & Hw' & _).
        split; assumption.
      - rewrite Hk by exact Hne. split; reflexivity. }
    destruct H2 as [Ho Hw].
    destruct (deliver_frame pkt len sc s2)
      as (_ & _ & _ & _ & _ & _ & Hk' & Ho' & _).
    destruct (Z.eq_dec k sc) as [->|Hne].
    + rewrite Ho', Ho, deliver_wbuf, Hw. split; [reflexivity|].
      eexists. reflexivity.
    + rewrite Hk' by exact Hne. rewrite Ho, Hw. split; [reflexivity|].
      exists []. rewrite app_nil_r. reflexivity.
Qed.

Lemma publish_loop_appends o q pkt l :
  allocator_keeps_session ->
  forall s s',
    publish_loop o q pkt l s = Some s' ->
    forall k,
      online (clients s' k) = online (clients s k)
      /\ exists ws, wbuf (clients s' k) = wbuf (clients s k) ++ ws.
Proof.
  intros Hal. induction l as [|a l IH]; intros s s'; cbn.
  - intros [= <-] k. split; [reflexivity|]. exists [].
    rewrite app_nil_r. reflexivity.
  - destruct (publish_step o q pkt s a) as [s1|] eqn:Hs; [|discriminate].
    cbn. intros Hl k.
    destruct (publish_step_appends o q pkt s a s1 Hal Hs k) as [Ho [ws Hw]].
    destruct (IH s1 s' Hl k) as [Ho' [ws' Hw']].
    split; [congruence|]. exists (ws ++ ws').
    rewrite Hw', Hw, app_assoc. reflexivity.
Qed.


Lemma hashtable_get_split {A : Type} (h : list (string * A)) k a :
  hashtable_get h k = Some a -> exists l1 l2, map snd h = l1 ++ a :: l2.
Proof.
  induction h as [|[k' v] r IH]; cbn; [discriminate|].
  destruct (String.eqb k' k).
  - intros [= ->]. exists [], (map snd r). reflexivity.
  - intros H. destruct (IH H) as (l1 & l2 & E).
    exists (v :: l1), l2. rewrite E. reflexivity.
Qed.

Lemma subscribe_loop_presence cp tps :
  forall w s,
    (forall tp, In tp tps -> normalise_filter tp <> None) ->
    exists w' s',
      subscribe_loop cp w s tps = Some (w', s')
      /\ same_presence s s'
      /\ client_id (clients s' cp) = client_id (clients s cp).
Proof.
  induction tps as [|tp rest IH]; intros w s Hn; cbn [subscribe_loop].
  - exists w, s. split; [reflexivity|].
    split; [apply same_presence_refl | reflexivity].
  - destruct (normalise_filter tp) as [[tn b]|] eqn:En.
    2:{ exfalso. apply (Hn tp); [left; reflexivity | exact En]. }
    destruct (subscribe_tuple_installs cp w s tp tn b En)
      as (s1 & a & Hs & _ & _ & Hp & _ & Hc).
    rewrite Hs. cbn [bind].
    destruct (IH (if b then true else w) s1) as (w' & s' & Hl & Hp' & Hc').
    { intros tp' Hin. apply Hn. right. exact Hin. }
    exists w', s'. split; [exact Hl|].
    split; [eapply same_presence_trans; eassumption | congruence].
Qed.

(** The first part of [publish_handler] for a topic that exists: the
    state in which the fan-out starts. *)
Lemma publish_ingest_unfold o e p s tn u :
  publish_topic o p = Some tn ->
  sol_topic_get s tn = Some u ->
  pool s <> [] ->
  exists pkt s4 u',
    publish_ingest o e p s = publish_message o pkt tn s4
    /\ sol_topic_get s4 tn = Some u'
    /\ subscribers u' = subscribers u
    /\ pkt_mem s4 pkt = {| header := header (data e); body := BPublish p |}
    /\ clients s4 = clients s
    /\ sub_mem s4 = sub_mem s.
Proof.
  intros Ht Hu Hpool. unfold publish_ingest. rewrite Ht. cbn [bind].
  set (s0 := set_messages_recv _ s).
  assert (H0 : sol_topic_get_or_create s0 tn = s0).
  { unfold sol_topic_get_or_create, sol_topic_exists.
    change (sol_topic_get s0 tn) with (sol_topic_get s tn).
    rewrite Hu. reflexivity. }
  rewrite H0. unfold memorypool_alloc.
  change (pool s0) with (pool s).
  destruct (pool s) as [|pkt r]; [congruence|]. cbn [bind].
  set (s3 := set_pkt_mem _ _).
  exists pkt.
  destruct (Header.retain (header (data e)) =? 1).
  - eexists. eexists. split; [reflexivity|].
    split; [|split; [|split; [|split]]].
    + unfold sol_topic_get, with_topic. cbn [topics set_topics].
      rewrite find_topic_update by reflexivity.
      rewrite String.eqb_refl.
      change (topics s3) with (topics s).
      unfold sol_topic_get in Hu. rewrite Hu. reflexivity.
    + reflexivity.
    + cbn. apply updn_same.
    + reflexivity.
    + reflexivity.
  - exists s3, u. split; [reflexivity|].
    split; [exact Hu|]. split; [reflexivity|].
    split; [cbn; apply updn_same|]. split; reflexivity.
Qed.

Lemma deliver_client pkt len sc s :
  clients (deliver pkt len sc s) sc
  = towrite_add len (wbuf_put (Packed (pkt_mem s pkt)) (clients s sc)).
Proof. unfold deliver. cbn. unfold upd. rewrite Z.eqb_refl. reflexivity. Qed.

(** With an allocator that keeps the session, a turn of the fan-out
    stages for the session of the subscriber, when it is online, the
    pooled packet as the turn leaves it, and nothing for any other
    session; offline, it stages nothing at all. *)
Lemma publish_step_staged o q pkt s a s' :
  allocator_keeps_session ->
  publish_step o q pkt s a = Some s' ->
  forall k, exists items, staged (clients s k) (clients s' k) items.
Proof.
  intros Hal. unfold publish_step.
  destruct (body (pkt_mem s pkt)) as [| |pb| | | | |]; try discriminate.
  set (sc := sub_client (sub_mem s a)).
  set (h := Header.set_qos _ _). set (len := mqtt_size _).
  set (s1 := set_pkt_mem _ s). change (clients s1) with (clients s).
  destruct (negb (online (clients s sc))).
  - destruct (negb (clean_session (clients s sc))); intros [= <-] k;
      exists []; [|apply staged_refl].
    destruct (Z.eq_dec k sc) as [->|Hk].
    + rewrite clients_set_client. apply staged_same; reflexivity.
    + rewrite clients_set_client_other by exact Hk. apply staged_refl.
  - intros [= <-] k.
    set (s2 := if Header.qos h >? AT_MOST_ONCE
               then track_inflight o pkt (set_pkt_id 0 pb) h len
                      (sub_mem s a) s1
               else s1).
    assert (H2 : staged (clients s k) (clients s2 k) []).
    { unfold s2. destruct (Header.qos h >? AT_MOST_ONCE);
        [|apply staged_refl].
      destruct (track_inflight_frame o pkt (set_pkt_id 0 pb) h len
                  (sub_mem s a) s1) as (_ & _ & _ & _ & _ & Hk).
      pose proof (track_inflight_session o pkt (set_pkt_id 0 pb) h len
                    (sub_mem s a) s1) as Hs.
      cbn zeta in Hs.
      destruct Hs as (_ & _ & _ & _ & _ & _ & Hw & Ht & _).
      fold sc in Hk, Hw, Ht. change (clients s1) with (clients s) in *.
      destruct (Z.eq_dec k sc) as [->|Hne].
      - destruct (Hal (clients s sc))
          as (_ & _ & _ & _ & _ & _ & Hw' & Ht').
        apply staged_same; congruence.
      - rewrite Hk by exact Hne. apply staged_refl. }
    destruct (deliver_frame pkt len sc s2)
      as (_ & _ & _ & _ & _ & _ & Hk' & _).
    destruct (Z.eq_dec k sc) as [->|Hne].
    + exists ([] ++ [(Packed (pkt_mem s2 pkt), len)]).
      apply (staged_trans _ (clients s2 sc)); [exact H2|].
      rewrite deliver_client. apply staged_put.
    + exists []. rewrite Hk' by exact Hne. exact H2.
Qed.

Lemma publish_loop_staged o q pkt l :
  allocator_keeps_session ->
  forall s s',
    publish_loop o q pkt l s = Some s' ->
    forall k, exists items, staged (clients s k) (clients s' k) items.
Proof.
  intros Hal. induction l as [|a l IH]; intros s s'; cbn.
  - intros [= <-] k. exists []. apply staged_refl.
  - destruct (publish_step o q pkt s a) as [s1|] eqn:Hs; [|discriminate].
    cbn. intros Hl k.
    destruct (publish_step_staged o q pkt s a s1 Hal Hs k) as [i1 H1].
    destruct (IH s1 s' Hl k) as [i2 H2].
    exists (i1 ++ i2). exact (staged_trans _ _ _ _ _ H1 H2).
Qed.

(** The turn of an online subscriber stages the pooled packet as the
    turn leaves it; the cursor advances by the size the packet had
    before the turn gave it its packet id. *)
Lemma publish_step_stages_packet o q pkt s a pb :
  allocator_keeps_session ->
  body (pkt_mem s pkt) = BPublish pb ->
  online (clients s (sub_client (sub_mem s a))) = true ->
  exists s' mid,
    publish_step o q pkt s a = Some s'
    /\ pkt_mem s' pkt
       = {| header :=
              Header.set_qos (header (pkt_mem s pkt))
                (effective_qos q (sub_mem s a));
            body := BPublish (set_pkt_id mid pb) |}
    /\ staged (clients s (sub_client (sub_mem s a)))
         (clients s' (sub_client (sub_mem s a)))
         [(Packed (pkt_mem s' pkt),
           mqtt_size {| header := header (pkt_mem s' pkt);
                        body := BPublish pb |})].
Proof.
  intros Hal Hb Hon. unfold publish_step. rewrite Hb.
  fold (effective_qos q (sub_mem s a)).
  set (sc := sub_client (sub_mem s a)) in *.
  set (h := Header.set_qos _ _). set (s1 := set_pkt_mem _ s).
  change (clients s1) with (clients s). rewrite Hon. cbn [negb].
  set (len := mqtt_size _).
  destruct (Header.qos h >? AT_MOST_ONCE).
  - destruct (track_inflight_pkt o pkt (set_pkt_id 0 pb) h len
                (sub_mem s a) s1) as [mid Hm].
    pose proof (track_inflight_session o pkt (set_pkt_id 0 pb) h len
                  (sub_mem s a) s1) as Hs.
    cbn zeta in Hs. destruct Hs as (_ & _ & _ & _ & _ & _ & Hw & Ht & _).
    fold sc in Hw, Ht. change (clients s1) with (clients s) in Hw, Ht.
    destruct (Hal (clients s sc)) as (_ & _ & _ & _ & _ & _ & Hw' & Ht').
    eexists. exists mid. split; [reflexivity|].
    rewrite deliver_pkt_mem. split; [exact Hm|].
    rewrite deliver_client, Hm. cbn [header].
    rewrite <- (app_nil_l [_]).
    apply (staged_trans _ (clients (track_inflight o pkt (set_pkt_id 0 pb)
                                      h len (sub_mem s a) s1) sc)).
    + apply staged_same; congruence.
    + rewrite <- Hm. apply staged_put.
  - eexists. exists 0. split; [reflexivity|].
    rewrite deliver_pkt_mem. split; [cbn; apply updn_same|].
    rewrite deliver_client.
    assert (Hp : pkt_mem s1 pkt
                 = {| header := h; body := BPublish (set_pkt_id 0 pb) |})
      by (cbn; apply updn_same).
    rewrite Hp. cbn [header]. rewrite <- Hp. apply staged_put.
Qed.

Lemma publish_reply_staged o cp q id len s k :
  exists items,
    staged (clients s k) (clients (snd (publish_reply o cp q id len s)) k)
      items.
Proof.
  unfold publish_reply. destruct (q =? AT_MOST_ONCE).
  - exists []. apply staged_refl.
  - cbn [snd]. destruct (Z.eq_dec k cp) as [->|Hk].
    + rewrite clients_set_client.
      destruct (q =? EXACTLY_ONCE);
        [exists [(Mono PUBREC id, MQTT_ACK_LEN)]
        |exists [(Mono PUBACK id, MQTT_ACK_LEN)]];
        split; reflexivity.
    + rewrite clients_set_client_other by exact Hk.
      exists []. apply staged_refl.
Qed.

(** X18.  SUBSCRIBE then PUBLISH.  A client that is online subscribes;
    the last tuple of its SUBSCRIBE normalises to the topic [tn].  A
    PUBLISH on [tn] handled next stages for that client, after
    everything the SUBSCRIBE staged, one packet that carries the
    publisher's payload (only the packet id is the broker's own) with
    the QoS min(QoS of the PUBLISH, QoS of the tuple).  What the PUBLISH
    stages for the client starts at the cursor [towrite] the SUBSCRIBE
    left and is laid out item behind item: some items [before], the
    packet at the cursor they left, the cursor advanced by the size of
    the packet, some items [behind]; the cursor of the client ends
    behind the last of them. *)
Theorem subscriber_receives_later_publish
  o1 o2 e1 e2 s sb pre tp tn b p :
  allocator_keeps_session ->
  body (data e1) = BSubscribe sb ->
  tuples sb = pre ++ [tp] ->
  (forall t, In t pre -> normalise_filter t <> None) ->
  normalise_filter tp = Some (tn, b) ->
  0 <= tp_qos tp ->
  online (clients s (ev_client e1)) = true ->
  pool s <> [] ->
  body (data e2) = BPublish p ->
  publish_topic o2 p = Some tn ->
  exists s1 r s2 ws off pk mid,
    subscribe_handler o1 e1 s = Some (REPLY, s1)
    /\ publish_handler o2 e2 s1 = Some (r, s2)
    /\ wbuf (clients s2 (ev_client e1))
       = wbuf (clients s1 (ev_client e1)) ++ ws
    /\ In {| w_off := off; w_data := Packed pk |} ws
    /\ Header.qos (header pk)
       = Z.min (Header.qos (header (data e2))) (tp_qos tp)
    /\ body pk = BPublish (set_pkt_id mid p)
    /\ exists before mid0 behind,
         let t1 := towrite (clients s1 (ev_client e1)) in
         let len :=
           mqtt_size {| header := header pk;
                        body := BPublish (set_pkt_id mid0 p) |} in
         ws = fst (stage t1 (before ++ (Packed pk, len) :: behind))
         /\ off = snd (stage t1 before)
         /\ towrite (clients s2 (ev_client e1))
            = snd (stage t1 (before ++ (Packed pk, len) :: behind)).
Proof.
  intros Hal Hb1 Htu Hpre Hn Hq Hon Hpool Hb2 Ht.
  destruct (subscribe_loop_presence (ev_client e1) pre false s Hpre)
    as (w & sA & HlA & HpA & HcA).
  destruct (subscribe_tuple_installs (ev_client e1) w sA tp tn b Hn)
    as (sB & a & HsB & Hinst & Hsub & HpB & _ & HcB).
  assert (Hloop : subscribe_loop (ev_client e1) false s (tuples sb)
                  = Some (if b then true else w, sB)).
  { rewrite Htu, subscribe_loop_app, HlA. cbn [bind fst snd subscribe_loop].
    rewrite HsB. reflexivity. }
  destruct (same_presence_trans _ _ _ HpA HpB) as (Ho & Hpl & _).
  destruct Hinst as (u & Hu & Hget). rewrite HcA in Hget.
  unfold subscribe_handler. rewrite Hb1, Hloop. cbn [bind].
  set (s1 := set_client (ev_client e1) _ sB).
  assert (Hon1 : online (clients s1 (ev_client e1)) = true).
  { unfold s1. rewrite clients_set_client. cbn. rewrite Ho. exact Hon. }
  assert (Hu1 : sol_topic_get s1 tn = Some u) by exact Hu.
  assert (Hpool1 : pool s1 <> []).
  { change (pool s1) with (pool sB). rewrite Hpl. exact Hpool. }
  destruct (publish_ingest_unfold o2 e2 p s1 tn u Ht Hu1 Hpool1)
    as (pkt & s4 & u' & Hing & Hu' & Hsubs & Hpk & Hcl & Hsm).
  destruct (hashtable_get_split _ _ _ Hget) as (l1 & l2 & Hl).
  rewrite <- Hsubs in Hl.
  rewrite (publish_message_unfold o2 pkt tn s4 u' a l1 l2 Hu' Hl) in Hing.
  rewrite Hpk in Hing. cbn [header] in Hing.
  set (q := Header.qos (header (data e2))) in *.
  assert (Hb4 : body (pkt_mem s4 pkt) = BPublish p)
    by (rewrite Hpk; reflexivity).
  destruct (publish_loop_defined o2 q pkt l1 s4 p Hb4) as [s5 H5].
  destruct (publish_loop_publish o2 q pkt l1 s4 s5 p Hb4 H5) as [Hm5 _].
  destruct (publish_loop_keeps_payload o2 q pkt l1 s4 s5 p Hb4 H5)
    as [mid Hb5].
  destruct (publish_loop_appends o2 q pkt l1 Hal s4 s5 H5 (ev_client e1))
    as [Ho5 _].
  destruct (publish_loop_staged o2 q pkt l1 Hal s4 s5 H5 (ev_client e1))
    as [i5 Hst5].
  assert (Hsub5 : sub_mem s5 a
                  = {| sub_client := ev_client e1; sub_qos := tp_qos tp;
                       sub_refs := 1 |}).
  { rewrite Hm5, Hsm. exact Hsub. }
  destruct (publish_step_stages_packet o2 q pkt s5 a _ Hal Hb5)
    as (s7 & mid' & Hstep & Hp7 & Hst7).
  { rewrite Hsub5. cbn [sub_client]. rewrite Ho5, Hcl. exact Hon1. }
  rewrite Hsub5 in Hst7, Hp7. cbn [sub_client] in Hst7.
  assert (Hb7 : body (pkt_mem s7 pkt)
                = BPublish (set_pkt_id mid' (set_pkt_id mid p)))
    by (rewrite Hp7; reflexivity).
  destruct (publish_loop_defined o2 q pkt l2 s7 _ Hb7) as [s8 H8].
  destruct (publish_loop_staged o2 q pkt l2 Hal s7 s8 H8 (ev_client e1))
    as [i8 Hst8].
  rewrite H5 in Hing. cbn [bind] in Hing. rewrite Hstep in Hing.
  cbn [bind] in Hing. rewrite H8 in Hing.
  destruct (publish_reply_staged o2 (ev_client e2) q (pkt_id p)
              (mqtt_size (data e2)) s8 (ev_client e1)) as [ir Hstr].
  destruct (publish_reply o2 (ev_client e2) q (pkt_id p)
              (mqtt_size (data e2)) s8) as [r s2] eqn:Er.
  cbn [snd] in Hstr.
  assert (Hph : publish_handler o2 e2 s1 = Some (r, s2)).
  { unfold publish_handler. rewrite Hb2, Hing. cbn [bind]. fold q.
    rewrite Er. reflexivity. }
  set (pk := pkt_mem s7 pkt) in *.
  set (len := mqtt_size {| header := header pk;
                           body := BPublish (set_pkt_id mid p) |}) in *.
  set (t1 := towrite (clients s1 (ev_client e1))).
  assert (Hall : staged (clients s1 (ev_client e1)) (clients s2 (ev_client e1))
                   (i5 ++ (Packed pk, len) :: (i8 ++ ir))).
  { rewrite Hcl in Hst5.
    pose proof (staged_trans _ _ _ _ _
                  (staged_trans _ _ _ _ _
                     (staged_trans _ _ _ _ _ Hst5 Hst7) Hst8) Hstr) as H.
    rewrite <- !app_assoc in H. exact H. }
  destruct Hall as [Hw Htw]. fold t1 in Hw, Htw.
  destruct (stage_middle t1 i5 (Packed pk) len (i8 ++ ir)) as [Hmid _].
  exists s1, r, s2,
    (fst (stage t1 (i5 ++ (Packed pk, len) :: (i8 ++ ir)))),
    (snd (stage t1 i5)), pk, mid'.
  split; [reflexivity|]. split; [exact Hph|]. split; [exact Hw|].
  split.
  { rewrite Hmid. apply in_or_app. right. left. reflexivity. }
  split.
  { rewrite Hp7. cbn [header].
    rewrite qos_set_qos, effective_qos_min. cbn [sub_qos].
    apply land_3_small. pose proof (qos_range (header (data e2))) as Hr.
    fold q in Hr. lia. }
  split; [rewrite Hp7; reflexivity|].
  exists i5, mid, (i8 ++ ir). cbn zeta. fold t1 len.
  split; [reflexivity|]. split; [reflexivity | exact Htw].
Qed.

(** X19.  UNSUBSCRIBE looks the topic up under the filter as it was
    sent, SUBSCRIBE stored the subscription under the normalised name.
    When the two differ (a filter that does not end in '/', or one that
    ends in "/#") and no topic is stored under the filter as sent, the
    UNSUBSCRIBE of the very filter the client subscribed with answers
    UNSUBACK and removes nothing: the client's subscriber record is
    still installed in the topic. *)
Theorem unsubscribe_misses_normalised_topic o1 o2 e1 e2 s sb tp tn b u :
  body (data e1) = BSubscribe sb ->
  tuples sb = [tp] ->
  normalise_filter tp = Some (tn, b) ->
  tn <> tp_topic tp ->
  sol_topic_get s (tp_topic tp) = None ->
  body (data e2) = BUnsubscribe u ->
  unsub_tuples u = [tp_topic tp] ->
  ev_client e2 = ev_client e1 ->
  exists s1 s2 a,
    subscribe_handler o1 e1 s = Some (REPLY, s1)
    /\ unsubscribe_handler o2 e2 s1 = Some (REPLY, s2)
    /\ topics s2 = topics s1
    /\ installed s2 tn (client_id (clients s (ev_client e1))) a
    /\ sub_client (sub_mem s2 a) = ev_client e1.
Proof.
  intros Hb1 Htu Hn Hne Hraw Hb2 Hut He.
  destruct (subscribe_tuple_installs (ev_client e1) false s tp tn b Hn)
    as (sB & a & HsB & Hinst & Hsub & _ & Hnew & _).
  assert (Hs1 : exists c1,
             subscribe_handler o1 e1 s
             = Some (REPLY, set_client (ev_client e1) c1 sB)).
  { unfold subscribe_handler. rewrite Hb1, Htu.
    cbn [subscribe_loop]. rewrite HsB. cbn [bind]. eexists. reflexivity. }
  destruct Hs1 as [c1 Hs1].
  set (s1 := set_client (ev_client e1) c1 sB) in *.
  assert (Hraw1 : sol_topic_get s1 (tp_topic tp) = None).
  { change (sol_topic_get s1 (tp_topic tp))
      with (sol_topic_get sB (tp_topic tp)).
    apply Hnew; [|exact Hraw]. intros E. apply Hne. symmetry. exact E. }
  assert (Hs2 : exists c2,
             unsubscribe_handler o2 e2 s1
             = Some (REPLY, set_client (ev_client e1) c2 s1)).
  { unfold unsubscribe_handler. rewrite Hb2, Hut, He.
    cbn [fold_left]. rewrite Hraw1. eexists. reflexivity. }
  destruct Hs2 as [c2 Hs2].
  exists s1, (set_client (ev_client e1) c2 s1), a.
  split; [exact Hs1|]. split; [exact Hs2|]. split; [reflexivity|].
  split; [exact Hinst|]. cbn [sub_mem set_client set_clients].
  change (sub_mem s1) with (sub_mem sB). rewrite Hsub. reflexivity.
Qed.

End EndToEnd.

(** ** The answer of a handler *)

Section Answers.

Context {X : External}.














End Answers.



(** ** [util.c] *)

Section Numbers.

Lemma number_len_loop_spec fuel :
  forall len n,
    0 <= n < 10 ^ Z.of_nat fuel ->
    let r := number_len_loop fuel len n in
    (n = 0 /\ r = len)
    \/ (0 < n /\ len < r /\ 10 ^ (r - len - 1) <= n < 10 ^ (r - len)).
Proof.
  induction fuel as [|f IH]; intros len n Hn; cbn zeta.
  - cbn in Hn. left. split; [lia | reflexivity].
  - cbn [number_len_loop]. destruct (Z.eqb_spec n 0) as [->|Hz].
    + left. split; reflexivity.
    + right. split; [lia|].
      assert (Hp : 10 ^ Z.of_nat (S f) = 10 * 10 ^ Z.of_nat f).
      { rewrite Nat2Z.inj_succ, Z.pow_succ_r by lia. reflexivity. }
      assert (Hd : 0 <= n / 10 < 10 ^ Z.of_nat f).
      { split; [apply Z.div_pos; lia|].
        apply Z.div_lt_upper_bound; lia. }
      specialize (IH (len + 1) (n / 10) Hd). cbn zeta in IH.
      set (r := number_len_loop f (len + 1) (n / 10)) in *.
      pose proof (Z.div_mod n 10 ltac:(lia)) as Hdm.
      pose proof (Z.mod_pos_bound n 10 ltac:(lia)) as Hmb.
      destruct IH as [[Hq Hr] | (Hq & Hlt & Hlo & Hhi)].
      * rewrite Hr. split; [lia|].
        replace (len + 1 - len - 1) with 0 by lia.
        replace (len + 1 - len) with 1 by lia.
        cbn. lia.
      * split; [lia|].
        replace (r - len - 1) with (Z.succ (r - (len + 1) - 1)) by lia.
        replace (r - len) with (Z.succ (r - (len + 1))) by lia.
        rewrite !Z.pow_succ_r by lia. lia.
Qed.

Lemma size_t_below_10_20 : 2 ^ 64 < 10 ^ Z.of_nat 20.
Proof. vm_compute. reflexivity. Qed.

Lemma number_len_bounds n :
  0 < n < 2 ^ 64 ->
  1 < number_len n
  /\ 10 ^ (number_len n - 2) <= n < 10 ^ (number_len n - 1).
Proof.
  intros Hn. unfold number_len. rewrite Z.mod_small by lia.
  pose proof size_t_below_10_20 as H20.
  destruct (number_len_loop_spec 20 1 n ltac:(lia))
    as [[Hz _] | (_ & Hlt & Hb)]; [lia|].
  split; [exact Hlt|].
  replace (number_len_loop 20 1 n - 2)
    with (number_len_loop 20 1 n - 1 - 1) by lia.
  exact Hb.
Qed.

Lemma uint_val_bounds d :
  forall acc,
    0 <= acc ->
    acc * 10 ^ Z.of_nat (Decimal.nb_digits d) <= uint_val acc d
    /\ uint_val acc d < (acc + 1) * 10 ^ Z.of_nat (Decimal.nb_digits d).
Proof.
  induction d as [|r IH|r IH|r IH|r IH|r IH|r IH|r IH|r IH|r IH|r IH];
    intros acc Ha;
    try (cbn [uint_val Decimal.nb_digits];
         rewrite Nat2Z.inj_succ, Z.pow_succ_r by lia;
         match goal with
         | |- context [uint_val ?a r] =>
             destruct (IH a ltac:(lia)) as [Hlo Hhi]
         end;
         assert (0 < 10 ^ Z.of_nat (Decimal.nb_digits r))
           by (apply Z.pow_pos_nonneg; lia);
         nia).
  cbn. lia.
Qed.

Lemma uint_val_acc d :
  forall acc,
    uint_val (Z.pos acc) d = Z.pos (Pos.of_uint_acc d acc).
Proof.
  induction d as [|r IH|r IH|r IH|r IH|r IH|r IH|r IH|r IH|r IH|r IH];
    intros acc; cbn [uint_val Pos.of_uint_acc]; [reflexivity|..];
    rewrite <- IH; f_equal; lia.
Qed.

Lemma uint_val_of_uint d : uint_val 0 d = Z.of_N (Pos.of_uint d).
Proof.
  induction d as [|r IH|r IH|r IH|r IH|r IH|r IH|r IH|r IH|r IH|r IH];
    cbn [uint_val Pos.of_uint]; [reflexivity | exact IH |..];
    cbn [Z.of_N]; rewrite <- uint_val_acc; reflexivity.
Qed.

Lemma uint_val_to_uint n : uint_val 0 (N.to_uint n) = Z.of_N n.
Proof.
  rewrite uint_val_of_uint.
  change (Pos.of_uint (N.to_uint n)) with (N.of_uint (N.to_uint n)).
  rewrite DecimalN.Unsigned.of_to. reflexivity.
Qed.

Lemma length_string_of_uint d :
  String.length (NilEmpty.string_of_uint d) = Decimal.nb_digits d.
Proof.
  induction d; cbn; congruence.
Qed.

Lemma c_str_string_of_uint d :
  c_str (NilEmpty.string_of_uint d) = NilEmpty.string_of_uint d.
Proof.
  induction d; cbn [NilEmpty.string_of_uint c_str]; try reflexivity;
    match goal with
    | |- (if is_nul ?c then _ else _) = _ =>
        change (is_nul c) with false; cbv iota; rewrite IHd; reflexivity
    end.
Qed.

(** The digits of a positive number: no leading zero, so their count
    fixes the size of the number. *)
Lemma to_uint_digits p :
  let k := Z.of_nat (Decimal.nb_digits (Pos.to_uint p)) in
  0 < k /\ 10 ^ (k - 1) <= Z.pos p < 10 ^ k.
Proof.
  cbn zeta.
  pose proof (uint_val_to_uint (N.pos p)) as Hv. cbn [N.to_uint Z.of_N] in Hv.
  pose proof (DecimalPos.Unsigned.to_of (Pos.to_uint p)) as Hn.
  rewrite DecimalPos.Unsigned.of_to in Hn. cbn [N.to_uint] in Hn.
  destruct (Pos.to_uint p) as [|r|r|r|r|r|r|r|r|r|r] eqn:E;
    try (cbn [uint_val Decimal.nb_digits] in *;
         rewrite Nat2Z.inj_succ;
         replace (Z.succ (Z.of_nat (Decimal.nb_digits r)) - 1)
           with (Z.of_nat (Decimal.nb_digits r)) by lia;
         rewrite Z.pow_succ_r by lia;
         match type of Hv with
         | uint_val ?a r = _ =>
             destruct (uint_val_bounds r a ltac:(lia)) as [Hlo Hhi]
         end;
         split; [lia|]; lia).
  - cbn in Hv. lia.
  - (* a leading zero is not normalised *)
    exfalso. unfold Decimal.unorm in Hn. cbn [Decimal.nzhead] in Hn.
    assert (Hle : (Decimal.nb_digits (Decimal.nzhead r)
                   <= Decimal.nb_digits r)%nat)
      by apply DecimalFacts.nb_digits_nzhead.
    destruct (Decimal.nzhead r) eqn:Er.
    + injection Hn as ->. cbn in Hv. lia.
    + injection Hn as Hr. rewrite Hr in Hle. cbn in Hle. lia.
    + discriminate.
    + discriminate.
    + discriminate.
    + discriminate.
    + discriminate.
    + discriminate.
    + discriminate.
    + discriminate.
    + discriminate.
Qed.

End Numbers.

Section Strings.

Lemma pow10_interval_unique a b n :
  0 <= a -> 0 <= b ->
  10 ^ a <= n < 10 ^ (a + 1) -> 10 ^ b <= n < 10 ^ (b + 1) -> a = b.
Proof.
  intros Ha Hb [Hal Hah] [Hbl Hbh].
  destruct (Z.lt_trichotomy a b) as [Hlt | [Heq | Hgt]]; [|exact Heq|].
  - assert (10 ^ (a + 1) <= 10 ^ b) by (apply Z.pow_le_mono_r; lia). lia.
  - assert (10 ^ (b + 1) <= 10 ^ a) by (apply Z.pow_le_mono_r; lia). lia.
Qed.

Lemma string_of_uint_nonnil d :
  d <> Decimal.Nil ->
  NilZero.string_of_uint d = NilEmpty.string_of_uint d.
Proof. destruct d; [congruence | reflexivity..]. Qed.

Lemma strlen_to_uint p :
  strlen (NilZero.string_of_uint (Pos.to_uint p))
  = Z.of_nat (Decimal.nb_digits (Pos.to_uint p)).
Proof.
  rewrite string_of_uint_nonnil by apply DecimalPos.Unsigned.to_uint_nonnil.
  unfold strlen. rewrite c_str_string_of_uint, length_string_of_uint.
  reflexivity.
Qed.

Lemma number_len_pos p :
  Z.pos p < 2 ^ 64 ->
  number_len (Z.pos p)
  = strlen (NilZero.string_of_uint (Pos.to_uint p)) + 1.
Proof.
  intros Hp. rewrite strlen_to_uint.
  destruct (number_len_bounds (Z.pos p) ltac:(lia)) as [H1 Hb].
  destruct (to_uint_digits p) as [Hk Hd]. cbn zeta in Hk, Hd.
  set (k := Z.of_nat (Decimal.nb_digits (Pos.to_uint p))) in *.
  assert (E : number_len (Z.pos p) - 2 = k - 1).
  { apply (pow10_interval_unique _ _ (Z.pos p)); try lia.
    - replace (number_len (Z.pos p) - 2 + 1)
        with (number_len (Z.pos p) - 1) by lia. exact Hb.
    - replace (k - 1 + 1) with k by lia. exact Hd. }
  lia.
Qed.

(** X20.  [number_len] of 0 is 1; of any other [size_t] it is one more
    than the number of characters of its decimal form. *)
Theorem number_len_is_digits_plus_one n :
  0 <= n < 2 ^ 64 ->
  number_len n = if n =? 0 then 1 else strlen (fmt_lu n) + 1.
Proof.
  intros Hn. destruct (Z.eqb_spec n 0) as [->|Hz]; [reflexivity|].
  unfold fmt_lu. rewrite Z.mod_small by lia.
  destruct n as [|p|p]; [lia| |lia].
  cbn [Z.to_N N.to_uint]. apply number_len_pos. lia.
Qed.

Lemma is_integer_digits d : is_integer (NilEmpty.string_of_uint d) = true.
Proof.
  induction d; cbn [NilEmpty.string_of_uint is_integer]; try reflexivity;
    match goal with
    | |- (if is_nul ?c then _ else _) = _ =>
        change (is_nul c) with false; change (isdigit c) with true;
        cbv iota; cbn [negb]; exact IHd
    end.
Qed.

Lemma parse_int_loop_stop n rest :
  leading_digit rest = false -> parse_int_loop n rest = Some n.
Proof.
  destruct rest as [|c r]; [reflexivity|]. cbn [leading_digit parse_int_loop].
  destruct (is_nul c); [reflexivity|]. cbn [negb andb orb].
  intros ->. reflexivity.
Qed.

Lemma parse_int_loop_digits d :
  forall n rest,
    0 <= n ->
    uint_val n d <= INT_MAX ->
    parse_int_loop n (NilEmpty.string_of_uint d ++ rest)
    = parse_int_loop (uint_val n d) rest.
Proof.
  induction d as [|r IH|r IH|r IH|r IH|r IH|r IH|r IH|r IH|r IH|r IH];
    intros n rest Hn Hv; [reflexivity|..];
    cbn [NilEmpty.string_of_uint append parse_int_loop uint_val] in *;
    match goal with
    | |- (if is_nul ?c || _ then _ else _) = _ =>
        change (is_nul c) with false; change (isdigit c) with true;
        cbn [negb orb]; cbv iota
    end;
    match goal with
    | |- context [code ?c - 48] =>
        let v := eval vm_compute in (code c - 48) in
        change (code c - 48) with v
    end;
    match type of Hv with
    | uint_val ?a r <= _ =>
        destruct (uint_val_bounds r a ltac:(lia)) as [Hlo _];
        assert (0 < 10 ^ Z.of_nat (Decimal.nb_digits r))
          by (apply Z.pow_pos_nonneg; lia);
        assert (Hle : a <= INT_MAX) by nia;
        destruct (Z.ltb_spec INT_MAX a) as [Hgt|_]; [lia|];
        apply IH; [lia | exact Hv]
    end.
Qed.

Lemma fmt_d_nonneg n :
  0 <= n ->
  fmt_d n = NilEmpty.string_of_uint (N.to_uint (Z.to_N n))
  /\ uint_val 0 (N.to_uint (Z.to_N n)) = n.
Proof.
  intros Hn. split.
  - destruct n as [|p|p]; [reflexivity| |lia].
    unfold fmt_d. cbn [Z.to_int NilZero.string_of_int Z.to_N N.to_uint].
    apply string_of_uint_nonnil, DecimalPos.Unsigned.to_uint_nonnil.
  - rewrite uint_val_to_uint. lia.
Qed.

(** X21.  [parse_int] reads back what [%d] prints: for an [int] n >= 0,
    the decimal form of n is accepted by [is_integer], and [parse_int]
    of it, whatever follows it that is no digit, is n. *)
Theorem parse_int_reads_decimal n rest :
  0 <= n <= INT_MAX ->
  leading_digit rest = false ->
  is_integer (fmt_d n) = true
  /\ parse_int (fmt_d n ++ rest)%string = Some n.
Proof.
  intros Hn Hrest. destruct (fmt_d_nonneg n ltac:(lia)) as [Ef Ev].
  rewrite Ef. split; [apply is_integer_digits|].
  unfold parse_int. rewrite parse_int_loop_digits by (rewrite ?Ev; lia).
  rewrite Ev. apply parse_int_loop_stop, Hrest.
Qed.

Lemma decimal_prefix_ge s :
  forall n, 0 <= n -> n <= decimal_prefix n s.
Proof.
  induction s as [|c r IH]; intros n Hn; cbn [decimal_prefix]; [lia|].
  destruct (is_nul c || negb (isdigit c)) eqn:E; [lia|].
  apply orb_false_elim in E. destruct E as [_ Hd].
  apply negb_false_iff in Hd. unfold isdigit in Hd.
  apply andb_prop in Hd. destruct Hd as [H1 H2].
  apply Z.leb_le in H1, H2.
  specialize (IH (n * 10 + (code c - 48)) ltac:(lia)). lia.
Qed.

Lemma parse_int_loop_prefix s :
  forall n,
    0 <= n <= INT_MAX ->
    parse_int_loop n s
    = if decimal_prefix n s <=? INT_MAX
      then Some (decimal_prefix n s) else None.
Proof.
  induction s as [|c r IH]; intros n Hn;
    cbn [parse_int_loop decimal_prefix].
  - destruct (Z.leb_spec n INT_MAX); [reflexivity | lia].
  - destruct (is_nul c || negb (isdigit c)) eqn:E.
    + destruct (Z.leb_spec n INT_MAX); [reflexivity | lia].
    + apply orb_false_elim in E. destruct E as [_ Hd].
      apply negb_false_iff in Hd. unfold isdigit in Hd.
      apply andb_prop in Hd. destruct Hd as [H1 H2].
      apply Z.leb_le in H1, H2.
      set (n' := n * 10 + (code c - 48)).
      assert (Hn' : 0 <= n') by (unfold n'; lia).
      pose proof (decimal_prefix_ge r n' Hn') as Hge.
      destruct (Z.ltb_spec INT_MAX n') as [Hgt|Hle].
      * destruct (Z.leb_spec (decimal_prefix n' r) INT_MAX);
          [lia | reflexivity].
      * apply IH. lia.
Qed.

(** X22.  [parse_int] has no overflow check: it has a result exactly
    when the digits the string starts with denote a number up to
    INT_MAX, and the result is that number (0 when the string starts
    with no digit). *)
Theorem parse_int_defined_up_to_int_max s :
  parse_int s
  = if decimal_prefix 0 s <=? INT_MAX
    then Some (decimal_prefix 0 s) else None.
Proof. apply parse_int_loop_prefix. unfold INT_MAX. lia. Qed.

End Strings.

Section Allocation.

Lemma live_bytes_release bs a n :
  header_at bs a = Some n ->
  live_bytes (release_block bs a) = live_bytes bs - (n + SIZEOF_SIZE_T).
Proof.
  induction bs as [|[a' n'] r IH]; cbn [header_at release_block];
    [discriminate|].
  destruct (a' =? a).
  - intros [= ->]. unfold live_bytes. cbn [fold_right snd]. lia.
  - intros H. unfold live_bytes in *. cbn [fold_right snd].
    rewrite (IH H). lia.
Qed.

Lemma xmalloc_accounted ptr size h r h' :
  accounted h -> xmalloc ptr size h = Some (r, h') -> accounted h'.
Proof.
  unfold xmalloc, accounted. intros Ha.
  destruct (size =? 0); [discriminate|].
  destruct (2 ^ 64 <=? size + SIZEOF_SIZE_T); [discriminate|].
  destruct (ptr =? 0); intros [= <- <-]; [exact Ha|].
  cbn [memory blocks live_bytes fold_right snd]. unfold size_add.
  fold (live_bytes (blocks h)). rewrite Ha, Zplus_mod_idemp_l.
  f_equal. lia.
Qed.

Lemma xfree_accounted ptr h h' :
  accounted h -> xfree ptr h = Some h' -> accounted h'.
Proof.
  unfold xfree, accounted. intros Ha.
  destruct (ptr =? 0); [intros [= <-]; exact Ha|].
  destruct (ptr - SIZEOF_SIZE_T =? 0); [intros [= <-]; exact Ha|].
  destruct (header_at (blocks h) (ptr - SIZEOF_SIZE_T)) as [n|] eqn:E;
    [|discriminate].
  intros [= <-]. cbn [memory blocks].
  rewrite (live_bytes_release _ _ _ E), Ha, Zminus_mod_idemp_l.
  reflexivity.
Qed.

(** X25.  The counter behind [memory_used] stays exact under [xmalloc]
    and [xfree]: if it equals the bytes of the live blocks, headers
    included (modulo 2^64), it still does after any sequence of calls of
    the two, whatever [malloc] returns. *)
Theorem xmalloc_xfree_keep_accounting l :
  forall h h', accounted h -> calls l h = Some h' -> accounted h'.
Proof.
  induction l as [|c r IH]; intros h h' Ha; cbn [calls].
  - intros [= <-]. exact Ha.
  - destruct (call c h) as [h1|] eqn:E; [|discriminate].
    apply IH. destruct c as [ptr size | ptr]; cbn [call] in E.
    + destruct (xmalloc ptr size h) as [[q h2]|] eqn:Em; [|discriminate].
      injection E as <-. exact (xmalloc_accounted _ _ _ _ _ Ha Em).
    + exact (xfree_accounted _ _ _ Ha E).
Qed.

(** X26.  A block from [xmalloc] reports the size asked for, and [xfree]
    of it puts the heap and the counter back. *)
Theorem xfree_undoes_xmalloc ptr size h :
  0 <= memory h < 2 ^ 64 ->
  0 < ptr ->
  0 < size -> size + SIZEOF_SIZE_T < 2 ^ 64 ->
  exists h1,
    xmalloc ptr size h = Some (ptr + SIZEOF_SIZE_T, h1)
    /\ xmalloc_size (ptr + SIZEOF_SIZE_T) h1 = Some size
    /\ memory_used h1 = (memory_used h + size + SIZEOF_SIZE_T) mod 2 ^ 64
    /\ xfree (ptr + SIZEOF_SIZE_T) h1 = Some h.
Proof.
  intros Hm Hp Hs Hb. unfold xmalloc, SIZEOF_SIZE_T in *.
  destruct (Z.eqb_spec size 0); [lia|].
  destruct (Z.leb_spec (2 ^ 64) (size + 8)); [lia|].
  destruct (Z.eqb_spec ptr 0); [lia|].
  eexists. split; [reflexivity|].
  unfold xmalloc_size, xfree, SIZEOF_SIZE_T.
  destruct (Z.eqb_spec (ptr + 8) 0); [lia|].
  replace (ptr + 8 - 8) with ptr by lia.
  destruct (Z.eqb_spec ptr 0); [lia|].
  cbn [blocks memory header_at release_block]. rewrite Z.eqb_refl.
  split; [reflexivity|]. split.
  { unfold memory_used, size_add. cbn [memory]. f_equal. lia. }
  destruct h as [m bs]. cbn [memory blocks] in *. f_equal. f_equal.
  unfold size_add. rewrite Zminus_mod_idemp_l.
  replace (m + (size + 8) - (size + 8)) with m by lia.
  apply Z.mod_small. lia.
Qed.

(** X27.  An [xrealloc] that resizes a block adds [-curr_size + size +
    sizeof(size_t)] to the counter, although the header of the block was
    counted already: after it the counter is 8 above the bytes of the
    live blocks. *)
Theorem xrealloc_counts_header_again newptr ptr size curr h :
  accounted h ->
  ptr <> 0 ->
  header_at (blocks h) (ptr - SIZEOF_SIZE_T) = Some curr ->
  size <> curr ->
  0 < size -> size + SIZEOF_SIZE_T < 2 ^ 64 ->
  newptr <> 0 ->
  exists h',
    xrealloc newptr ptr size h = Some (newptr + SIZEOF_SIZE_T, h')
    /\ header_at (blocks h') newptr = Some size
    /\ memory_used h'
       = (live_bytes (blocks h') + SIZEOF_SIZE_T) mod 2 ^ 64.
Proof.
  intros Ha Hp Hh Hne Hs Hb Hn. unfold xrealloc.
  destruct (Z.eqb_spec size 0); [lia|].
  destruct (Z.eqb_spec ptr 0); [lia|].
  rewrite Hh.
  destruct (Z.eqb_spec size curr); [lia|].
  destruct (Z.leb_spec (2 ^ 64) (size + SIZEOF_SIZE_T)); [lia|].
  destruct (Z.eqb_spec newptr 0); [lia|].
  eexists. split; [reflexivity|]. cbn [blocks memory header_at].
  rewrite Z.eqb_refl. split; [reflexivity|].
  unfold memory_used. cbn [memory live_bytes fold_right snd].
  fold (live_bytes (release_block (blocks h) (ptr - SIZEOF_SIZE_T))).
  rewrite (live_bytes_release _ _ _ Hh), Ha, Zplus_mod_idemp_l.
  f_equal. lia.
Qed.

End Allocation.

Section UpdateInteger.

Lemma append_empty_r s : (s ++ EmptyString)%string = s.
Proof.
  induction s as [|c r IH]; cbn; [reflexivity | rewrite IH; reflexivity].
Qed.

Lemma strlen_fmt_d_neg p :
  strlen (fmt_d (Z.neg p))
  = 1 + Z.of_nat (Decimal.nb_digits (Pos.to_uint p)).
Proof.
  unfold fmt_d. cbn [Z.to_int NilZero.string_of_int].
  rewrite string_of_uint_nonnil by apply DecimalPos.Unsigned.to_uint_nonnil.
  unfold strlen. cbn [c_str]. change (is_nul "-") with false. cbv iota.
  rewrite c_str_string_of_uint. cbn [String.length].
  rewrite length_string_of_uint. lia.
Qed.

(** [tmp] is large enough for what [sprintf] writes. *)
Lemma sprintf_fits_tmp n :
  INT_MIN <= n <= INT_MAX ->
  1 <= strlen (fmt_d n) <= 11
  /\ strlen (fmt_d n) + 1 <= number_len n + 1.
Proof.
  unfold INT_MIN, INT_MAX. intros Hn. destruct n as [|p|p].
  - vm_compute. split; [split|]; discriminate.
  - assert (Hf : fmt_d (Z.pos p)
                 = NilZero.string_of_uint (Pos.to_uint p)) by reflexivity.
    pose proof (number_len_pos p ltac:(lia)) as Hl.
    rewrite Hf. rewrite Hl. rewrite strlen_to_uint.
    destruct (to_uint_digits p) as [Hk Hd]. cbn zeta in Hk, Hd.
    set (k := Z.of_nat (Decimal.nb_digits (Pos.to_uint p))) in *.
    assert (k - 1 < 10).
    { apply (Z.pow_lt_mono_r_iff 10); [lia|lia|].
      assert (2147483647 < 10 ^ 10) by (vm_compute; reflexivity). lia. }
    lia.
  - rewrite strlen_fmt_d_neg.
    destruct (to_uint_digits p) as [Hk Hd]. cbn zeta in Hk, Hd.
    set (k := Z.of_nat (Decimal.nb_digits (Pos.to_uint p))) in *.
    assert (Hk10 : k - 1 < 10).
    { apply (Z.pow_lt_mono_r_iff 10); [lia|lia|].
      assert (2147483648 < 10 ^ 10) by (vm_compute; reflexivity). lia. }
    split; [lia|].
    unfold number_len.
    set (m := Z.neg p mod 2 ^ 64).
    assert (Hm : 10 ^ 19 <= m < 2 ^ 64).
    { assert (E : m = Z.neg p + 2 ^ 64).
      { unfold m. symmetry. apply Z.mod_unique with (q := -1); lia. }
      rewrite E. assert (10 ^ 19 + 2147483648 <= 2 ^ 64)
        by (vm_compute; discriminate). lia. }
    pose proof (number_len_bounds m ltac:(lia)) as [_ [_ Hhi]].
    unfold number_len in Hhi. rewrite (Z.mod_small m) in Hhi by lia.
    set (len := number_len_loop 20 1 m) in *.
    assert (19 < len - 1).
    { apply (Z.pow_lt_mono_r_iff 10); [lia| |lia].
      destruct (Z.le_gt_cases 0 (len - 1)); [assumption|].
      rewrite Z.pow_neg_r in Hhi by lia. lia. }
    lia.
Qed.

(** X23.  [update_integer_string] on a live block holding a string that
    [parse_int] reads as n0: whenever n0 + num is an [int] and [realloc]
    succeeds, [sprintf] stays inside [tmp], the result is the decimal
    form of n0 + num in a block of its length plus one, and for a result
    that is not negative [parse_int] reads it back. *)
Theorem update_integer_string_result newptr ptr str num h n0 curr :
  parse_int str = Some n0 ->
  INT_MIN <= n0 + num <= INT_MAX ->
  ptr <> 0 ->
  header_at (blocks h) (ptr - SIZEOF_SIZE_T) = Some curr ->
  0 < newptr ->
  exists q h',
    update_integer_string newptr ptr str num h
    = Some (q, fmt_d (n0 + num), h')
    /\ header_at (blocks h') (q - SIZEOF_SIZE_T)
       = Some (strlen (fmt_d (n0 + num)) + 1)
    /\ (0 <= n0 + num -> parse_int (fmt_d (n0 + num)) = Some (n0 + num)).
Proof.
  intros Hp Hn Hptr Hh Hnew. unfold update_integer_string.
  destruct (Z.eqb_spec ptr 0) as [E|_]; [contradiction|]. rewrite Hp.
  cbv zeta.
  destruct (Z.ltb_spec (n0 + num) INT_MIN); [lia|].
  destruct (Z.ltb_spec INT_MAX (n0 + num)); [lia|]. cbn [orb].
  destruct (sprintf_fits_tmp (n0 + num) Hn) as [Hlen Hfit].
  destruct (Z.ltb_spec (number_len (n0 + num) + 1)
              (strlen (fmt_d (n0 + num)) + 1)); [lia|].
  set (len := strlen (fmt_d (n0 + num))) in *.
  assert (Hparse : 0 <= n0 + num ->
                   parse_int (fmt_d (n0 + num)) = Some (n0 + num)).
  { intros Hge. destruct (fmt_d_nonneg (n0 + num) Hge) as [Ef Ev].
    rewrite Ef. rewrite <- (append_empty_r (NilEmpty.string_of_uint _)).
    unfold parse_int. rewrite parse_int_loop_digits by (rewrite ?Ev; lia).
    rewrite Ev. reflexivity. }
  unfold xrealloc.
  destruct (Z.eqb_spec (len + 1) 0); [lia|].
  destruct (Z.eqb_spec ptr 0); [lia|].
  rewrite Hh.
  destruct (Z.eqb_spec (len + 1) curr) as [Ec|Ec].
  - destruct (Z.eqb_spec ptr 0); [lia|].
    exists ptr, h. split; [reflexivity|]. rewrite Hh, Ec.
    split; [reflexivity | exact Hparse].
  - destruct (Z.leb_spec (2 ^ 64) (len + 1 + SIZEOF_SIZE_T)).
    { unfold SIZEOF_SIZE_T in *.
      assert (20 < 2 ^ 64) by (vm_compute; reflexivity). lia. }
    destruct (Z.eqb_spec newptr 0); [lia|].
    unfold SIZEOF_SIZE_T in *.
    destruct (Z.eqb_spec (newptr + 8) 0) as [E0|E0]; [lia|].
    eexists. eexists. split; [reflexivity|].
    replace (newptr + 8 - 8) with newptr by lia.
    cbn [blocks header_at]. rewrite Z.eqb_refl.
    split; [reflexivity | exact Hparse].
Qed.

End UpdateInteger.

Section RemoveOccur.

Lemma poke_at out y t x :
  poke (out ++ y :: t) (List.length out) x = Some (out ++ x :: t).
Proof.
  unfold poke.
  assert (Hl : (List.length out <? List.length (out ++ y :: t))%nat = true).
  { apply Nat.ltb_lt. rewrite length_app. cbn. lia. }
  rewrite Hl. f_equal. clear Hl.
  induction out as [|a out IH]; cbn; [reflexivity|].
  cbn in IH. rewrite IH. reflexivity.
Qed.

Lemma nth_error_mid (out junk : list ascii) x r :
  nth_error (out ++ junk ++ x :: r) (List.length out + List.length junk)
  = Some x.
Proof.
  rewrite app_assoc, <- length_app.
  rewrite nth_error_app2 by lia. rewrite Nat.sub_diag. reflexivity.
Qed.

Lemma remove_occur_loop_spec c rem :
  forall fuel out junk rest,
    (forall x, In x rem -> is_nul x = false) ->
    (List.length rem < fuel)%nat ->
    exists tail,
      remove_occur_loop fuel c (out ++ junk ++ rem ++ zero :: rest)
        (List.length out + List.length junk) (List.length out)
      = Some (out ++ filter (fun x => negb (Ascii.eqb x c)) rem
                ++ zero :: tail)
      /\ (List.length (filter (fun x => negb (Ascii.eqb x c)) rem)
          + List.length tail
          = List.length junk + List.length rem + List.length rest)%nat.
Proof.
  induction rem as [|x rem IH]; intros fuel out junk rest Hnn Hf;
    (destruct fuel as [|f]; [cbn in Hf; lia|]); cbn [remove_occur_loop].
  - cbn [app filter]. rewrite nth_error_mid.
    change (is_nul zero) with true. cbv iota.
    destruct junk as [|j junk]; cbn [app].
    + rewrite poke_at. exists rest. split; [reflexivity | cbn; lia].
    + rewrite poke_at. exists (junk ++ zero :: rest).
      split; [reflexivity|]. rewrite length_app. cbn. lia.
  - cbn [app]. rewrite nth_error_mid.
    rewrite (Hnn x) by (left; reflexivity). cbv iota.
    assert (Hnn' : forall y, In y rem -> is_nul y = false)
      by (intros y Hy; apply Hnn; right; exact Hy).
    assert (Hf' : (List.length rem < f)%nat) by (cbn in Hf; lia).
    assert (Hp : exists t,
               poke (out ++ junk ++ x :: rem ++ zero :: rest)
                 (List.length out) x
               = Some (out ++ (x :: t) ++ rem ++ zero :: rest)
               /\ List.length t = List.length junk).
    { destruct junk as [|j junk]; cbn [app].
      - rewrite poke_at. exists []. split; reflexivity.
      - rewrite poke_at. exists (junk ++ [x]). split.
        + cbn [app]. rewrite <- app_assoc. reflexivity.
        + rewrite length_app. cbn. lia. }
    destruct Hp as (t & Hp & Ht). rewrite Hp. cbn [filter].
    destruct (Ascii.eqb x c); cbn [negb].
    + destruct (IH f out (x :: t) rest Hnn' Hf') as (tail & Hr & Hl).
      replace (S (List.length out + List.length junk))
        with (List.length out + List.length (x :: t))%nat
        by (cbn; lia).
      rewrite Hr. exists tail. split; [reflexivity|].
      cbn in Hl. cbn. lia.
    + destruct (IH f (out ++ [x]) t rest Hnn' Hf') as (tail & Hr & Hl).
      replace (S (List.length out + List.length junk))
        with (List.length (out ++ [x]) + List.length t)%nat
        by (rewrite length_app; cbn; lia).
      replace (S (List.length out)) with (List.length (out ++ [x]))
        by (rewrite length_app; cbn; lia).
      replace (out ++ (x :: t) ++ rem ++ zero :: rest)
        with ((out ++ [x]) ++ t ++ rem ++ zero :: rest)
        by (rewrite <- app_assoc; reflexivity).
      rewrite Hr. exists tail. split.
      * rewrite <- app_assoc. reflexivity.
      * cbn. lia.
Qed.

(** X24.  [remove_occur] on a buffer that holds the characters [body],
    the terminator and whatever follows: it has a result, the buffer
    keeps its length, and it then holds the characters of [body] other
    than [c], in their order, and a terminator. *)
Theorem remove_occur_filters body rest c :
  (forall x, In x body -> is_nul x = false) ->
  exists tail,
    remove_occur (body ++ zero :: rest) c
    = Some (filter (fun x => negb (Ascii.eqb x c)) body ++ zero :: tail)
    /\ List.length
         (filter (fun x => negb (Ascii.eqb x c)) body ++ zero :: tail)
       = List.length (body ++ zero :: rest).
Proof.
  intros Hnn. unfold remove_occur.
  destruct (remove_occur_loop_spec c body
              (S (List.length (body ++ zero :: rest))) [] [] rest Hnn)
    as (tail & Hr & Hl).
  { rewrite length_app. cbn. lia. }
  cbn [app List.length Nat.add] in Hr. exists tail. split; [exact Hr|].
  rewrite !length_app. cbn [List.length] in *. lia.
Qed.

End RemoveOccur.


(** * The further theorems at work on concrete inputs *)

Lemma counter_mid_keeps_session : allocator_keeps_session.
Proof. intros c. cbn. repeat split. Qed.

(** On [fanout_state], a QoS-0 PUBLISH reaches "S" and leaves nothing
    in flight. *)
Lemma fanout_qos0_is_untracked_witness :
  exists s',
    publish_step sample_oracle 0 0%nat fanout_state 0%nat = Some s'
    /\ has_inflight (clients s' 5) = false.
Proof.
  destruct (fanout_qos0_is_untracked sample_oracle 0 0%nat fanout_state
              0%nat publish_t_slash)
    as (s' & Hs & _ & _ & _ & _ & Hf & _).
  - reflexivity.
  - reflexivity.
  - reflexivity.
  - exists s'. split; [exact Hs | exact Hf].
Defined.

(** On [fanout_state], a QoS-1 PUBLISH reaches "S" and is tracked. *)
Lemma fanout_tracks_delivery_witness :
  exists s',
    publish_step sample_oracle 1 0%nat fanout_state 0%nat = Some s'
    /\ has_inflight (clients s' 5) = true.
Proof.
  destruct (fanout_tracks_delivery sample_oracle 1 0%nat fanout_state
              0%nat publish_t_slash)
    as (s' & Hs & _ & Hf & _).
  - reflexivity.
  - reflexivity.
  - vm_compute. split; discriminate.
  - exists s'. split; [exact Hs | exact Hf].
Defined.

(** On [fanout_state], the fan-out arms one write, for client 5. *)
Lemma fanout_arms_online_subscribers_witness :
  exists s',
    publish_loop sample_oracle 1 0%nat [0; 1; 2]%nat fanout_state = Some s'
    /\ write_queue s' = [5]
    /\ messages_sent s' = 1.
Proof.
  destruct (fanout_arms_online_subscribers sample_oracle 1 0%nat
              [0; 1; 2]%nat counter_mid_keeps_session fanout_state
              publish_t_slash)
    as (s' & Hs & Hq & Hm).
  - reflexivity.
  - exists s'. split; [exact Hs|]. split; [exact Hq | exact Hm].
Defined.

(** On [fanout_state], after the fan-out the pooled packet has the QoS
    of the turn of "U", the last subscriber. *)
Lemma fanout_leaves_last_qos_witness :
  Header.qos
    (header
       (pkt_mem
          (state_of
             (publish_loop sample_oracle 1 0%nat ([0; 1] ++ [2])%nat
                fanout_state)) 0%nat))
  = Z.min 1 (sub_qos (sub_mem fanout_state 2%nat)).
Proof.
  apply (fanout_leaves_last_qos sample_oracle 1 0%nat [0; 1]%nat 2%nat
           fanout_state _ publish_t_slash).
  - reflexivity.
  - lia.
  - vm_compute. discriminate.
  - vm_compute. reflexivity.
Defined.

(** On [both_online], the two PUBACKs for the one PUBLISH put pool
    block 0 twice into the pool. *)
Lemma shared_block_is_freed_by_each_puback_witness :
  exists s1 s2 s3,
    publish_loop sample_oracle 1 0%nat [0; 1]%nat both_online = Some s1
    /\ puback_handler sample_oracle (ack_event 5 1) s1 = Some (NOREPLY, s2)
    /\ puback_handler sample_oracle (ack_event 6 1) s2 = Some (NOREPLY, s3)
    /\ pool s3 = [0; 0; 1; 2; 3]%nat.
Proof.
  apply (shared_block_is_freed_by_each_puback sample_oracle 1 0%nat
           both_online 0%nat 1%nat publish_t_slash (ack_event 5 1)
           (ack_event 6 1)).
  - reflexivity.
  - vm_compute. discriminate.
  - reflexivity.
  - reflexivity.
  - vm_compute. split; discriminate.
  - vm_compute. split; discriminate.
  - reflexivity.
  - reflexivity.
  - reflexivity.
  - reflexivity.
  - reflexivity.
  - reflexivity.
Defined.



(** On [secured], the CONNECT of "u" with the right password passes:
    it carried both credentials and they check. *)
Lemma connect_passes_the_gate_witness :
  cb_username (login "pw") = true /\ cb_password (login "pw") = true
  /\ exists salt,
       hashtable_get (authentications secured) (cp_username (login "pw"))
       = Some salt
       /\ check_passwd (cp_password (login "pw")) salt = true.
Proof.
  apply (connect_passes_the_gate sample_oracle (login_event "pw") secured
           (login "pw") REPLY
           (after (connect_handler sample_oracle (login_event "pw")
                     secured))).
  - reflexivity.
  - reflexivity.
  - vm_compute. reflexivity.
  - discriminate.
Defined.

(** On [secured], the CONNECT of "u" with a wrong password is refused
    and changes nothing but the CONNACK it stages. *)
Lemma connect_rejection_only_stages_connack_witness :
  (MQTT_BAD_USERNAME_OR_PASSWORD = MQTT_BAD_USERNAME_OR_PASSWORD
   \/ MQTT_BAD_USERNAME_OR_PASSWORD = MQTT_NOT_AUTHORIZED)
  /\ after (connect_handler sample_oracle (login_event "no") secured)
     = set_client 4
         (set_payload_connack MQTT_BAD_USERNAME_OR_PASSWORD
            (clients secured 4)) secured.
Proof.
  apply (connect_rejection_only_stages_connack sample_oracle
           (login_event "no") secured).
  vm_compute. reflexivity.
Defined.

(** On [live_session], the accepted CONNECT of "A" leaves a clean
    session named "A". *)
Lemma accepted_connect_session_witness :
  let s' :=
    after (connect_handler sample_oracle (connect_event 4 "A" true)
             live_session) in
  client_id (clients s' 4) = "A"%string
  /\ clean_session (clients s' 4) = true
  /\ subscriptions (clients s' 4) = [].
Proof.
  intros s'.
  destruct (accepted_connect_session sample_oracle
              (connect_event 4 "A" true) live_session
              {| cb_username := false; cb_password := false;
                 cb_will_retain := false; cb_will_qos := 0;
                 cb_will := false; cb_clean_session := true;
                 cp_keepalive := 60; cp_client_id := "A";
                 cp_username := EmptyString; cp_password := EmptyString;
                 cp_will_topic := EmptyString;
                 cp_will_message := EmptyString |} s')
    as (Hid & Hc & _ & Hs & _).
  - reflexivity.
  - vm_compute. reflexivity.
  - split; [exact Hid|]. split; [exact Hc|]. exact (proj1 (Hs eq_refl)).
Defined.

(** On [broker0], a CONNECT without client id is named by the
    broker. *)
Lemma anonymous_connect_gets_generated_id_witness :
  client_id
    (clients
       (after (connect_handler sample_oracle
                 (connect_event 4 EmptyString true) broker0)) 4)
  = generate_random_id sample_oracle.
Proof.
  apply (anonymous_connect_gets_generated_id sample_oracle
           (connect_event 4 EmptyString true) broker0
           {| cb_username := false; cb_password := false;
              cb_will_retain := false; cb_will_qos := 0;
              cb_will := false; cb_clean_session := true;
              cp_keepalive := 60; cp_client_id := EmptyString;
              cp_username := EmptyString; cp_password := EmptyString;
              cp_will_topic := EmptyString;
              cp_will_message := EmptyString |}).
  - reflexivity.
  - reflexivity.
  - vm_compute. reflexivity.
Defined.

(** On [queued], the CONNECT of "T" stages the queued PUBLISH at
    offset 0 and the CONNACK behind it at offset 10; the cursor ends
    at 14. *)
Lemma connect_flushes_queue_in_order_witness :
  let s' :=
    after (connect_handler sample_oracle (connect_event 6 "T" false)
             queued) in
  wbuf (clients s' 6)
  = [ {| w_off := 0; w_data := Packed (pkt_mem queued 0%nat) |};
      {| w_off := 10;
         w_data := Packed (connack_packet MQTT_CONNECTION_ACCEPTED) |} ]
  /\ towrite (clients s' 6) = 14
  /\ outgoing_msgs (clients s' 6) = [PoolPkt 0%nat].
Proof.
  intros s'.
  destruct (connect_flushes_queue_in_order sample_oracle
              (connect_event 6 "T" false) queued
              {| cb_username := false; cb_password := false;
                 cb_will_retain := false; cb_will_qos := 0;
                 cb_will := false; cb_clean_session := false;
                 cp_keepalive := 60; cp_client_id := "T";
                 cp_username := EmptyString; cp_password := EmptyString;
                 cp_will_topic := EmptyString;
                 cp_will_message := EmptyString |} s' [0%nat])
    as (_ & Hq & Hw & Ht).
  - reflexivity.
  - reflexivity.
  - reflexivity.
  - vm_compute. reflexivity.
  - split; [exact Hw|]. split; [exact Ht | exact Hq].
Defined.

(** On [broker0], the CONNECT with a retained will stores it in the
    session and as the retained message of "w/". *)
Lemma connect_stores_will_witness :
  let s' := after (connect_handler sample_oracle will_event broker0) in
  has_lwt (clients s' 4) = true
  /\ lwt_msg (clients s' 4) = will_packet with_will
  /\ retained_of s' "w/"
     = Some {| bs_len := mqtt_size (will_packet with_will);
               bs_bytes := Packed (will_packet with_will) |}.
Proof.
  intros s'.
  destruct (connect_stores_will sample_oracle will_event broker0 with_will
              s')
    as (Hl & Hm & _ & Hr).
  - reflexivity.
  - reflexivity.
  - vm_compute. reflexivity.
  - split; [exact Hl|]. split; [exact Hm | exact (Hr eq_refl)].
Defined.

(** On [wild_state], an UNSUBSCRIBE of "b" is answered with UNSUBACK
    12, staged at offset 0; the cursor ends at 4. *)
Lemma unsubscribe_always_acks_witness :
  exists s',
    unsubscribe_handler sample_oracle (unsubscribe_event ["b"%string])
      wild_state = Some (REPLY, s')
    /\ wbuf (clients s' 9)
       = [ {| w_off := 0; w_data := Mono UNSUBACK 12 |} ]
    /\ towrite (clients s' 9) = 4.
Proof.
  destruct (unsubscribe_always_acks sample_oracle
              (unsubscribe_event ["b"%string]) wild_state
              {| unsub_pkt_id := 12; unsub_tuples := ["b"%string] |})
    as (s' & Hs & Hw & _ & _ & Ht).
  - reflexivity.
  - exists s'. split; [exact Hs|]. split; [exact Hw | exact Ht].
Defined.

(** On [fanout_state], the QoS-2 PUBLISH 42 of client 8 and its PUBREL
    are answered with PUBREC 42 at offset 0 and PUBCOMP 42 at offset 4;
    the cursor ends at 8. *)
Lemma inbound_qos2_exchange_witness :
  exists s2,
    pubrel_handler sample_oracle (ack_event 8 42)
      (after (publish_handler sample_oracle (publish_event 2) fanout_state))
    = Some (REPLY, s2)
    /\ in_use (in_i_acks (clients s2 8) 42) = false
    /\ wbuf (clients s2 8)
       = [ {| w_off := 0; w_data := Mono PUBREC 42 |};
           {| w_off := 4; w_data := Mono PUBCOMP 42 |} ]
    /\ towrite (clients s2 8) = 8.
Proof.
  destruct (inbound_qos2_exchange sample_oracle sample_oracle
              (publish_event 2) (ack_event 8 42) fanout_state REPLY
              (after (publish_handler sample_oracle (publish_event 2)
                        fanout_state)) publish_t)
    as (_ & _ & s2 & w0 & off & Hw1 & _ & Hr & Hu & Hw2 & Ht2).
  - reflexivity.
  - vm_compute. reflexivity.
  - vm_compute. reflexivity.
  - reflexivity.
  - reflexivity.
  - assert (Hfirst :
              wbuf
                (clients
                   (after (publish_handler sample_oracle (publish_event 2)
                             fanout_state)) 8)
              = [] ++ [ {| w_off := 0; w_data := Mono PUBREC 42 |} ])
      by (vm_compute; reflexivity).
    change (ev_client (publish_event 2)) with 8 in Hw1, Hu, Hw2, Ht2.
    change (pkt_id publish_t) with 42 in Hw1, Hu, Hw2.
    rewrite Hfirst in Hw1. apply app_inj_tail in Hw1.
    destruct Hw1 as [<- Hoff]. injection Hoff as <-.
    exists s2. split; [exact Hr|]. split; [exact Hu|].
    split; [exact Hw2 | exact Ht2].
Defined.

(** On [fanout_state], the PUBLISH with RETAIN becomes the retained
    message of "t/". *)
Lemma publish_replaces_retained_witness :
  retained_of
    (after (publish_handler sample_oracle retained_event fanout_state)) "t/"
  = Some {| bs_len := mqtt_size (data retained_event);
            bs_bytes := Packed (data retained_event) |}.
Proof.
  assert (Hr : publish_handler sample_oracle retained_event fanout_state
               = Some (NOREPLY,
                       after (publish_handler sample_oracle retained_event
                                fanout_state)))
    by (vm_compute; reflexivity).
  exact (publish_replaces_retained sample_oracle retained_event fanout_state
           publish_t NOREPLY _ "t/" eq_refl eq_refl Hr "t/"%string).
Defined.

(** On [fanout_state], client 9 subscribes to "t" after the PUBLISH
    with RETAIN: that PUBLISH is staged at offset 0, the SUBACK behind
    it at offset 7, and the cursor ends at 12. *)
Lemma retained_publish_is_replayed_witness :
  exists s2,
    subscribe_handler sample_oracle (subscribe_event [filter_t])
      (after (publish_handler sample_oracle retained_event fanout_state))
    = Some (REPLY, s2)
    /\ wbuf (clients s2 9)
       = [ {| w_off := 0; w_data := Packed (data retained_event) |};
           {| w_off := 7;
              w_data :=
                Packed
                  (suback_packet
                     {| sub_pkt_id := 11; tuples := [filter_t] |}) |} ]
    /\ towrite (clients s2 9) = 12.
Proof.
  destruct (retained_publish_is_replayed sample_oracle retained_event
              fanout_state publish_t NOREPLY
              (after (publish_handler sample_oracle retained_event
                        fanout_state)) "t/" sample_oracle
              (subscribe_event [filter_t])
              {| sub_pkt_id := 11; tuples := [filter_t] |} [] filter_t []
              false)
    as (s2 & Hr & Hw & _ & Ht & _).
  - reflexivity.
  - reflexivity.
  - reflexivity.
  - vm_compute. reflexivity.
  - reflexivity.
  - intros tp [<-|[]]. vm_compute. discriminate.
  - reflexivity.
  - reflexivity.
  - exists s2. split; [exact Hr|]. split; [exact Hw | exact Ht].
Defined.

(** On [wild_state], client 9 subscribes to "t" with QoS 2 and then
    gets the QoS-1 PUBLISH of client 8 on "t" with QoS 1 and the
    payload "hi". *)
Lemma subscriber_receives_later_publish_witness :
  exists s1 r s2 ws off pk mid,
    subscribe_handler sample_oracle (subscribe_event [filter_t]) wild_state
    = Some (REPLY, s1)
    /\ publish_handler sample_oracle (publish_event 1) s1 = Some (r, s2)
    /\ wbuf (clients s2 9) = wbuf (clients s1 9) ++ ws
    /\ In {| w_off := off; w_data := Packed pk |} ws
    /\ Header.qos (header pk)
       = Z.min (Header.qos (header (data (publish_event 1)))) 2
    /\ body pk = BPublish (set_pkt_id mid publish_t)
    /\ exists before mid0 behind,
         let t1 := towrite (clients s1 9) in
         let len :=
           mqtt_size {| header := header pk;
                        body := BPublish (set_pkt_id mid0 publish_t) |} in
         ws = fst (stage t1 (before ++ (Packed pk, len) :: behind))
         /\ off = snd (stage t1 before)
         /\ towrite (clients s2 9)
            = snd (stage t1 (before ++ (Packed pk, len) :: behind)).
Proof.
  apply (subscriber_receives_later_publish sample_oracle sample_oracle
           (subscribe_event [filter_t]) (publish_event 1) wild_state
           {| sub_pkt_id := 11; tuples := [filter_t] |} [] filter_t "t/"
           false publish_t counter_mid_keeps_session).
  - reflexivity.
  - reflexivity.
  - intros t [].
  - reflexivity.
  - vm_compute. discriminate.
  - reflexivity.
  - vm_compute. discriminate.
  - reflexivity.
  - reflexivity.
Defined.

(** On [wild_state], client 9 subscribes to "b" and unsubscribes from
    "b": its subscriber record is still installed in "b/". *)
Lemma unsubscribe_misses_normalised_topic_witness :
  exists s1 s2 a,
    subscribe_handler sample_oracle (subscribe_event [filter_b]) wild_state
    = Some (REPLY, s1)
    /\ unsubscribe_handler sample_oracle (unsubscribe_event ["b"%string]) s1
       = Some (REPLY, s2)
    /\ topics s2 = topics s1
    /\ installed s2 "b/" (client_id (clients wild_state 9)) a
    /\ sub_client (sub_mem s2 a) = 9.
Proof.
  apply (unsubscribe_misses_normalised_topic sample_oracle sample_oracle
           (subscribe_event [filter_b]) (unsubscribe_event ["b"%string])
           wild_state {| sub_pkt_id := 11; tuples := [filter_b] |} filter_b
           "b/" false {| unsub_pkt_id := 12; unsub_tuples := ["b"%string] |}).
  - reflexivity.
  - reflexivity.
  - reflexivity.
  - discriminate.
  - reflexivity.
  - reflexivity.
  - reflexivity.
  - reflexivity.
Defined.

(** [number_len] of 1234, four characters, is 5. *)
Lemma number_len_is_digits_plus_one_witness :
  number_len 1234 = if 1234 =? 0 then 1 else strlen (fmt_lu 1234) + 1.
Proof.
  apply (number_len_is_digits_plus_one 1234). vm_compute.
  split; [discriminate | reflexivity].
Defined.

(** [parse_int] of "42x" is 42. *)
Lemma parse_int_reads_decimal_witness :
  is_integer (fmt_d 42) = true
  /\ parse_int (fmt_d 42 ++ "x")%string = Some 42.
Proof.
  apply (parse_int_reads_decimal 42 "x").
  - vm_compute. split; discriminate.
  - reflexivity.
Defined.

(** On [one_block], "41" updated by 1 is "42", in a block of 3
    bytes. *)
Lemma update_integer_string_result_witness :
  exists q h',
    update_integer_string 200 108 "41" 1 one_block
    = Some (q, fmt_d (41 + 1), h')
    /\ header_at (blocks h') (q - SIZEOF_SIZE_T)
       = Some (strlen (fmt_d (41 + 1)) + 1)
    /\ (0 <= 41 + 1 -> parse_int (fmt_d (41 + 1)) = Some (41 + 1)).
Proof.
  apply (update_integer_string_result 200 108 "41" 1 one_block 41 3).
  - reflexivity.
  - vm_compute. split; discriminate.
  - discriminate.
  - reflexivity.
  - reflexivity.
Defined.

(** [remove_occur] of '-' on the buffer "a-b". *)
Lemma remove_occur_filters_witness :
  exists tail,
    remove_occur (["a"; "-"; "b"]%char ++ zero :: []) "-"
    = Some (filter (fun x => negb (Ascii.eqb x "-")) ["a"; "-"; "b"]%char
              ++ zero :: tail)
    /\ List.length
         (filter (fun x => negb (Ascii.eqb x "-")) ["a"; "-"; "b"]%char
            ++ zero :: tail)
       = List.length (["a"; "-"; "b"]%char ++ zero :: []).
Proof.
  apply (remove_occur_filters ["a"; "-"; "b"]%char [] "-"%char).
  intros x [<-|[<-|[<-|[]]]]; reflexivity.
Defined.

(** Two [xmalloc] and one [xfree] on the empty heap leave the counter
    exact. *)
Lemma xmalloc_xfree_keep_accounting_witness :
  accounted
    (heap_of (calls [Malloc 100 5; Malloc 200 7; Free 108] empty_heap)).
Proof.
  apply (xmalloc_xfree_keep_accounting
           [Malloc 100 5; Malloc 200 7; Free 108] empty_heap).
  - reflexivity.
  - reflexivity.
Defined.

(** [xmalloc] of 5 bytes on the empty heap, and [xfree] of the block. *)
Lemma xfree_undoes_xmalloc_witness :
  exists h1,
    xmalloc 100 5 empty_heap = Some (100 + SIZEOF_SIZE_T, h1)
    /\ xmalloc_size (100 + SIZEOF_SIZE_T) h1 = Some 5
    /\ memory_used h1
       = (memory_used empty_heap + 5 + SIZEOF_SIZE_T) mod 2 ^ 64
    /\ xfree (100 + SIZEOF_SIZE_T) h1 = Some empty_heap.
Proof.
  apply (xfree_undoes_xmalloc 100 5 empty_heap).
  - vm_compute. split; [discriminate | reflexivity].
  - reflexivity.
  - reflexivity.
  - reflexivity.
Defined.

(** On [one_block], [xrealloc] of the block to 9 bytes leaves the
    counter at 25 for 17 live bytes. *)
Lemma xrealloc_counts_header_again_witness :
  exists h',
    xrealloc 200 108 9 one_block = Some (200 + SIZEOF_SIZE_T, h')
    /\ header_at (blocks h') 200 = Some 9
    /\ memory_used h'
       = (live_bytes (blocks h') + SIZEOF_SIZE_T) mod 2 ^ 64.
Proof.
  apply (xrealloc_counts_header_again 200 108 9 3 one_block).
  - reflexivity.
  - discriminate.
  - reflexivity.
  - discriminate.
  - reflexivity.
  - reflexivity.
  - discriminate.
Defined.
